(** * beszel-snmp: the SNMP hub agent (package [snmpagent])

    A shallow embedding of the agent's runtime (device registry and state,
    value pipeline, trap receiver, poller, hub sessions) together with the
    properties its specification states about it.

    Go values are modelled as follows.
    - [string] is a byte string, as in Go; [[]byte] is [list byte].
    - [float64] is Rocq's primitive binary64 [float].
    - [map[string]T] is [gmap string T]; a [range] over a map visits the
      entries in an order chosen by the runtime (see [GoRuntime]).
    - [*deviceState] is an index into a store of device states, so that the
      registry and the hub sessions can share (or fail to share) one object.
    - library code the agent calls but does not define ([net.IP.String],
      [strings.ToLower], [regexp], [ssh], [cbor], [gosnmp]) is a field of
      [GoRuntime]; SHA-256, hex, [strings.ReplaceAll] and [math.Round] are
      defined here. *)

From Stdlib Require Import ZArith List String Ascii Floats Lia Permutation.
From Stdlib.Strings Require Import Byte.
From stdpp Require Import gmap strings list fin_maps.

Local Open Scope Z_scope.

(** ** crypto/sha256 *)

Module sha256.

Definition mask32 : Z := 0xFFFFFFFF.
Definition add32 (a b : Z) : Z := Z.land (a + b) mask32.
Definition not32 (a : Z) : Z := Z.lxor a mask32.
Definition rotr (n x : Z) : Z :=
  Z.lor (Z.shiftr x n) (Z.land (Z.shiftl x (32 - n)) mask32).

Definition Ch (x y z : Z) : Z := Z.lxor (Z.land x y) (Z.land (not32 x) z).
Definition Maj (x y z : Z) : Z :=
  Z.lxor (Z.lxor (Z.land x y) (Z.land x z)) (Z.land y z).
Definition bsig0 (x : Z) : Z := Z.lxor (Z.lxor (rotr 2 x) (rotr 13 x)) (rotr 22 x).
Definition bsig1 (x : Z) : Z := Z.lxor (Z.lxor (rotr 6 x) (rotr 11 x)) (rotr 25 x).
Definition ssig0 (x : Z) : Z := Z.lxor (Z.lxor (rotr 7 x) (rotr 18 x)) (Z.shiftr x 3).
Definition ssig1 (x : Z) : Z := Z.lxor (Z.lxor (rotr 17 x) (rotr 19 x)) (Z.shiftr x 10).

(** The constants of FIPS 180-4 from their definition: the first 32 bits of
    the fractional parts of the square roots (initial hash value) and of the
    cube roots (round constants) of the first primes. *)
Definition is_prime (n : nat) : bool :=
  forallb (fun d => negb (Nat.eqb (Nat.modulo n d) 0)) (seq 2 (n - 2)).

Definition primes : list Z :=
  Eval vm_compute in map Z.of_nat (filter is_prime (seq 2 310)).

(** The largest [r] below 2^[bits] with r^k <= n, one bit at a time. *)
Fixpoint iroot (k : Z) (bits : nat) (n r : Z) : Z :=
  match bits with
  | O => r
  | S b =>
      let c := r + 2 ^ Z.of_nat b in
      iroot k b n (if c ^ k <=? n then c else r)
  end.

Definition frac32 (k p : Z) : Z :=
  Z.land (iroot k 40 (p * 2 ^ (32 * k)) 0) mask32.

Definition K : list Z := Eval vm_compute in map (frac32 3) primes.

(** The eight working variables / chaining values. *)
Record state := State { sa : Z; sb : Z; sc : Z; sd : Z; se : Z; sf : Z; sg : Z; sh : Z }.

Definition init : state :=
  Eval vm_compute in
    match map (frac32 2) (firstn 8 primes) with
    | [a; b; c; d; e; f; g; h] => State a b c d e f g h
    | _ => State 0 0 0 0 0 0 0 0
    end.

Definition round (k w : Z) (s : state) : state :=
  let t1 := add32 (add32 (add32 (add32 (sh s) (bsig1 (se s))) (Ch (se s) (sf s) (sg s))) k) w in
  let t2 := add32 (bsig0 (sa s)) (Maj (sa s) (sb s) (sc s)) in
  State (add32 t1 t2) (sa s) (sb s) (sc s) (add32 (sd s) t1) (se s) (sf s) (sg s).

(** [w] is the sliding window W[t..t+15] of the message schedule. *)
Fixpoint rounds (ks : list Z) (w : list Z) (s : state) : state :=
  match ks, w with
  | k :: ks', w0 :: wt =>
      let wnew := add32 (add32 (ssig1 (nth 13 wt 0)) (nth 8 wt 0))
                        (add32 (ssig0 (nth 0 wt 0)) w0) in
      rounds ks' (wt ++ [wnew]) (round k w0 s)
  | _, _ => s
  end.

Fixpoint be_words (bs : list Z) : list Z :=
  match bs with
  | b0 :: b1 :: b2 :: b3 :: rest =>
      (b0 * 0x1000000 + b1 * 0x10000 + b2 * 0x100 + b3) :: be_words rest
  | _ => []
  end.

Definition block (bs : list Z) (s : state) : state :=
  let t := rounds K (be_words bs) s in
  State (add32 (sa s) (sa t)) (add32 (sb s) (sb t)) (add32 (sc s) (sc t)) (add32 (sd s) (sd t))
        (add32 (se s) (se t)) (add32 (sf s) (sf t)) (add32 (sg s) (sg t)) (add32 (sh s) (sh t)).

Fixpoint blocks (fuel : nat) (bs : list Z) (s : state) : state :=
  match fuel, bs with
  | S fuel', _ :: _ => blocks fuel' (skipn 64 bs) (block (firstn 64 bs) s)
  | _, _ => s
  end.

Definition be_bytes (n : nat) (x : Z) : list Z :=
  map (fun i => Z.land (Z.shiftr x (8 * Z.of_nat i)) 0xFF) (rev (seq 0 n)).

Definition pad (bs : list Z) : list Z :=
  let len := Z.of_nat (length bs) in
  let zeros := Z.to_nat ((55 - len) mod 64) in
  bs ++ [0x80] ++ repeat 0 zeros ++ be_bytes 8 (8 * len).

Definition byte_of_Z (z : Z) : byte :=
  match Byte.of_N (Z.to_N (Z.land z 0xFF)) with
  | Some b => b
  | None => x00
  end.

Definition Z_of_byte (b : byte) : Z := Z.of_N (Byte.to_N b).

Definition digest (s : state) : list byte :=
  map byte_of_Z
    (flat_map (be_bytes 4) [sa s; sb s; sc s; sd s; se s; sf s; sg s; sh s]).

(** [sha256.Sum256]: the 32-byte digest of [data]. *)
Definition Sum256 (data : list byte) : list byte :=
  let p := pad (map Z_of_byte data) in
  digest (blocks (length p) p init).

End sha256.

(** ** encoding/hex *)

Module hex.

Definition hextable : string := "0123456789abcdef".

Definition digit (n : N) : ascii :=
  match String.get (N.to_nat n) hextable with
  | Some c => c
  | None => "0"%char
  end.

(** [hex.EncodeToString]: two lowercase hexadecimal digits per byte. *)
Fixpoint EncodeToString (src : list byte) : string :=
  match src with
  | [] => EmptyString
  | b :: rest =>
      String (digit (N.div (Byte.to_N b) 16))
        (String (digit (N.modulo (Byte.to_N b) 16)) (EncodeToString rest))
  end.

End hex.

Example sha256_abc :
  hex.EncodeToString (sha256.Sum256 (list_byte_of_string "abc")) =
  "ba7816bf8f01cfea414140de5dae2223b00361a396177a9cb410ff61f20015ad"%string.
Proof. vm_compute. reflexivity. Qed.

Example sha256_empty :
  hex.EncodeToString (sha256.Sum256 []) =
  "e3b0c44298fc1c149afbf4c8996fb92427ae41e4649b934ca495991b7852b855"%string.
Proof. vm_compute. reflexivity. Qed.

Example sha256_two_blocks :
  hex.EncodeToString (sha256.Sum256 (list_byte_of_string
    "abcdbcdecdefdefgefghfghighijhijkijkljklmklmnlmnomnopnopq")) =
  "248d6a61d20638b8e5c026930c3e6039a33ce45964ff2167f6ecedd419db06c1"%string.
Proof. vm_compute. reflexivity. Qed.

(** ** strings *)

Module strings.

(** Scan [s] from the left; [skip] counts the bytes of a match of [old]
    that are still to be consumed. *)
Fixpoint replace_from (skip : nat) (s old new : string) : string :=
  match s with
  | EmptyString => EmptyString
  | String c rest =>
      match skip with
      | S k => replace_from k rest old new
      | O =>
          if String.prefix old s
          then new ++ replace_from (String.length old - 1) rest old new
          else String c (replace_from 0 rest old new)
      end
  end.

(** [strings.ReplaceAll] for a non-empty [old]: every non-overlapping
    occurrence, leftmost first, is replaced by [new].  (With an empty [old]
    Go inserts [new] around every UTF-8 sequence; the agent passes only the
    literals %IP% and %sysName%, and that case is not modelled.) *)
Definition ReplaceAll (s old new : string) : string :=
  match old with
  | EmptyString => s
  | String _ _ => replace_from 0 s old new
  end.

End strings.

Example ReplaceAll_ex1 :
  strings.ReplaceAll "snmp-%IP%/%IP%" "%IP%" "10.0.0.1" = "snmp-10.0.0.1/10.0.0.1"%string.
Proof. reflexivity. Qed.

Example ReplaceAll_ex2 : strings.ReplaceAll "aaa" "aa" "b" = "ba"%string.
Proof. reflexivity. Qed.

(** ** math *)

Module math.

(** float64(z) for an integer [z]: the nearest binary64, ties to even. *)
Definition float64_of_Z (z : Z) : float :=
  SF2Prim (binary_normalize prec emax z 0 false).

(** The integer nearest to m * 2^e (m > 0), halves rounded up. *)
Definition round_mag (m : positive) (e : Z) : Z :=
  if (0 <=? e)%Z then Z.pos m * 2 ^ e
  else (2 * Z.pos m + 2 ^ (- e)) / (2 * 2 ^ (- e)).

(** [math.Round]: the nearest integer, rounding half away from zero;
    Round(±0) = ±0, Round(±Inf) = ±Inf, Round(NaN) = NaN. *)
Definition Round (x : float) : float :=
  match Prim2SF x with
  | S754_finite s m e =>
      if (0 <=? e)%Z then x
      else
        let n := round_mag m e in
        SF2Prim (binary_normalize prec emax (if s then - n else n) 0 s)
  | _ => x
  end.

End math.

Example Round_ties :
  (math.Round 2.5 = 3 /\ math.Round (-2.5) = -3 /\ math.Round 0.5 = 1 /\
   math.Round (-0.5) = -1 /\ math.Round 1.5 = 2 /\ math.Round 0x1.3ffffffffffffp+1 = 2 /\
   math.Round 0x1.fffffffffffffp-2 = 0 /\ math.Round (-0.25) = -0 /\
   math.Round 4503599627370497 = 4503599627370497 /\
   math.Round 4503599627370495.5 = 4503599627370496 /\
   math.Round infinity = infinity /\ math.Round 237 = 237)%float.
Proof. vm_compute. repeat split; reflexivity. Qed.

(** ** Library code behind the agent *)

(** [gossh.Signature]. *)
Record Signature := { Format : string; Blob : list byte }.

(** [gossh.PublicKey]: the algorithm name ([Type]) and the key's wire
    encoding ([Marshal]). *)
Record PublicKey := { KeyType : string; KeyBlob : list byte }.

(** A value carried by an SNMP variable binding ([gosnmp.SnmpPDU.Value]). *)
Inductive SnmpValue :=
| SnmpString (s : string)
| SnmpBytes (b : list byte)
| SnmpInteger (z : Z)
| SnmpOther.

(** Modelled from the spec: the declarations of package [common]
    ([HubRequest], [FingerprintRequest], [FingerprintResponse], the actions
    [CheckFingerprint] = 0 and [GetData] = 1) are not part of the agent's
    sources; they follow the wire description of the hub protocol. *)
Module common.
Definition CheckFingerprint : Z := 0.
Definition GetData : Z := 1.
Record HubRequest := { Action : Z; Data : list byte }.
Record FingerprintRequest := { Signature : list byte; NeedSysInfo : bool }.
Record FingerprintResponse := { Fingerprint : string; Hostname : string }.
End common.

(** What the Go runtime and the imported packages contribute. *)
Class GoRuntime := {
  (** [net.IP.String] and [net.ParseIP]; a [net.IP] is a byte slice. *)
  IP_String : list byte -> string;
  ParseIP : string -> option (list byte);
  (** [strings.ToLower]. *)
  ToLower : string -> string;
  (** [regexp.Regexp.MatchString], the compiled pattern given by its source. *)
  MatchString : string -> string -> bool;
  (** The order in which [for k, v := range m] visits a map. *)
  range : forall {V : Type}, gmap string V -> list (string * V);
  range_perm : forall (V : Type) (m : gmap string V), range m ≡ₚ map_to_list m;
  (** [gossh.ParseAuthorizedKey] and [PublicKey.Verify] ([Verify] is
      [true] when Go returns a nil error). *)
  ParseAuthorizedKey : list byte -> option PublicKey;
  Verify : PublicKey -> list byte -> Signature -> bool;
  (** [cbor] decoding of the two inbound message types. *)
  DecodeHubRequest : list byte -> option common.HubRequest;
  UnmarshalFingerprintRequest : list byte -> option common.FingerprintRequest;
  (** [gosnmp.ToBigInt]; [None] is a nil result. *)
  ToBigInt : SnmpValue -> option Z;
  (** [strings.TrimSpace] and [url.Parse] (is the hub URL well formed). *)
  TrimSpace : string -> string;
  url_Parse : string -> bool;
  (** [beszel.Version]. *)
  Version : string
}.

(** Modelled from the spec: the declarations of package [system]
    ([Stats], [Info], [CombinedData]) are not part of the agent's sources.
    [Stats] carries one optional map per category ([None] is a nil map);
    [Info] carries the identity and the dashboard scalars. *)
Module system.
Record Stats := {
  Temperatures : gmap string float;
  Humidity : option (gmap string float);
  CO2 : option (gmap string float);
  Pressure : option (gmap string float);
  PM25 : option (gmap string float);
  PM10 : option (gmap string float);
  VOC : option (gmap string float)
}.
Record Info := {
  Hostname : string;
  AgentVersion : string;
  AgentType : string;
  DashboardTemp : float;
  DashboardHumidity : float;
  DashboardCO2 : float;
  DashboardPressure : float;
  DashboardPM25 : float;
  DashboardPM10 : float;
  DashboardVOC : float
}.
Record CombinedData := { stats : Stats; info : Info }.
End system.

(** ** The agent *)

Section Agent.

Context {rt : GoRuntime}.

(** *** state.go: per-device state *)

(** [deviceState]; the mutex [mu] and the never-written [lastSend] carry
    no data. *)
Record deviceState := {
  ip : list byte;
  finger : string;
  hostname : string;
  lastTemps : gmap string float;
  lastHumidity : gmap string float;
  lastCO2 : gmap string float;
  lastPressure : gmap string float;
  lastPM25 : gmap string float;
  lastPM10 : gmap string float;
  lastVOC : gmap string float
}.

Definition newDeviceState (addr : list byte) (fp host : string) : deviceState :=
  {| ip := addr; finger := fp; hostname := host;
     lastTemps := ∅; lastHumidity := ∅; lastCO2 := ∅; lastPressure := ∅;
     lastPM25 := ∅; lastPM10 := ∅; lastVOC := ∅ |}.

Definition replacePlaceholders (tmpl : string) (addr : list byte) (sysName : string) : string :=
  let repl := tmpl in
  let repl := strings.ReplaceAll repl "%IP%" (IP_String addr) in
  let repl := strings.ReplaceAll repl "%sysName%" sysName in
  repl.

Definition nonempty (s : string) : bool := negb (String.eqb s "").

Definition deriveFingerprint (addr : list byte) (sysName tmpl : string) : string :=
  let base := IP_String addr in
  let base := if nonempty sysName then (sysName ++ "-" ++ base)%string else base in
  let base := if nonempty tmpl then replacePlaceholders tmpl addr sysName else base in
  let sum := sha256.Sum256 (list_byte_of_string base) in
  hex.EncodeToString (firstn 24 sum).

(** One [case] of a Go [switch] on a string: does [c] equal a listed literal. *)
Definition is_case (c : string) (lits : list string) : bool :=
  existsb (String.eqb c) lits.

Definition setMetric (ds : deviceState) (category name : string) (val : float) : deviceState :=
  let c := ToLower category in
  if is_case c ["temperature"; "temp"; "t"]%string then
    {| ip := ip ds; finger := finger ds; hostname := hostname ds;
       lastTemps := <[name := val]> (lastTemps ds); lastHumidity := lastHumidity ds;
       lastCO2 := lastCO2 ds; lastPressure := lastPressure ds; lastPM25 := lastPM25 ds;
       lastPM10 := lastPM10 ds; lastVOC := lastVOC ds |}
  else if is_case c ["humidity"; "hum"; "h"]%string then
    {| ip := ip ds; finger := finger ds; hostname := hostname ds;
       lastTemps := lastTemps ds; lastHumidity := <[name := val]> (lastHumidity ds);
       lastCO2 := lastCO2 ds; lastPressure := lastPressure ds; lastPM25 := lastPM25 ds;
       lastPM10 := lastPM10 ds; lastVOC := lastVOC ds |}
  else if is_case c ["co2"]%string then
    {| ip := ip ds; finger := finger ds; hostname := hostname ds;
       lastTemps := lastTemps ds; lastHumidity := lastHumidity ds;
       lastCO2 := <[name := val]> (lastCO2 ds); lastPressure := lastPressure ds;
       lastPM25 := lastPM25 ds; lastPM10 := lastPM10 ds; lastVOC := lastVOC ds |}
  else if is_case c ["pressure"; "press"; "pr"]%string then
    {| ip := ip ds; finger := finger ds; hostname := hostname ds;
       lastTemps := lastTemps ds; lastHumidity := lastHumidity ds;
       lastCO2 := lastCO2 ds; lastPressure := <[name := val]> (lastPressure ds);
       lastPM25 := lastPM25 ds; lastPM10 := lastPM10 ds; lastVOC := lastVOC ds |}
  else if is_case c ["pm25"]%string then
    {| ip := ip ds; finger := finger ds; hostname := hostname ds;
       lastTemps := lastTemps ds; lastHumidity := lastHumidity ds;
       lastCO2 := lastCO2 ds; lastPressure := lastPressure ds;
       lastPM25 := <[name := val]> (lastPM25 ds); lastPM10 := lastPM10 ds;
       lastVOC := lastVOC ds |}
  else if is_case c ["pm10"]%string then
    {| ip := ip ds; finger := finger ds; hostname := hostname ds;
       lastTemps := lastTemps ds; lastHumidity := lastHumidity ds;
       lastCO2 := lastCO2 ds; lastPressure := lastPressure ds;
       lastPM25 := lastPM25 ds; lastPM10 := <[name := val]> (lastPM10 ds);
       lastVOC := lastVOC ds |}
  else if is_case c ["voc"]%string then
    {| ip := ip ds; finger := finger ds; hostname := hostname ds;
       lastTemps := lastTemps ds; lastHumidity := lastHumidity ds;
       lastCO2 := lastCO2 ds; lastPressure := lastPressure ds;
       lastPM25 := lastPM25 ds; lastPM10 := lastPM10 ds;
       lastVOC := <[name := val]> (lastVOC ds) |}
  else ds.

(** [for _, v := range m { if !set || v > max { max = v; set = true } }]:
    the loop state is the pair (max, set). *)
Definition maxMap_step (acc : float * bool) (kv : string * float) : float * bool :=
  let '(max, set) := acc in
  if negb set || (max <? kv.2)%float then (kv.2, true) else (max, set).

Definition maxMap (m : gmap string float) : float :=
  fst (fold_left maxMap_step (range m) (0%float, false)).

Definition avgMap_step (acc : float * Z) (kv : string * float) : float * Z :=
  let '(sum, n) := acc in ((sum + kv.2)%float, n + 1).

Definition avgMap (m : gmap string float) : float :=
  let '(sum, n) := fold_left avgMap_step (range m) (0%float, 0) in
  if n =? 0 then 0%float else (sum / math.float64_of_Z n)%float.

(** [dst := map[string]float64{}; for k, v := range m { dst[k] = v }]. *)
Definition copyMap (m : gmap string float) : gmap string float :=
  fold_left (fun dst kv => <[kv.1 := kv.2]> dst) (range m) ∅.

(** [len(m)] of a map. *)
Definition len (m : gmap string float) : Z := Z.of_nat (size m).

Definition copyIfPresent (m : gmap string float) : option (gmap string float) :=
  if 0 <? len m then Some (copyMap m) else None.

Definition buildCombinedData (ds : deviceState) (agentVersion : string) : system.CombinedData :=
  let stats :=
    {| system.Temperatures := copyMap (lastTemps ds);
       system.Humidity := copyIfPresent (lastHumidity ds);
       system.CO2 := copyIfPresent (lastCO2 ds);
       system.Pressure := copyIfPresent (lastPressure ds);
       system.PM25 := copyIfPresent (lastPM25 ds);
       system.PM10 := copyIfPresent (lastPM10 ds);
       system.VOC := copyIfPresent (lastVOC ds) |} in
  let info :=
    {| system.Hostname := hostname ds;
       system.AgentVersion := agentVersion;
       system.AgentType := "snmp";
       system.DashboardTemp :=
         if 0 <? len (lastTemps ds) then maxMap (lastTemps ds) else 0%float;
       system.DashboardHumidity :=
         if 0 <? len (lastHumidity ds) then maxMap (lastHumidity ds) else 0%float;
       system.DashboardCO2 :=
         if 0 <? len (lastCO2 ds) then maxMap (lastCO2 ds) else 0%float;
       system.DashboardPressure :=
         if 0 <? len (lastPressure ds) then avgMap (lastPressure ds) else 0%float;
       system.DashboardPM25 :=
         if 0 <? len (lastPM25 ds) then maxMap (lastPM25 ds) else 0%float;
       system.DashboardPM10 :=
         if 0 <? len (lastPM10 ds) then maxMap (lastPM10 ds) else 0%float;
       system.DashboardVOC :=
         if 0 <? len (lastVOC ds) then maxMap (lastVOC ds) else 0%float |} in
  {| system.stats := stats; system.info := info |}.

(** *** config.go *)

Record HubConfig := { URL : string; Token : string; Key : string }.

Record Defaults := {
  SendIntervalSec : Z;
  PollIntervalSec : Z;
  ResolveMIBs : bool;
  MIBPaths : list string;
  Round1 : bool;
  LogUnknown : bool;
  Communities : list string;
  ListenAddr : string
}.

Record OIDMap := {
  Name : string;
  Kind : string;
  Unit : string;
  Category : string;
  Scale : float
}.

(** [DeviceConfig]; [IPRegex] is [Match.IPRegex], and [ipRegex] is the
    compiled expression ([None] is nil), named by its source text.  The
    per-device [PollIntervalSec] and [Communities] carry a [Dev] prefix. *)
Record DeviceConfig := {
  IPRegex : string;
  FingerprintTmpl : string;
  HostnameTemplate : string;
  Poll : bool;
  DevPollIntervalSec : Z;
  DevCommunities : list string;
  Oids : gmap string OIDMap;
  ipRegex : option string
}.

Record Config := {
  Hub : HubConfig;
  Defs : Defaults;
  Devices : list DeviceConfig
}.

Definition regexMatches (d : DeviceConfig) (ipStr : string) : bool :=
  match ipRegex d with
  | None => true
  | Some re => MatchString re ipStr
  end.

(** [Config.MatchDevice]: the first device rule matching the address. *)
Definition MatchDevice (c : Config) (addr : list byte) : option DeviceConfig :=
  let ipStr := IP_String addr in
  List.find (fun d => regexMatches d ipStr) (Devices c).

(** *** receiver.go: the value pipeline *)

Definition shouldSend (om : OIDMap) : bool :=
  is_case (ToLower (Category om))
    ["temperature"; "temp"; "t"; "humidity"; "hum"; "h"; "co2";
     "pressure"; "press"; "pr"; "pm25"; "pm10"; "voc"]%string.

Definition transformValue (scale v : float) (round1 : bool) : float :=
  let scale := if (scale =? 0)%float then 1%float else scale in
  let val := (v / scale)%float in
  let val := if round1 then (math.Round (val * 10) / 10)%float else val in
  val.

(** [strings.TrimPrefix(oid, ".")]. *)
Definition trimDot (oid : string) : string :=
  match oid with
  | String "."%char rest => rest
  | _ => oid
  end.

Fixpoint findOIDMap_in (ds : list DeviceConfig) (ipStr noDot : string) : option OIDMap :=
  match ds with
  | [] => None
  | d :: rest =>
      if negb (regexMatches d ipStr) then findOIDMap_in rest ipStr noDot
      else match Oids d !! noDot with
           | Some om => Some om
           | None =>
               match Oids d !! ("." ++ noDot)%string with
               | Some om => Some om
               | None => findOIDMap_in rest ipStr noDot
               end
           end
  end.

Definition findOIDMap (c : Config) (addr : list byte) (oid : string) : option OIDMap :=
  findOIDMap_in (Devices c) (IP_String addr) (trimDot oid).

(** [big.Int.Int64] followed by the conversion to float64. *)
Definition wrap64 (z : Z) : Z := (z + 2 ^ 63) mod 2 ^ 64 - 2 ^ 63.
Definition Int64 (z : Z) : Z :=
  let v := wrap64 (Z.abs z mod 2 ^ 64) in
  if z <? 0 then wrap64 (- v) else v.

(** *** The agent's shared objects *)

(** [gws] opcodes and an inbound message. *)
Inductive Opcode :=
| OpcodeContinuation | OpcodeText | OpcodeBinary
| OpcodeCloseConnection | OpcodePing | OpcodePong.

Record Message := { MsgOpcode : Opcode; MsgData : list byte }.

(** What a hub session writes to its connection: a binary message holding
    the CBOR encoding of a response value, a pong, or a close frame. *)
Inductive Frame :=
| FingerprintFrame (resp : common.FingerprintResponse)
| CombinedDataFrame (cd : system.CombinedData)
| PongFrame (payload : list byte)
| CloseFrame (code : Z).

(** [deviceClient]: one hub session.  [dsRef] is the pointer [ds];
    [Conn] is [None] while the pointer is nil, else the connection's
    number.  The configuration and the factory are reached through the
    agent. *)
Record deviceClient := {
  dcIP : list byte;
  dsRef : nat;
  Conn : option nat;
  hubVerified : bool
}.

(** Goroutines and timers the agent has started. *)
Inductive Task :=
| PollLoop (addr : list byte) (intervalSec : Z) (rule : nat)
| ConnectTask (key : string) (delaySec : Z).

(** Everything [NewAgent] wires together: the configuration, the store of
    device states with the registry's map into it, the client factory's
    session map and parsed hub settings, and the tasks started so far. *)
Record Agent := {
  cfg : Config;
  store : list deviceState;
  devices : gmap string nat;
  conns : gmap string deviceClient;
  pubKey : option PublicKey;
  urlOK : bool;
  token : string;
  tasks : list Task
}.

Definition NewAgent (c : Config) : Agent :=
  {| cfg := c; store := []; devices := ∅; conns := ∅;
     pubKey :=
       if nonempty (TrimSpace (Key (Hub c)))
       then ParseAuthorizedKey (list_byte_of_string (Key (Hub c)))
       else None;
     urlOK := url_Parse (URL (Hub c));
     token := TrimSpace (Token (Hub c));
     tasks := [] |}.

Definition with_store (a : Agent) (st : list deviceState) : Agent :=
  {| cfg := cfg a; store := st; devices := devices a; conns := conns a;
     pubKey := pubKey a; urlOK := urlOK a; token := token a; tasks := tasks a |}.

Definition with_conns (a : Agent) (cs : gmap string deviceClient) : Agent :=
  {| cfg := cfg a; store := store a; devices := devices a; conns := cs;
     pubKey := pubKey a; urlOK := urlOK a; token := token a; tasks := tasks a |}.

Definition spawn (a : Agent) (t : Task) : Agent :=
  {| cfg := cfg a; store := store a; devices := devices a; conns := conns a;
     pubKey := pubKey a; urlOK := urlOK a; token := token a; tasks := tasks a ++ [t] |}.

(** *** registry.go *)

(** [registry.get]: the state registered for the address, if any. *)
Definition registry_get (a : Agent) (addr : list byte) : option nat :=
  devices a !! IP_String addr.

(** [registry.set] of a freshly built state: the state is allocated in
    the store and the registry entry for the address points to it. *)
Definition registry_set (a : Agent) (addr : list byte) (ds : deviceState) : Agent :=
  {| cfg := cfg a; store := store a ++ [ds];
     devices := <[IP_String addr := length (store a)]> (devices a);
     conns := conns a; pubKey := pubKey a; urlOK := urlOK a; token := token a;
     tasks := tasks a |}.

(** [ds.mu.Lock(); ds.setMetric(...); ds.mu.Unlock()] through the pointer. *)
Definition setMetricAt (a : Agent) (p : nat) (category name : string) (val : float) : Agent :=
  match store a !! p with
  | Some ds => with_store a (<[p := setMetric ds category name val]> (store a))
  | None => a
  end.

(** *** client.go: the hub session manager *)

(** [clientFactory.Notify]: create the session for the address when there
    is none yet and the registry knows the address; never send. *)
Definition Notify (a : Agent) (addr : list byte) : Agent :=
  let key := IP_String addr in
  match conns a !! key with
  | None =>
      match registry_get a addr with
      | Some p =>
          let dc := {| dcIP := addr; dsRef := p; Conn := None; hubVerified := false |} in
          spawn (with_conns a (<[key := dc]> (conns a))) (ConnectTask key 0)
      | None => a
      end
  | Some dc => a
  end.

(** *** poller.go *)

Fixpoint findPollRule (ds : list DeviceConfig) (i : nat) (ipStr : string) : option (nat * DeviceConfig) :=
  match ds with
  | [] => None
  | d :: rest =>
      if Poll d && regexMatches d ipStr then Some (i, d)
      else findPollRule rest (S i) ipStr
  end.

(** [poller.ensurePolling]: start a poll loop for the first poll-enabled
    rule matching the address. *)
Definition ensurePolling (a : Agent) (addr : list byte) : Agent :=
  match findPollRule (Devices (cfg a)) 0 (IP_String addr) with
  | None => a
  | Some (i, dc) => spawn a (PollLoop addr (DevPollIntervalSec dc) i)
  end.

Record SnmpPDU := { PduName : string; PduValue : SnmpValue }.

(** The device's side of one poll: whether the connection comes up, and
    the answer to a GET of one OID ([None] is an error). *)
Record SnmpPeer := { connectOK : bool; Get : string -> option (list SnmpPDU) }.

Definition firstCommunity (dc : DeviceConfig) (c : Config) : string :=
  match DevCommunities dc with
  | x :: _ => x
  | [] => match Communities (Defs c) with
          | x :: _ => x
          | [] => "public"%string
          end
  end.

Definition pollOID (peer : SnmpPeer) (addr : list byte) (a : Agent) (kv : string * OIDMap) : Agent :=
  let '(oid, om) := kv in
  if negb (shouldSend om) then a
  else match Get peer oid with
       | None | Some [] => a
       | Some (v :: _) =>
           match ToBigInt (PduValue v) with
           | None => a
           | Some bi =>
               let f := transformValue (Scale om) (math.float64_of_Z (Int64 bi))
                          (Round1 (Defs (cfg a))) in
               match registry_get a addr with
               | Some p => setMetricAt a p (Category om) (Name om) f
               | None => a
               end
           end
       end.

Definition pollOnce (a : Agent) (addr : list byte) (dc : DeviceConfig) (peer : SnmpPeer) : Agent :=
  if negb (connectOK peer) then a
  else Notify (fold_left (pollOID peer addr) (range (Oids dc)) a) addr.

(** *** receiver.go: the trap handler *)

Record SnmpPacket := { Variables : list SnmpPDU }.

Definition sysNameOf (vars : list SnmpPDU) : string :=
  fold_left
    (fun sysName v =>
       if String.eqb (PduName v) ".1.3.6.1.2.1.1.5.0" then
         match PduValue v with
         | SnmpString t => t
         | SnmpBytes t => string_of_list_byte t
         | _ => sysName
         end
       else sysName)
    vars ""%string.

(** The [if !ok] branch of [handle]: build and register the state of an
    unknown sender; the result is the agent and the pointer [ds]. *)
Definition materialize (a : Agent) (addr : list byte) (sysName : string) : Agent * nat :=
  match registry_get a addr with
  | Some p => (a, p)
  | None =>
      let dc := MatchDevice (cfg a) addr in
      let fpTmpl := match dc with Some d => FingerprintTmpl d | None => ""%string end in
      let hostTmpl := match dc with Some d => HostnameTemplate d | None => ""%string end in
      let fp := deriveFingerprint addr sysName fpTmpl in
      let host :=
        if nonempty hostTmpl then replacePlaceholders hostTmpl addr sysName
        else if nonempty sysName then sysName else IP_String addr in
      let ds := newDeviceState addr fp host in
      (ensurePolling (registry_set a addr ds) addr, length (store a))
  end.

Definition metaSysUpTime : string := ".1.3.6.1.2.1.1.3.0".
Definition metaTrapOID : string := ".1.3.6.1.6.3.1.1.4.1.0".
Definition metaSysName : string := ".1.3.6.1.2.1.1.5.0".

Definition handleVar (addr : list byte) (p : nat) (a : Agent) (v : SnmpPDU) : Agent :=
  if String.eqb (PduName v) metaSysUpTime || String.eqb (PduName v) metaTrapOID
     || String.eqb (PduName v) metaSysName then a
  else match findOIDMap (cfg a) addr (PduName v) with
       | None => a
       | Some om =>
           if negb (shouldSend om) then a
           else match ToBigInt (PduValue v) with
                | None => a
                | Some val =>
                    let f := transformValue (Scale om) (math.float64_of_Z (Int64 val))
                               (Round1 (Defs (cfg a))) in
                    setMetricAt a p (Category om) (Name om) f
                end
       end.

(** [trapReceiver.handle]. *)
Definition handle (a : Agent) (packet : SnmpPacket) (addr : list byte) : Agent :=
  let sysName := sysNameOf (Variables packet) in
  let '(a1, p) := materialize a addr sysName in
  let a2 := fold_left (handleVar addr p) (Variables packet) a1 in
  Notify a2 addr.

(** *** agent.go *)

(** [Agent.EnsureDevice]. *)
Definition EnsureDevice (a : Agent) (ipText host : string) : Agent :=
  match ParseIP ipText with
  | None => a
  | Some nip =>
      let ds := newDeviceState nip (deriveFingerprint nip host "") host in
      let a1 := registry_set a nip ds in
      let a2 := ensurePolling a1 nip in
      Notify a2 nip
  end.

(** *** client.go: one hub session

    A handler that dereferences a nil pointer panics; such a run has no
    result ([None]). *)

(** A handler's writes: the connection written to and the frame. *)
Definition Writes := list (nat * Frame).

Definition with_verified (dc : deviceClient) (v : bool) : deviceClient :=
  {| dcIP := dcIP dc; dsRef := dsRef dc; Conn := Conn dc; hubVerified := v |}.

Definition with_Conn (dc : deviceClient) (c : option nat) : deviceClient :=
  {| dcIP := dcIP dc; dsRef := dsRef dc; Conn := c; hubVerified := hubVerified dc |}.

(** [deviceClient.sendMessage]: marshal and write one binary message on
    [dc.Conn]. *)
Definition sendMessage (dc : deviceClient) (data : Frame) : option Writes :=
  match Conn dc with
  | None => None
  | Some c => Some [(c, data)]
  end.

(** [deviceClient.verifySignature]: [Some true] is a nil error. *)
Definition verifySignature (a : Agent) (dc : deviceClient) (signature : list byte) : option bool :=
  match pubKey a with
  | None => None
  | Some pk =>
      let sig := {| Format := KeyType pk; Blob := signature |} in
      Some (Verify pk (list_byte_of_string (token a)) sig)
  end.

(** [deviceClient.send]. *)
Definition send (a : Agent) (dc : deviceClient) : option Writes :=
  match Conn dc with
  | None => Some []
  | Some _ =>
      if negb (hubVerified dc) then Some []
      else match store a !! dsRef dc with
           | None => None
           | Some ds =>
               let cd := buildCombinedData ds Version in
               if len (system.Temperatures (system.stats cd)) =? 0 then Some []
               else sendMessage dc (CombinedDataFrame cd)
           end
  end.

(** [deviceClient.OnMessage]. *)
Definition OnMessage (a : Agent) (dc : deviceClient) (message : Message)
  : option (deviceClient * Writes) :=
  match MsgOpcode message with
  | OpcodeBinary =>
      match DecodeHubRequest (MsgData message) with
      | None => Some (dc, [])
      | Some req =>
          if common.Action req =? common.CheckFingerprint then
            match UnmarshalFingerprintRequest (common.Data req) with
            | None => Some (dc, [])
            | Some fr =>
                match verifySignature a dc (common.Signature fr) with
                | None => None
                | Some false => Some (dc, [])
                | Some true =>
                    let dc' := with_verified dc true in
                    match store a !! dsRef dc with
                    | None => None
                    | Some ds =>
                        let resp :=
                          {| common.Fingerprint := finger ds;
                             common.Hostname :=
                               if common.NeedSysInfo fr then hostname ds else ""%string |} in
                        match sendMessage dc' (FingerprintFrame resp) with
                        | None => None
                        | Some out => Some (dc', out)
                        end
                    end
                end
            end
          else if common.Action req =? common.GetData then
            match send a dc with
            | None => None
            | Some out => Some (dc, out)
            end
          else Some (dc, [])
      end
  | _ => Some (dc, [])
  end.

(** [deviceClient.OnClose]: forget the verification; reconnect in 5 s. *)
Definition OnClose (dc : deviceClient) : deviceClient * Task :=
  (with_verified dc false, ConnectTask (IP_String (dcIP dc)) 5).

(** [deviceClient.OnPing]: answer on the connection the ping came from. *)
Definition OnPing (dc : deviceClient) (c : nat) (payload : list byte) : Writes :=
  [(c, PongFrame payload)].

(** [deviceClient.connect]; [dial] is the outcome of [gws.NewClient]. *)
Definition connect (a : Agent) (dc : deviceClient) (dial : option nat)
  : deviceClient * Writes * list Task :=
  let key := IP_String (dcIP dc) in
  if negb (urlOK a) || negb (nonempty (token a))
     || match pubKey a with None => true | Some _ => false end
  then (dc, [], [])
  else
    let closing :=
      match Conn dc with
      | Some c => [(c, CloseFrame 1000)]
      | None => []
      end in
    match dial with
    | None => (dc, closing, [ConnectTask key 5])
    | Some c => (with_Conn dc (Some c), closing, [])
    end.

(** *** The agent as a transition system *)

(** What can happen to a running agent: a trap arrives, a poll loop wakes
    up, a scheduled connect runs, a session's connection delivers a
    message, a ping or its close, and the calls the package makes
    available ([EnsureDevice], [Notify], [ensurePolling]). *)
(** A frame written by the agent: the session that wrote it (its key in
    the session map), the connection and the frame. *)
Record Output := { session : string; conn : nat; frame : Frame }.

Definition outputs (key : string) (ws : Writes) : list Output :=
  map (fun w => {| session := key; conn := w.1; frame := w.2 |}) ws.

Inductive Event :=
| EvTrap (packet : SnmpPacket) (addr : list byte)
| EvPollTick (task : nat) (peer : SnmpPeer)
| EvEnsureDevice (ipText host : string)
| EvNotify (addr : list byte)
| EvEnsurePolling (addr : list byte)
| EvConnect (key : string) (dial : option nat)
| EvMessage (key : string) (message : Message)
| EvPing (key : string) (c : nat) (payload : list byte)
| EvClose (key : string).

Definition step (a : Agent) (e : Event) : option (Agent * list Output) :=
  match e with
  | EvTrap packet addr => Some (handle a packet addr, [])
  | EvPollTick i peer =>
      match tasks a !! i with
      | Some (PollLoop addr _ rule) =>
          match Devices (cfg a) !! rule with
          | Some dc => Some (pollOnce a addr dc peer, [])
          | None => Some (a, [])
          end
      | _ => Some (a, [])
      end
  | EvEnsureDevice ipText host => Some (EnsureDevice a ipText host, [])
  | EvNotify addr => Some (Notify a addr, [])
  | EvEnsurePolling addr => Some (ensurePolling a addr, [])
  | EvConnect key dial =>
      match conns a !! key with
      | None => Some (a, [])
      | Some dc =>
          let '(dc', out, ts) := connect a dc dial in
          Some (fold_left spawn ts (with_conns a (<[key := dc']> (conns a))),
                outputs key out)
      end
  | EvMessage key message =>
      match conns a !! key with
      | None => Some (a, [])
      | Some dc =>
          match OnMessage a dc message with
          | None => None
          | Some (dc', out) =>
              Some (with_conns a (<[key := dc']> (conns a)), outputs key out)
          end
      end
  | EvPing key c payload =>
      match conns a !! key with
      | None => Some (a, [])
      | Some dc => Some (a, outputs key (OnPing dc c payload))
      end
  | EvClose key =>
      match conns a !! key with
      | None => Some (a, [])
      | Some dc =>
          let '(dc', t) := OnClose dc in
          Some (spawn (with_conns a (<[key := dc']> (conns a))) t, [])
      end
  end.

(** One entry of an execution: the agent before the event, the event and
    what was written while handling it. *)
Record Moment := { before : Agent; event : Event; written : list Output }.

Fixpoint exec (a : Agent) (evs : list Event) : list Moment :=
  match evs with
  | [] => []
  | e :: rest =>
      match step a e with
      | None => []
      | Some (a', out) => {| before := a; event := e; written := out |} :: exec a' rest
      end
  end.

Fixpoint run (a : Agent) (evs : list Event) : option Agent :=
  match evs with
  | [] => Some a
  | e :: rest =>
      match step a e with
      | None => None
      | Some (a', _) => run a' rest
      end
  end.

End Agent.

(** ** A reference runtime

    An executable instance of [GoRuntime], used to run the agent on concrete
    inputs.  Addresses are IPv4 ([net.ParseIP] returns them in the 16-byte
    IPv4-in-IPv6 form and [String] prints dotted decimals); expressions are
    literal texts; maps are ranged over in key order.  Key parsing, the
    signature check and the two decoders are small stand-ins for SSH and
    CBOR: a key line parses to an ed25519 key encoded by the line, a
    signature is the SHA-256 digest of key and data, a request is its action
    byte followed by its data, and a fingerprint request is its flag byte
    followed by the signature. *)
Module refrt.

(** Equality of byte strings. *)
Fixpoint bytesEqb (x y : list byte) : bool :=
  match x, y with
  | [], [] => true
  | a :: x', b :: y' => Byte.eqb a b && bytesEqb x' y'
  | _, _ => false
  end.

Definition digitChar (n : N) : ascii := ascii_of_N (48 + n).

Definition decimal (n : N) : string :=
  if (n <? 10)%N then String (digitChar n) ""
  else if (n <? 100)%N then String (digitChar (n / 10)) (String (digitChar (n mod 10)) "")
  else String (digitChar (n / 100))
         (String (digitChar ((n / 10) mod 10)) (String (digitChar (n mod 10)) "")).

Definition dotted (b0 b1 b2 b3 : byte) : string :=
  (decimal (Byte.to_N b0) ++ "." ++ decimal (Byte.to_N b1) ++ "."
   ++ decimal (Byte.to_N b2) ++ "." ++ decimal (Byte.to_N b3))%string.

Definition v4InV6Prefix : list byte :=
  [x00; x00; x00; x00; x00; x00; x00; x00; x00; x00; xff; xff].

Definition ipString (addr : list byte) : string :=
  match addr with
  | [] => "<nil>"
  | [b0; b1; b2; b3] => dotted b0 b1 b2 b3
  | _ =>
      match skipn 12 addr with
      | [b0; b1; b2; b3] =>
          if bytesEqb (firstn 12 addr) v4InV6Prefix then dotted b0 b1 b2 b3
          else ("?" ++ hex.EncodeToString addr)%string
      | _ => ("?" ++ hex.EncodeToString addr)%string
      end
  end%string.

(** One decimal component of a dotted address: 0..255, no leading zero. *)
Fixpoint component (acc : N) (seen : nat) (s : string) : option (N * string) :=
  match s with
  | String c rest =>
      let d := N_of_ascii c in
      if ((48 <=? d) && (d <=? 57))%N then
        if (Nat.ltb 0 seen && (acc =? 0)%N) then None
        else component (10 * acc + (d - 48)) (S seen) rest
      else if Nat.ltb 0 seen && (acc <=? 255)%N then Some (acc, s) else None
  | EmptyString => if Nat.ltb 0 seen && (acc <=? 255)%N then Some (acc, s) else None
  end.

Definition toByte (n : N) : byte :=
  match Byte.of_N n with Some b => b | None => x00 end.

Definition parseIP (s : string) : option (list byte) :=
  match component 0 0 s with
  | Some (a, String "."%char s1) =>
      match component 0 0 s1 with
      | Some (b, String "."%char s2) =>
          match component 0 0 s2 with
          | Some (c, String "."%char s3) =>
              match component 0 0 s3 with
              | Some (d, EmptyString) =>
                  Some (v4InV6Prefix ++ [toByte a; toByte b; toByte c; toByte d])
              | _ => None
              end
          | _ => None
          end
      | _ => None
      end
  | _ => None
  end.

Definition lowerChar (c : ascii) : ascii :=
  let n := N_of_ascii c in
  if ((65 <=? n) && (n <=? 90))%N then ascii_of_N (n + 32) else c.

Fixpoint toLower (s : string) : string :=
  match s with
  | EmptyString => EmptyString
  | String c rest => String (lowerChar c) (toLower rest)
  end.

Fixpoint contains (re s : string) : bool :=
  String.prefix re s ||
  match s with
  | EmptyString => false
  | String _ rest => contains re rest
  end.

Definition isSpace (c : ascii) : bool :=
  let n := N_of_ascii c in ((n =? 32) || (9 <=? n) && (n <=? 13))%N.

Fixpoint trimLeft (s : string) : string :=
  match s with
  | String c rest => if isSpace c then trimLeft rest else s
  | EmptyString => EmptyString
  end.

Fixpoint trimRight (s : string) : string :=
  match s with
  | String c rest =>
      match trimRight rest with
      | EmptyString => if isSpace c then EmptyString else String c EmptyString
      | t => String c t
      end
  | EmptyString => EmptyString
  end.

Definition verify (pk : PublicKey) (data : list byte) (sig : Signature) : bool :=
  String.eqb (Format sig) (KeyType pk)
  && bytesEqb (Blob sig) (sha256.Sum256 (KeyBlob pk ++ data)).

Definition parseAuthorizedKey (line : list byte) : option PublicKey :=
  match line with
  | [] => None
  | _ => Some {| KeyType := "ssh-ed25519"; KeyBlob := line |}
  end.

Definition decodeHubRequest (bs : list byte) : option common.HubRequest :=
  match bs with
  | [] => None
  | b :: rest => Some {| common.Action := Z.of_N (Byte.to_N b); common.Data := rest |}
  end.

Definition unmarshalFingerprintRequest (bs : list byte) : option common.FingerprintRequest :=
  match bs with
  | [] => None
  | b :: rest =>
      Some {| common.Signature := rest;
              common.NeedSysInfo := negb (N.eqb (Byte.to_N b) 0) |}
  end.

Definition toBigInt (v : SnmpValue) : option Z :=
  match v with
  | SnmpInteger z => Some z
  | _ => Some 0
  end.

#[export] Instance runtime : GoRuntime := {|
  IP_String := ipString;
  ParseIP := parseIP;
  ToLower := toLower;
  MatchString := contains;
  range := fun V m => map_to_list m;
  range_perm := fun V m => reflexivity (map_to_list m);
  ParseAuthorizedKey := parseAuthorizedKey;
  Verify := verify;
  DecodeHubRequest := decodeHubRequest;
  UnmarshalFingerprintRequest := unmarshalFingerprintRequest;
  ToBigInt := toBigInt;
  TrimSpace := fun s => trimRight (trimLeft s);
  url_Parse := fun _ => true;
  Version := "0.12.0"%string
|}.

End refrt.

Example ref_ParseIP :
  refrt.ipString <$> refrt.parseIP "192.168.1.10" = Some "192.168.1.10"%string
  /\ refrt.parseIP "192.168.1.256" = None /\ refrt.parseIP "1.2.3" = None
  /\ refrt.parseIP "01.2.3.4" = None.
Proof. vm_compute. repeat split; reflexivity. Qed.

(** Scenario S1's fingerprint: the first 48 hex digits of
    SHA-256("snmp-192.168.1.10"). *)
Example fingerprint_S1 :
  deriveFingerprint (rt := refrt.runtime)
    [xc0; xa8; x01; x0a] "sw-a" "snmp-%IP%"
  = "285056f1fe88ff1d1b5f4169d2419f2d9b6dc09bcf4e7c8a"%string.
Proof. vm_compute. reflexivity. Qed.

(** * Properties *)

(** ** Fingerprints *)

Definition lowerHexDigit (c : ascii) : bool :=
  existsb (Ascii.eqb c) (list_ascii_of_string hex.hextable).

Lemma be_bytes_length n x : length (sha256.be_bytes n x) = n.
Proof. unfold sha256.be_bytes. by rewrite length_map, length_rev, length_seq. Qed.

Lemma Sum256_length data : length (sha256.Sum256 data) = 32%nat.
Proof.
  unfold sha256.Sum256, sha256.digest.
  rewrite length_map. cbn [flat_map].
  rewrite !length_app, !be_bytes_length. reflexivity.
Qed.

Lemma EncodeToString_length src :
  String.length (hex.EncodeToString src) = (2 * length src)%nat.
Proof. induction src as [|b src IH]; cbn [hex.EncodeToString String.length length]; lia. Qed.

Lemma hex_digits_of_byte b :
  lowerHexDigit (hex.digit (N.div (Byte.to_N b) 16)) = true
  /\ lowerHexDigit (hex.digit (N.modulo (Byte.to_N b) 16)) = true.
Proof. destruct b; vm_compute; split; reflexivity. Qed.

Lemma EncodeToString_lowerhex src :
  forallb lowerHexDigit (list_ascii_of_string (hex.EncodeToString src)) = true.
Proof.
  induction src as [|b src IH]; [reflexivity|].
  cbn [hex.EncodeToString list_ascii_of_string forallb].
  destruct (hex_digits_of_byte b) as [-> ->]. exact IH.
Qed.

Section Fingerprint.

Context {rt : GoRuntime}.

(** The base string as the specification words it: the substituted
    template when there is one, else sysName-ip when there is a system
    name, else the address. *)
Definition fingerprintBase (addr : list byte) (sysName tmpl : string) : string :=
  if nonempty tmpl then
    strings.ReplaceAll (strings.ReplaceAll tmpl "%IP%" (IP_String addr)) "%sysName%" sysName
  else if nonempty sysName then (sysName ++ "-" ++ IP_String addr)%string
  else IP_String addr.

(** C4. The fingerprint of (ip, sysName, template) is the lowercase hex
    encoding of the first 24 bytes of the SHA-256 digest of the base
    string (substituted template, else sysName-ip, else ip); it is a
    function of these three inputs alone, and always consists of exactly
    48 characters, each one of 0-9 or a-f. *)
Theorem deriveFingerprint_hex48 (addr : list byte) (sysName tmpl : string) :
  deriveFingerprint addr sysName tmpl
  = hex.EncodeToString
      (firstn 24 (sha256.Sum256 (list_byte_of_string (fingerprintBase addr sysName tmpl))))
  /\ String.length (deriveFingerprint addr sysName tmpl) = 48%nat
  /\ forallb lowerHexDigit (list_ascii_of_string (deriveFingerprint addr sysName tmpl)) = true.
Proof.
  split; [|split].
  - unfold deriveFingerprint, fingerprintBase, replacePlaceholders.
    destruct (nonempty tmpl), (nonempty sysName); reflexivity.
  - unfold deriveFingerprint.
    rewrite EncodeToString_length, length_take, Sum256_length. reflexivity.
  - apply EncodeToString_lowerhex.
Qed.

End Fingerprint.

(** ** Category closure *)

(** The closed set of sensor categories. *)
Inductive category :=
| Temperature | Humidity | CarbonDioxide | Pressure | PM2_5 | PM10 | VOC.

(** The accepted spellings, in lower case: each category's name, and the
    short aliases of temperature, humidity and pressure. *)
Definition categoryNames : list (string * category) :=
  [ ("temperature", Temperature); ("temp", Temperature); ("t", Temperature);
    ("humidity", Humidity); ("hum", Humidity); ("h", Humidity);
    ("co2", CarbonDioxide);
    ("pressure", Pressure); ("press", Pressure); ("pr", Pressure);
    ("pm25", PM2_5); ("pm10", PM10); ("voc", VOC) ]%string.

Definition normalizeCategory (lower : string) : option category :=
  snd <$> List.find (fun p => String.eqb lower (fst p)) categoryNames.

Section CategoryClosure.

Context {rt : GoRuntime}.

(** The metric map a device state keeps for a category. *)
Definition metricsOf (ds : deviceState) (cat : category) : gmap string float :=
  match cat with
  | Temperature => lastTemps ds
  | Humidity => lastHumidity ds
  | CarbonDioxide => lastCO2 ds
  | Pressure => lastPressure ds
  | PM2_5 => lastPM25 ds
  | PM10 => lastPM10 ds
  | VOC => lastVOC ds
  end.

Lemma setMetric_cases (ds : deviceState) (category name : string) (val : float) :
  match normalizeCategory (ToLower category) with
  | Some cat =>
      metricsOf (setMetric ds category name val) cat = <[name := val]> (metricsOf ds cat)
      /\ (forall cat', cat' <> cat ->
            metricsOf (setMetric ds category name val) cat' = metricsOf ds cat')
      /\ ip (setMetric ds category name val) = ip ds
      /\ finger (setMetric ds category name val) = finger ds
      /\ hostname (setMetric ds category name val) = hostname ds
  | None => setMetric ds category name val = ds
  end.
Proof.
  unfold setMetric, normalizeCategory, is_case, categoryNames.
  generalize (ToLower category). intros c.
  cbn [List.find existsb fst snd orb].
  repeat match goal with
  | |- context [String.eqb c ?lit] =>
      destruct (String.eqb c lit) eqn:?;
      [ cbn [orb fmap option_fmap option_map snd metricsOf lastTemps lastHumidity lastCO2
              lastPressure lastPM25 lastPM10 lastVOC ip finger hostname];
        repeat split; try reflexivity;
        intros cat' Hne; destruct cat'; try reflexivity; congruence
      | cbn [orb] ]
  end.
  reflexivity.
Qed.

(** C6. [setMetric] upserts (name, value) into the map of exactly one
    category when the category, lower-cased, is one of the seven names or
    one of the aliases temp/t, hum/h, press/pr; the other six maps and
    the identity stay as they were.  For every other category the device
    state is unchanged. *)
Theorem setMetric_category_closure (ds : deviceState) (category name : string) (val : float) :
  (In (ToLower category)
      ["temperature"; "temp"; "t"; "humidity"; "hum"; "h"; "co2";
       "pressure"; "press"; "pr"; "pm25"; "pm10"; "voc"]%string
   <-> exists cat,
         normalizeCategory (ToLower category) = Some cat
         /\ metricsOf (setMetric ds category name val) cat = <[name := val]> (metricsOf ds cat)
         /\ (forall cat', cat' <> cat ->
               metricsOf (setMetric ds category name val) cat' = metricsOf ds cat')
         /\ ip (setMetric ds category name val) = ip ds
         /\ finger (setMetric ds category name val) = finger ds
         /\ hostname (setMetric ds category name val) = hostname ds)
  /\ (~ In (ToLower category)
        ["temperature"; "temp"; "t"; "humidity"; "hum"; "h"; "co2";
         "pressure"; "press"; "pr"; "pm25"; "pm10"; "voc"]%string ->
      setMetric ds category name val = ds).
Proof.
  pose proof (setMetric_cases ds category name val) as Hc.
  assert (Hin : In (ToLower category)
                  ["temperature"; "temp"; "t"; "humidity"; "hum"; "h"; "co2";
                   "pressure"; "press"; "pr"; "pm25"; "pm10"; "voc"]%string
                <-> is_Some (normalizeCategory (ToLower category))).
  { clear Hc. generalize (ToLower category). intros c.
    unfold normalizeCategory, categoryNames. cbn [List.find fst snd In].
    split.
    - intros H.
      repeat (destruct H as [<- | H]; [vm_compute; eauto |]). destruct H.
    - intros [cat Hcat]. revert Hcat.
      repeat match goal with
      | |- context [String.eqb c ?lit] =>
          destruct (String.eqb c lit) eqn:E;
          [ apply String.eqb_eq in E; intros _; subst c; cbn [In]; tauto | clear E ]
      end.
      discriminate. }
  split.
  - rewrite Hin. split.
    + intros [cat Hcat]. rewrite Hcat in Hc. exists cat. tauto.
    + intros (cat & Hcat & _). eauto.
  - rewrite Hin. intros Hno.
    destruct (normalizeCategory (ToLower category)) as [cat|]; [|exact Hc].
    exfalso. apply Hno. eauto.
Qed.

End CategoryClosure.

(** ** The value transform *)

(** Rounding to one decimal place, as the specification writes it. *)
Definition round1 (x : float) : float := (math.Round (x * 10) / 10)%float.

(** The integer [math.Round] picks for a magnitude m * 2^e with a fractional
    part is the one within one half of it, the upper one at a tie. *)
Lemma round_mag_nearest (m : positive) (e : Z) :
  e < 0 ->
  2 * math.round_mag m e * 2 ^ (- e) <= 2 * Z.pos m + 2 ^ (- e)
  /\ 2 * Z.pos m + 2 ^ (- e) < 2 * (math.round_mag m e + 1) * 2 ^ (- e).
Proof.
  intros He. unfold math.round_mag.
  destruct (Z.leb_spec 0 e) as [|_]; [lia|].
  assert (Hk : 0 < 2 ^ (- e)) by (apply Z.pow_pos_nonneg; lia).
  set (k := 2 ^ (- e)) in *.
  pose proof (Z.div_mod (2 * Z.pos m + k) (2 * k)) as Hdm.
  pose proof (Z.mod_pos_bound (2 * Z.pos m + k) (2 * k)) as Hb.
  split; nia.
Qed.

Example transformValue_S4 :
  (transformValue 10 237 true = 237 / 10
   /\ transformValue (1 / 10) 237 false = 2370
   /\ transformValue 0 237 false = 237
   /\ transformValue (-0) 237 true = 237
   /\ transformValue 4 1 true = 3 / 10 /\ transformValue 4 (-1) true = -3 / 10
   /\ transformValue 100 125 true = 13 / 10
   /\ transformValue 100 124 true = 12 / 10)%float.
Proof. vm_compute. repeat split; reflexivity. Qed.

(** C7. The transform divides the value by the scale, a zero scale counting
    as one, and with rounding enabled rounds the quotient to one decimal
    place: transform(v, s, round) = round1(v / s') where
    round1(x) = Round(x * 10) / 10 in binary64 arithmetic; [Round] keeps
    zeros, infinities, NaN and integers, and otherwise yields the integer
    nearest to the magnitude, a tie going away from zero, under the sign of
    its argument. *)
Theorem transformValue_round1 (v s : float) :
  let s' := if (s =? 0)%float then 1%float else s in
  transformValue s v false = (v / s')%float
  /\ transformValue s v true = round1 (v / s')
  /\ (forall x : float,
        match Prim2SF x with
        | S754_finite sign m e =>
            if 0 <=? e then math.Round x = x
            else exists n : Z,
                2 * n * 2 ^ (- e) <= 2 * Z.pos m + 2 ^ (- e) < 2 * (n + 1) * 2 ^ (- e)
                /\ math.Round x
                   = SF2Prim (binary_normalize prec emax (if sign then - n else n) 0 sign)
        | _ => math.Round x = x
        end).
Proof.
  cbv zeta. split; [|split].
  - unfold transformValue. reflexivity.
  - unfold transformValue, round1. reflexivity.
  - intros x. unfold math.Round.
    destruct (Prim2SF x) as [| | |sign m e]; try reflexivity.
    destruct (Z.leb_spec 0 e) as [|He]; [reflexivity|].
    exists (math.round_mag m e). split; [|reflexivity].
    apply round_mag_nearest. exact He.
Qed.


(** ** Dashboard summaries *)

(** *** The order of binary64 values *)

Ltac sf_compare :=
  repeat match goal with
  | |- context [Z.compare ?a ?b] => destruct (Z.compare_spec a b)
  | |- context [PosDef.Pos.compare_cont Eq ?a ?b] =>
      change (PosDef.Pos.compare_cont Eq a b) with (Pos.compare a b);
      destruct (Pos.compare_spec a b)
  end; cbn; try congruence; try lia.

Lemma SFleb_refl x : SFeqb x x = true -> SFleb x x = true.
Proof. unfold SFeqb, SFleb. destruct (SFcompare x x) as [[]|]; congruence. Qed.

Lemma SFleb_total x y :
  SFeqb x x = true -> SFeqb y y = true -> SFltb x y = false -> SFleb y x = true.
Proof.
  unfold SFeqb, SFltb, SFleb.
  destruct x as [[]|[]| |[] m1 e1], y as [[]|[]| |[] m2 e2];
    cbn; try congruence; intros _ _; sf_compare.
Qed.

Lemma SFltb_leb x y : SFltb x y = true -> SFleb x y = true.
Proof. unfold SFltb, SFleb. destruct (SFcompare x y) as [[]|]; congruence. Qed.

Lemma SFleb_trans x y z : SFleb x y = true -> SFleb y z = true -> SFleb x z = true.
Proof.
  unfold SFleb.
  destruct x as [[]|[]| |[] m1 e1], y as [[]|[]| |[] m2 e2], z as [[]|[]| |[] m3 e3];
    cbn; try congruence; sf_compare.
Qed.

(** [x] is a number: it equals itself. *)
Definition notNaN (x : float) : bool := (x =? x)%float.

Lemma float_leb_refl x : notNaN x = true -> (x <=? x)%float = true.
Proof. unfold notNaN. rewrite FloatAxioms.eqb_spec, FloatAxioms.leb_spec. apply SFleb_refl. Qed.

Lemma float_leb_total x y :
  notNaN x = true -> notNaN y = true -> (x <? y)%float = false -> (y <=? x)%float = true.
Proof.
  unfold notNaN.
  rewrite !FloatAxioms.eqb_spec, FloatAxioms.leb_spec, FloatAxioms.ltb_spec.
  apply SFleb_total.
Qed.

Lemma float_ltb_leb x y : (x <? y)%float = true -> (x <=? y)%float = true.
Proof. rewrite FloatAxioms.leb_spec, FloatAxioms.ltb_spec. apply SFltb_leb. Qed.

Lemma float_leb_trans x y z :
  (x <=? y)%float = true -> (y <=? z)%float = true -> (x <=? z)%float = true.
Proof. rewrite !FloatAxioms.leb_spec. apply SFleb_trans. Qed.

(** *** The loop of [maxMap] *)

(** Started on a number [mx] that is already set, the loop ends on [mx] or
    on a visited value, and the result bounds [mx] and every visited value. *)
Lemma maxMap_loop (l : list (string * float)) (mx r : float) :
  notNaN mx = true ->
  Forall (fun kv => notNaN kv.2 = true) l ->
  r = fst (fold_left maxMap_step l (mx, true)) ->
  (r = mx \/ In r (map snd l))
  /\ (mx <=? r)%float = true
  /\ Forall (fun kv => (kv.2 <=? r)%float = true) l.
Proof.
  revert mx. induction l as [|[k v] l IH]; intros mx Hmx Hl Hr; cbn [fold_left map In] in *.
  - cbn in Hr. subst r. split; [by left|]. split; [by apply float_leb_refl|constructor].
  - apply Forall_cons in Hl as [Hv Hl]. cbn [snd] in Hv.
    unfold maxMap_step at 2 in Hr. cbn [negb orb snd] in Hr.
    destruct (mx <? v)%float eqn:Hlt.
    + destruct (IH v Hv Hl Hr) as (Hin & Hle & Hall).
      split; [destruct Hin; auto|].
      split; [eapply float_leb_trans; [apply float_ltb_leb; exact Hlt|exact Hle]|].
      constructor; [exact Hle|exact Hall].
    + destruct (IH mx Hmx Hl Hr) as (Hin & Hle & Hall).
      split; [destruct Hin; auto|].
      split; [exact Hle|].
      constructor; [|exact Hall].
      cbn [snd]. eapply float_leb_trans; [|exact Hle].
      by apply float_leb_total.
Qed.

(** The loop of [avgMap] sums the visited values and counts them. *)
Lemma avgMap_loop (l : list (string * float)) (sum : float) (n : Z) :
  fold_left avgMap_step l (sum, n)
  = (fold_left PrimFloat.add (map snd l) sum, n + Z.of_nat (length l)).
Proof.
  revert sum n. induction l as [|[k v] l IH]; intros sum n; cbn [fold_left map length snd].
  - f_equal. lia.
  - unfold avgMap_step at 2. cbn [snd]. rewrite IH. f_equal. lia.
Qed.

(** *** Maximum and mean of a category *)

(** No value of the map is a NaN. *)
Definition noNaN (m : gmap string float) : bool :=
  forallb (fun kv => notNaN kv.2) (map_to_list m).

(** [r] is a maximum of the values of [m]: one of them, and no smaller than
    any of them. *)
Definition isMaxOf (m : gmap string float) (r : float) : Prop :=
  (exists k, m !! k = Some r) /\ forall k v, m !! k = Some v -> (v <=? r)%float = true.

(** The arithmetic mean of a list of values: their sum, taken from the left,
    over their number. *)
Definition meanOf (vs : list float) : float :=
  (fold_left PrimFloat.add vs 0 / math.float64_of_Z (Z.of_nat (length vs)))%float.

(** The dashboard scalar of a category. *)
Definition dashboardOf (i : system.Info) (cat : category) : float :=
  match cat with
  | Temperature => system.DashboardTemp i
  | Humidity => system.DashboardHumidity i
  | CarbonDioxide => system.DashboardCO2 i
  | Pressure => system.DashboardPressure i
  | PM2_5 => system.DashboardPM25 i
  | PM10 => system.DashboardPM10 i
  | VOC => system.DashboardVOC i
  end.

Section Dashboard.

Context {rt : GoRuntime}.

Lemma range_elem {V} (m : gmap string V) (k : string) (v : V) :
  In (k, v) (range m) <-> m !! k = Some v.
Proof.
  rewrite <- list_elem_of_In, (range_perm V m). apply elem_of_map_to_list.
Qed.

Lemma range_length {V} (m : gmap string V) : length (range m) = size m.
Proof. rewrite (range_perm V m). apply length_map_to_list. Qed.

Lemma len_positive (m : gmap string float) : (0 <? len m) = true <-> m <> ∅.
Proof.
  unfold len. rewrite Z.ltb_lt. rewrite <- map_size_non_empty_iff. lia.
Qed.

Lemma len_zero (m : gmap string float) : (0 <? len m) = false <-> m = ∅.
Proof.
  unfold len. rewrite Z.ltb_ge. rewrite <- map_size_empty_iff. lia.
Qed.

Lemma maxMap_isMax (m : gmap string float) :
  m <> ∅ -> noNaN m = true -> isMaxOf m (maxMap m).
Proof.
  intros Hne Hnan.
  assert (Hall : Forall (fun kv : string * float => notNaN kv.2 = true) (range m)).
  { unfold noNaN in Hnan. rewrite forallb_forall in Hnan.
    apply List.Forall_forall. intros [k v] Hin. apply Hnan.
    apply list_elem_of_In. rewrite <- (range_perm _ m). by apply list_elem_of_In. }
  unfold maxMap.
  destruct (range m) as [|[k0 v0] l] eqn:Hr.
  { exfalso. apply Hne. apply map_size_empty_iff.
    rewrite <- range_length, Hr. reflexivity. }
  cbn [fold_left]. unfold maxMap_step at 2. cbn [negb orb snd].
  apply Forall_cons in Hall as [Hv0 Hall]. cbn [snd] in Hv0.
  destruct (maxMap_loop l v0 _ Hv0 Hall eq_refl) as (Hin & Hle & Hbound).
  set (r := fst (fold_left maxMap_step l (v0, true))) in *.
  assert (Hmem : forall k v, m !! k = Some v -> In (k, v) ((k0, v0) :: l)).
  { intros k v Hkv. rewrite <- Hr. by apply range_elem. }
  split.
  - destruct Hin as [-> | Hin].
    + exists k0. apply range_elem. rewrite Hr. by left.
    + apply in_map_iff in Hin as ([k v] & Hv & Hkv). cbn [snd] in Hv. subst v.
      exists k. apply range_elem. rewrite Hr. by right.
  - intros k v Hkv. destruct (Hmem k v Hkv) as [Heq | Hin'].
    + injection Heq as _ ->. exact Hle.
    + rewrite List.Forall_forall in Hbound. exact (Hbound (k, v) Hin').
Qed.

Lemma avgMap_mean (m : gmap string float) :
  m <> ∅ ->
  exists vs, vs ≡ₚ map snd (map_to_list m) /\ avgMap m = meanOf vs.
Proof.
  intros Hne. exists (map snd (range m)). split.
  - by rewrite (range_perm _ m).
  - unfold avgMap, meanOf. rewrite avgMap_loop. rewrite Z.add_0_l, length_map.
    destruct (Z.eqb_spec (Z.of_nat (length (range m))) 0) as [Hz|]; [|reflexivity].
    exfalso. apply Hne. apply map_size_empty_iff. rewrite <- range_length. lia.
Qed.

(** C8. In the payload built by [buildCombinedData], the dashboard scalar of
    a category without entries is zero; for a category with entries it is a
    maximum of the current values (temperature, humidity, CO2, PM2.5, PM10,
    VOC; the values being numbers) and, for pressure, the arithmetic mean
    of the current values, summed in the order the map is ranged over. *)
Theorem dashboard_summaries (ds : deviceState) (agentVersion : string) (cat : category) :
  noNaN (metricsOf ds cat) = true ->
  (metricsOf ds cat = ∅ ->
   dashboardOf (system.info (buildCombinedData ds agentVersion)) cat = 0%float)
  /\ (metricsOf ds cat <> ∅ ->
      match cat with
      | Pressure =>
          exists vs, vs ≡ₚ map snd (map_to_list (metricsOf ds cat))
            /\ dashboardOf (system.info (buildCombinedData ds agentVersion)) cat = meanOf vs
      | _ =>
          isMaxOf (metricsOf ds cat)
            (dashboardOf (system.info (buildCombinedData ds agentVersion)) cat)
      end).
Proof.
  intros Hnan. split.
  - intros He. apply len_zero in He.
    destruct cat; cbn [dashboardOf buildCombinedData system.info system.DashboardTemp
      system.DashboardHumidity system.DashboardCO2 system.DashboardPressure
      system.DashboardPM25 system.DashboardPM10 system.DashboardVOC metricsOf] in *;
      by rewrite He.
  - intros Hne. pose proof Hne as Hpos. apply len_positive in Hpos.
    destruct cat; cbn [dashboardOf buildCombinedData system.info system.DashboardTemp
      system.DashboardHumidity system.DashboardCO2 system.DashboardPressure
      system.DashboardPM25 system.DashboardPM10 system.DashboardVOC metricsOf] in *;
      rewrite Hpos; first [ by apply maxMap_isMax | by apply avgMap_mean ].
Qed.

End Dashboard.

(** ** Hub sessions *)

Section Sessions.

Context {rt : GoRuntime}.

(** Every entry of an execution records one step of the agent. *)
Lemma exec_moment (evs : list Event) (a : Agent) (i : nat) (mo : Moment) :
  exec a evs !! i = Some mo ->
  exists a', step (before mo) (event mo) = Some (a', written mo).
Proof.
  revert a i. induction evs as [|e evs IH]; intros a i Hi; [done|].
  cbn [exec] in Hi. destruct (step a e) as [[a' out]|] eqn:Hs; [|done].
  destruct i as [|i]; cbn in Hi.
  - injection Hi as <-. cbn. eauto.
  - eauto.
Qed.

Lemma outputs_elem (key : string) (ws : Writes) (o : Output) :
  In o (outputs key ws) -> session o = key /\ In (conn o, frame o) ws.
Proof.
  unfold outputs. rewrite in_map_iff. intros ([c f] & <- & Hin). cbn. auto.
Qed.

Lemma copy_loop (l : list (string * float)) (dst : gmap string float) :
  NoDup l.*1 ->
  fold_left (fun dst kv => <[kv.1 := kv.2]> dst) l dst = list_to_map l ∪ dst.
Proof.
  revert dst. induction l as [|[k v] l IH]; intros dst Hnd; cbn [fold_left list_to_map foldr].
  - by rewrite (left_id_L ∅ (∪)).
  - cbn in Hnd. apply NoDup_cons in Hnd as [Hk Hnd].
    rewrite (IH _ Hnd). cbn [fst snd].
    rewrite <- insert_union_l. symmetry. apply insert_union_r.
    by apply not_elem_of_list_to_map_1.
Qed.

(** Copying a map entry by entry yields the same map, whatever the order. *)
Lemma copyMap_id (m : gmap string float) : copyMap m = m.
Proof.
  unfold copyMap.
  assert (Hnd : NoDup (range m).*1).
  { rewrite (range_perm _ m). apply NoDup_fst_map_to_list. }
  rewrite (copy_loop _ _ Hnd), (right_id_L ∅ (∪)).
  rewrite <- (list_to_map_to_list m) at 2.
  apply list_to_map_proper; [exact Hnd|apply range_perm].
Qed.

(** [send] writes at most the snapshot, and only on a verified session
    with a connection. *)
Lemma send_writes (a : Agent) (dc : deviceClient) (ws : Writes) :
  send a dc = Some ws ->
  ws = []
  \/ exists c ds,
       Conn dc = Some c /\ hubVerified dc = true /\ store a !! dsRef dc = Some ds
       /\ len (lastTemps ds) <> 0
       /\ ws = [(c, CombinedDataFrame (buildCombinedData ds Version))].
Proof.
  unfold send, sendMessage.
  destruct (Conn dc) as [c|] eqn:Hc; [|intros [= <-]; by left].
  destruct (hubVerified dc) eqn:Hv; cbn [negb]; [|intros [= <-]; by left].
  destruct (store a !! dsRef dc) as [ds|] eqn:Hds; [|done].
  destruct (Z.eqb_spec (len (system.Temperatures (system.stats (buildCombinedData ds Version)))) 0)
    as [Hz|Hnz]; [intros [= <-]; by left|].
  intros [= <-]. right. exists c, ds. repeat split; try done.
  cbn [buildCombinedData system.stats system.Temperatures] in Hnz.
  by rewrite copyMap_id in Hnz.
Qed.

(** A snapshot leaves [OnMessage] only for a [GetData] request on a verified
    session. *)
Lemma OnMessage_data (a : Agent) (dc dc' : deviceClient) (message : Message)
    (ws : Writes) (c : nat) (cd : system.CombinedData) :
  OnMessage a dc message = Some (dc', ws) ->
  In (c, CombinedDataFrame cd) ws ->
  MsgOpcode message = OpcodeBinary
  /\ (exists req, DecodeHubRequest (MsgData message) = Some req
                  /\ common.Action req = common.GetData)
  /\ hubVerified dc = true /\ Conn dc = Some c.
Proof.
  unfold OnMessage.
  destruct (MsgOpcode message); try (intros [= <- <-]; intros []).
  destruct (DecodeHubRequest (MsgData message)) as [req|]; [|intros [= <- <-]; intros []].
  destruct (Z.eqb_spec (common.Action req) common.CheckFingerprint) as [Hcf|Hncf].
  - destruct (UnmarshalFingerprintRequest (common.Data req)) as [fr|];
      [|intros [= <- <-]; intros []].
    destruct (verifySignature a dc (common.Signature fr)) as [[]|];
      [|intros [= <- <-]; intros []|done].
    destruct (store a !! dsRef dc) as [ds|]; [|done].
    unfold sendMessage. cbn [with_verified Conn].
    destruct (Conn dc); [|done]. intros [= <- <-]. intros [[=]|[]].
  - destruct (Z.eqb_spec (common.Action req) common.GetData) as [Hgd|Hngd];
      [|intros [= <- <-]; intros []].
    destruct (send a dc) as [ws'|] eqn:Hsend; [|done].
    intros [= <- <-] Hin.
    apply send_writes in Hsend as [->|(c' & ds & Hc & Hv & _ & _ & ->)]; [destruct Hin|].
    destruct Hin as [[= <- _]|[]]. eauto 10.
Qed.

Lemma connect_writes (a : Agent) (dc dc' : deviceClient) (dial : option nat)
    (ws : Writes) (ts : list Task) (c : nat) (f : Frame) :
  connect a dc dial = (dc', ws, ts) -> In (c, f) ws -> f = CloseFrame 1000.
Proof.
  unfold connect.
  destruct (negb (urlOK a) || negb (nonempty (token a))
            || match pubKey a with None => true | Some _ => false end);
    [intros [= <- <- <-]; intros []|].
  destruct (Conn dc), dial; intros [= <- <- <-]; intros Hin;
    repeat (destruct Hin as [[= <- <-]|Hin]; [done|]); destruct Hin.
Qed.

(** One step writes a snapshot only while handling a [GetData] message on
    the session the frame belongs to, that session being verified. *)
Lemma step_data (a a' : Agent) (e : Event) (out : list Output) (o : Output)
    (cd : system.CombinedData) :
  step a e = Some (a', out) ->
  In o out ->
  frame o = CombinedDataFrame cd ->
  exists message req dc,
    e = EvMessage (session o) message
    /\ MsgOpcode message = OpcodeBinary
    /\ DecodeHubRequest (MsgData message) = Some req
    /\ common.Action req = common.GetData
    /\ conns a !! session o = Some dc
    /\ hubVerified dc = true
    /\ Conn dc = Some (conn o).
Proof.
  intros Hs Hin Hf. destruct e; cbn [step] in Hs.
  - injection Hs as <- <-. destruct Hin.
  - destruct (tasks a !! task) as [[addr iv rule|]|];
      [destruct (Devices (cfg a) !! rule)| |]; injection Hs as <- <-; destruct Hin.
  - injection Hs as <- <-. destruct Hin.
  - injection Hs as <- <-. destruct Hin.
  - injection Hs as <- <-. destruct Hin.
  - destruct (conns a !! key) as [dc|]; [|injection Hs as <- <-; destruct Hin].
    destruct (connect a dc dial) as [[dc' ws] ts] eqn:Hc. injection Hs as <- <-.
    apply outputs_elem in Hin as [_ Hin].
    apply (connect_writes _ _ _ _ _ _ _ _ Hc) in Hin. congruence.
  - destruct (conns a !! key) as [dc|] eqn:Hk; [|injection Hs as <- <-; destruct Hin].
    destruct (OnMessage a dc message) as [[dc' ws]|] eqn:Hm; [|done].
    injection Hs as <- <-. apply outputs_elem in Hin as [Hkey Hin].
    rewrite Hf in Hin.
    destruct (OnMessage_data _ _ _ _ _ _ _ Hm Hin) as (Hop & (req & Hd & Ha) & Hv & Hc).
    exists message, req, dc. rewrite Hkey. repeat split; done.
  - destruct (conns a !! key) as [dc|]; injection Hs as <- <-; [|destruct Hin].
    cbn in Hin. destruct Hin as [<-|[]]. discriminate Hf.
  - destruct (conns a !! key) as [dc|]; [|injection Hs as <- <-; destruct Hin].
    cbn in Hs. injection Hs as <- <-. destruct Hin.
Qed.

(** C1. In every execution of the agent, a CombinedData frame is written
    only while handling an inbound GetData request on the session the frame
    belongs to, and only if that session is verified when the request
    arrives; a call of [Notify] writes nothing at all. *)
Theorem data_only_on_verified_GetData (a : Agent) (evs : list Event) (i : nat)
    (mo : Moment) (o : Output) (cd : system.CombinedData) :
  exec a evs !! i = Some mo ->
  In o (written mo) ->
  frame o = CombinedDataFrame cd ->
  (exists message req dc,
     event mo = EvMessage (session o) message
     /\ MsgOpcode message = OpcodeBinary
     /\ DecodeHubRequest (MsgData message) = Some req
     /\ common.Action req = common.GetData
     /\ conns (before mo) !! session o = Some dc
     /\ hubVerified dc = true)
  /\ (forall (b : Agent) (addr : list byte), step b (EvNotify addr) = Some (Notify b addr, [])).
Proof.
  intros Hi Hin Hf. split; [|reflexivity].
  apply exec_moment in Hi as [a' Hs].
  destruct (step_data _ _ _ _ _ _ Hs Hin Hf) as (message & req & dc & H).
  exists message, req, dc. tauto.
Qed.

End Sessions.

(** ** What each operation leaves alone *)

Section Frames.

Context {rt : GoRuntime}.

(** [a'] differs from [a] only in metric values: same settings, registry,
    sessions and tasks, and the same identity at every store index. *)
Definition sameButMetrics (a a' : Agent) : Prop :=
  cfg a' = cfg a /\ pubKey a' = pubKey a /\ urlOK a' = urlOK a /\ token a' = token a
  /\ devices a' = devices a /\ conns a' = conns a /\ tasks a' = tasks a
  /\ length (store a') = length (store a)
  /\ forall p ds, store a !! p = Some ds ->
       exists ds', store a' !! p = Some ds'
                   /\ finger ds' = finger ds /\ hostname ds' = hostname ds /\ ip ds' = ip ds.

Lemma sameButMetrics_refl a : sameButMetrics a a.
Proof. unfold sameButMetrics. repeat split; eauto. Qed.

Lemma sameButMetrics_trans a b c :
  sameButMetrics a b -> sameButMetrics b c -> sameButMetrics a c.
Proof.
  intros (H1 & H2 & H3 & H4 & H5 & H6 & H7 & H8 & H9)
         (G1 & G2 & G3 & G4 & G5 & G6 & G7 & G8 & G9).
  unfold sameButMetrics. repeat split; try congruence.
  intros p ds Hp. destruct (H9 p ds Hp) as (ds1 & Hp1 & E1 & E2 & E3).
  destruct (G9 p ds1 Hp1) as (ds2 & Hp2 & F1 & F2 & F3).
  exists ds2. repeat split; congruence.
Qed.

Lemma setMetric_identity ds category name val :
  finger (setMetric ds category name val) = finger ds
  /\ hostname (setMetric ds category name val) = hostname ds
  /\ ip (setMetric ds category name val) = ip ds.
Proof.
  unfold setMetric.
  repeat match goal with |- context [if ?b then _ else _] => destruct b end; auto.
Qed.

Lemma setMetricAt_same a p category name val :
  sameButMetrics a (setMetricAt a p category name val).
Proof.
  unfold setMetricAt. destruct (store a !! p) as [ds|] eqn:Hp; [|apply sameButMetrics_refl].
  unfold sameButMetrics. cbn [with_store cfg pubKey urlOK token devices conns tasks store].
  repeat split; try reflexivity.
  - apply length_insert.
  - intros q dq Hq. destruct (decide (q = p)) as [->|Hne].
    + rewrite list_lookup_insert_eq by (by eapply lookup_lt_Some).
      rewrite Hp in Hq. injection Hq as <-.
      eexists. split; [reflexivity|]. apply setMetric_identity.
    + rewrite list_lookup_insert_ne by done. eauto.
Qed.

Lemma handleVar_same addr p a v : sameButMetrics a (handleVar addr p a v).
Proof.
  unfold handleVar.
  repeat match goal with
  | |- sameButMetrics a a => apply sameButMetrics_refl
  | |- sameButMetrics a (setMetricAt _ _ _ _ _) => apply setMetricAt_same
  | |- context [if ?b then _ else _] => destruct b
  | |- context [match ?x with _ => _ end] => destruct x
  end.
Qed.

Lemma pollOID_same peer addr a kv : sameButMetrics a (pollOID peer addr a kv).
Proof.
  unfold pollOID. destruct kv as [oid om].
  repeat match goal with
  | |- sameButMetrics a a => apply sameButMetrics_refl
  | |- sameButMetrics a (setMetricAt _ _ _ _ _) => apply setMetricAt_same
  | |- context [if ?b then _ else _] => destruct b
  | |- context [match ?x with _ => _ end] => destruct x
  end.
Qed.

Lemma fold_same {X} (f : Agent -> X -> Agent) (l : list X) (a : Agent) :
  (forall b x, sameButMetrics b (f b x)) -> sameButMetrics a (fold_left f l a).
Proof.
  intros Hf. revert a. induction l as [|x l IH]; intros a; cbn [fold_left].
  - apply sameButMetrics_refl.
  - eapply sameButMetrics_trans; [apply Hf|apply IH].
Qed.

End Frames.

Section Evolution.

Context {rt : GoRuntime}.

(** The session [Notify] creates for an address whose state is at [p]. *)
Definition freshSession (addr : list byte) (p : nat) : deviceClient :=
  {| dcIP := addr; dsRef := p; Conn := None; hubVerified := false |}.

Lemma Notify_unfold (a : Agent) (addr : list byte) :
  Notify a addr =
  match conns a !! IP_String addr, devices a !! IP_String addr with
  | None, Some p =>
      spawn (with_conns a (<[IP_String addr := freshSession addr p]> (conns a)))
            (ConnectTask (IP_String addr) 0)
  | _, _ => a
  end.
Proof.
  unfold Notify, registry_get, freshSession.
  destruct (conns a !! IP_String addr), (devices a !! IP_String addr); reflexivity.
Qed.

Lemma Notify_fields (a : Agent) (addr : list byte) :
  cfg (Notify a addr) = cfg a /\ pubKey (Notify a addr) = pubKey a
  /\ urlOK (Notify a addr) = urlOK a /\ token (Notify a addr) = token a
  /\ store (Notify a addr) = store a /\ devices (Notify a addr) = devices a.
Proof.
  rewrite Notify_unfold.
  destruct (conns a !! IP_String addr), (devices a !! IP_String addr); cbn; auto 10.
Qed.

(** The poll loop [ensurePolling] starts for an address, if any. *)
Definition pollLoopFor (a : Agent) (addr : list byte) : list Task :=
  match findPollRule (Devices (cfg a)) 0 (IP_String addr) with
  | None => []
  | Some (i, dc) => [PollLoop addr (DevPollIntervalSec dc) i]
  end.

Lemma ensurePolling_fields (a : Agent) (addr : list byte) :
  cfg (ensurePolling a addr) = cfg a /\ pubKey (ensurePolling a addr) = pubKey a
  /\ urlOK (ensurePolling a addr) = urlOK a /\ token (ensurePolling a addr) = token a
  /\ store (ensurePolling a addr) = store a /\ devices (ensurePolling a addr) = devices a
  /\ conns (ensurePolling a addr) = conns a
  /\ tasks (ensurePolling a addr) = tasks a ++ pollLoopFor a addr.
Proof.
  unfold ensurePolling, pollLoopFor.
  destruct (findPollRule (Devices (cfg a)) 0 (IP_String addr)) as [[i dc]|]; cbn;
    rewrite ?app_nil_r; auto 10.
Qed.

(** What a step may do to the settings and to the store: the settings
    stay, the store only grows, and a stored state keeps its identity. *)
Definition grows (a a' : Agent) : Prop :=
  cfg a' = cfg a /\ pubKey a' = pubKey a /\ urlOK a' = urlOK a /\ token a' = token a
  /\ (length (store a) <= length (store a'))%nat
  /\ forall p ds, store a !! p = Some ds ->
       exists ds', store a' !! p = Some ds'
                   /\ finger ds' = finger ds /\ hostname ds' = hostname ds /\ ip ds' = ip ds.

Lemma grows_refl a : grows a a.
Proof. unfold grows. repeat split; eauto. Qed.

Lemma grows_trans a b c : grows a b -> grows b c -> grows a c.
Proof.
  intros (H1 & H2 & H3 & H4 & H5 & H6) (G1 & G2 & G3 & G4 & G5 & G6).
  unfold grows. repeat split; try congruence; [lia|].
  intros p ds Hp. destruct (H6 p ds Hp) as (ds1 & Hp1 & E1 & E2 & E3).
  destruct (G6 p ds1 Hp1) as (ds2 & Hp2 & F1 & F2 & F3).
  exists ds2. repeat split; congruence.
Qed.

Lemma sameButMetrics_grows a a' : sameButMetrics a a' -> grows a a'.
Proof.
  intros (H1 & H2 & H3 & H4 & _ & _ & _ & H8 & H9).
  unfold grows. repeat split; try done. lia.
Qed.

(** Steps that leave the store as it is. *)
Lemma same_store_grows a a' :
  cfg a' = cfg a -> pubKey a' = pubKey a -> urlOK a' = urlOK a -> token a' = token a ->
  store a' = store a -> grows a a'.
Proof.
  intros H1 H2 H3 H4 H5. unfold grows. rewrite H5. repeat split; eauto.
Qed.

Lemma Notify_grows a addr : grows a (Notify a addr).
Proof. destruct (Notify_fields a addr) as (?&?&?&?&?&?). by apply same_store_grows. Qed.

Lemma ensurePolling_grows a addr : grows a (ensurePolling a addr).
Proof. destruct (ensurePolling_fields a addr) as (?&?&?&?&?&?). by apply same_store_grows. Qed.

Lemma registry_set_grows a addr ds : grows a (registry_set a addr ds).
Proof.
  unfold grows, registry_set. cbn. repeat split; try done.
  - rewrite length_app. lia.
  - intros p d Hp. exists d. rewrite lookup_app_l by (by eapply lookup_lt_Some). auto.
Qed.

Lemma materialize_grows a addr sysName : grows a (materialize a addr sysName).1.
Proof.
  unfold materialize. destruct (registry_get a addr); cbn [fst]; [apply grows_refl|].
  eapply grows_trans; [apply registry_set_grows|apply ensurePolling_grows].
Qed.

Lemma handle_grows a packet addr : grows a (handle a packet addr).
Proof.
  unfold handle.
  pose proof (materialize_grows a addr (sysNameOf (Variables packet))) as Hm.
  destruct (materialize a addr (sysNameOf (Variables packet))) as [a1 p]. cbn [fst] in Hm.
  eapply grows_trans; [exact Hm|].
  eapply grows_trans; [|apply Notify_grows].
  apply sameButMetrics_grows, fold_same. intros b x. apply handleVar_same.
Qed.

Lemma pollOnce_grows a addr dc peer : grows a (pollOnce a addr dc peer).
Proof.
  unfold pollOnce. destruct (connectOK peer); cbn [negb]; [|apply grows_refl].
  eapply grows_trans; [|apply Notify_grows].
  apply sameButMetrics_grows, fold_same. intros b x. apply pollOID_same.
Qed.

Lemma EnsureDevice_grows a ipText host : grows a (EnsureDevice a ipText host).
Proof.
  unfold EnsureDevice. destruct (ParseIP ipText); [|apply grows_refl].
  eapply grows_trans; [apply registry_set_grows|].
  eapply grows_trans; [apply ensurePolling_grows|apply Notify_grows].
Qed.

Lemma fold_spawn_fields (ts : list Task) (a : Agent) :
  cfg (fold_left spawn ts a) = cfg a /\ pubKey (fold_left spawn ts a) = pubKey a
  /\ urlOK (fold_left spawn ts a) = urlOK a /\ token (fold_left spawn ts a) = token a
  /\ store (fold_left spawn ts a) = store a /\ devices (fold_left spawn ts a) = devices a
  /\ conns (fold_left spawn ts a) = conns a
  /\ tasks (fold_left spawn ts a) = tasks a ++ ts.
Proof.
  revert a. induction ts as [|t ts IH]; intros a; cbn [fold_left].
  - rewrite app_nil_r. auto 10.
  - destruct (IH (spawn a t)) as (->&->&->&->&->&->&->&->). cbn.
    rewrite <- app_assoc. auto 10.
Qed.

(** Every step of the agent keeps the settings and the stored identities. *)
Lemma step_grows a e a' out : step a e = Some (a', out) -> grows a a'.
Proof.
  destruct e; cbn [step]; intros Hs.
  - injection Hs as <- <-. apply handle_grows.
  - destruct (tasks a !! task) as [[addr iv rule|]|];
      [destruct (Devices (cfg a) !! rule)| |]; injection Hs as <- <-;
      first [apply pollOnce_grows|apply grows_refl].
  - injection Hs as <- <-. apply EnsureDevice_grows.
  - injection Hs as <- <-. apply Notify_grows.
  - injection Hs as <- <-. apply ensurePolling_grows.
  - destruct (conns a !! key) as [dc|]; [|injection Hs as <- <-; apply grows_refl].
    destruct (connect a dc dial) as [[dc' ws] ts]. injection Hs as <- <-.
    destruct (fold_spawn_fields ts (with_conns a (<[key:=dc']> (conns a))))
      as (?&?&?&?&?&_).
    by apply same_store_grows.
  - destruct (conns a !! key) as [dc|]; [|injection Hs as <- <-; apply grows_refl].
    destruct (OnMessage a dc message) as [[dc' ws]|]; [|done].
    injection Hs as <- <-. by apply same_store_grows.
  - destruct (conns a !! key) as [dc|]; injection Hs as <- <-; apply grows_refl.
  - destruct (conns a !! key) as [dc|]; [|injection Hs as <- <-; apply grows_refl].
    cbn in Hs. injection Hs as <- <-. by apply same_store_grows.
Qed.

Lemma run_grows evs a a' : run a evs = Some a' -> grows a a'.
Proof.
  revert a. induction evs as [|e evs IH]; intros a; cbn [run].
  - intros [= <-]. apply grows_refl.
  - destruct (step a e) as [[a1 out]|] eqn:Hs; [|done].
    intros Hr. eapply grows_trans; [eapply step_grows; exact Hs|by apply IH].
Qed.

End Evolution.

(** ** Well-formed agents *)

Section WellFormed.

Context {rt : GoRuntime}.

(** Pointers held by the registry and by the sessions point into the store,
    and a session has a connection only if the hub key is configured. *)
Definition wellFormed (a : Agent) : Prop :=
  (forall k p, devices a !! k = Some p -> (p < length (store a))%nat)
  /\ (forall k dc, conns a !! k = Some dc ->
        (dsRef dc < length (store a))%nat
        /\ (is_Some (Conn dc) -> is_Some (pubKey a))).

Lemma wellFormed_NewAgent c : wellFormed (NewAgent c).
Proof. split; intros k x; cbn; by rewrite lookup_empty. Qed.

Lemma wellFormed_ext a a' :
  (length (store a) <= length (store a'))%nat ->
  devices a' = devices a -> conns a' = conns a -> pubKey a' = pubKey a ->
  wellFormed a -> wellFormed a'.
Proof.
  intros Hl Hd Hc Hk [H1 H2]. unfold wellFormed. rewrite Hd, Hc, Hk. split.
  - intros k p Hp. specialize (H1 k p Hp). lia.
  - intros k dc Hdc. destruct (H2 k dc Hdc). split; [lia|done].
Qed.

Lemma wellFormed_same a a' : sameButMetrics a a' -> wellFormed a -> wellFormed a'.
Proof.
  intros (_ & H2 & _ & _ & H5 & H6 & _ & H8 & _). apply wellFormed_ext; try done. lia.
Qed.

Lemma wellFormed_session a key dc' :
  (dsRef dc' < length (store a))%nat ->
  (is_Some (Conn dc') -> is_Some (pubKey a)) ->
  wellFormed a -> wellFormed (with_conns a (<[key := dc']> (conns a))).
Proof.
  intros Hr Hc [H1 H2]. split; cbn; [exact H1|].
  intros k dc. rewrite lookup_insert. case_decide.
  - intros [= <-]. done.
  - apply H2.
Qed.

Lemma wellFormed_Notify a addr : wellFormed a -> wellFormed (Notify a addr).
Proof.
  intros Hwf. rewrite Notify_unfold.
  destruct (conns a !! IP_String addr) eqn:Hc; [done|].
  destruct (devices a !! IP_String addr) as [p|] eqn:Hd; [|done].
  eapply (wellFormed_ext (with_conns a _)); try reflexivity.
  apply wellFormed_session; [|by intros [? [=]]|done].
  cbn. destruct Hwf as [H1 _]. eauto.
Qed.

Lemma wellFormed_ensurePolling a addr : wellFormed a -> wellFormed (ensurePolling a addr).
Proof.
  destruct (ensurePolling_fields a addr) as (_&Hk&_&_&Hs&Hd&Hc&_).
  apply wellFormed_ext; try done. by rewrite Hs.
Qed.

Lemma wellFormed_registry_set a addr ds : wellFormed a -> wellFormed (registry_set a addr ds).
Proof.
  intros [H1 H2]. split; cbn; rewrite length_app; cbn.
  - intros k p. rewrite lookup_insert. case_decide.
    + intros [= <-]. lia.
    + intros Hp. specialize (H1 k p Hp). lia.
  - intros k dc Hdc. destruct (H2 k dc Hdc). split; [lia|done].
Qed.

Lemma wellFormed_handle a packet addr : wellFormed a -> wellFormed (handle a packet addr).
Proof.
  intros Hwf. unfold handle.
  assert (Hm : wellFormed (materialize a addr (sysNameOf (Variables packet))).1).
  { unfold materialize. destruct (registry_get a addr); cbn [fst]; [done|].
    by apply wellFormed_ensurePolling, wellFormed_registry_set. }
  destruct (materialize a addr (sysNameOf (Variables packet))) as [a1 p]. cbn [fst] in Hm.
  apply wellFormed_Notify.
  eapply wellFormed_same; [|exact Hm].
  apply fold_same. intros b x. apply handleVar_same.
Qed.

Lemma wellFormed_pollOnce a addr dc peer : wellFormed a -> wellFormed (pollOnce a addr dc peer).
Proof.
  intros Hwf. unfold pollOnce. destruct (connectOK peer); cbn [negb]; [|done].
  apply wellFormed_Notify. eapply wellFormed_same; [|exact Hwf].
  apply fold_same. intros b x. apply pollOID_same.
Qed.

Lemma wellFormed_EnsureDevice a ipText host : wellFormed a -> wellFormed (EnsureDevice a ipText host).
Proof.
  intros Hwf. unfold EnsureDevice. destruct (ParseIP ipText); [|done].
  by apply wellFormed_Notify, wellFormed_ensurePolling, wellFormed_registry_set.
Qed.

(** [OnMessage] changes nothing of a session but its verified flag. *)
Lemma OnMessage_session a dc message dc' ws :
  OnMessage a dc message = Some (dc', ws) ->
  dc' = dc \/ dc' = with_verified dc true.
Proof.
  unfold OnMessage.
  repeat match goal with
  | |- Some _ = Some _ -> _ => intros [= <- <-]; auto
  | |- None = Some _ -> _ => discriminate
  | |- context [if ?b then _ else _] => destruct b
  | |- context [match ?x with _ => _ end] => destruct x
  end.
Qed.

Lemma connect_session a dc dial dc' ws ts :
  connect a dc dial = (dc', ws, ts) ->
  dc' = dc \/ exists c, dc' = with_Conn dc (Some c) /\ is_Some (pubKey a).
Proof.
  unfold connect. destruct (pubKey a) as [pk|].
  - destruct (negb (urlOK a) || negb (nonempty (token a)) || false);
      [intros [= <- <- <-]; by left|].
    destruct dial as [c|]; intros [= <- <- <-]; [right; eauto|by left].
  - rewrite orb_true_r. intros [= <- <- <-]. by left.
Qed.

(** Well-formedness is an invariant of the agent. *)
Lemma step_wellFormed a e a' out :
  wellFormed a -> step a e = Some (a', out) -> wellFormed a'.
Proof.
  intros Hwf. destruct e; cbn [step]; intros Hs.
  - injection Hs as <- <-. by apply wellFormed_handle.
  - destruct (tasks a !! task) as [[addr iv rule|]|];
      [destruct (Devices (cfg a) !! rule)| |]; injection Hs as <- <-;
      first [by apply wellFormed_pollOnce|done].
  - injection Hs as <- <-. by apply wellFormed_EnsureDevice.
  - injection Hs as <- <-. by apply wellFormed_Notify.
  - injection Hs as <- <-. by apply wellFormed_ensurePolling.
  - destruct (conns a !! key) as [dc|] eqn:Hk; [|by injection Hs as <- <-].
    destruct (connect a dc dial) as [[dc' ws] ts] eqn:Hc. injection Hs as <- <-.
    destruct (fold_spawn_fields ts (with_conns a (<[key:=dc']> (conns a))))
      as (_&Hp&_&_&Hst&Hd&Hcs&_).
    eapply (wellFormed_ext (with_conns a (<[key:=dc']> (conns a)))); try done.
    { by rewrite Hst. }
    destruct Hwf as [H1 H2]. destruct (H2 key dc Hk) as [Hr Hpk].
    apply connect_session in Hc as [->|(c & -> & Hsome)];
      apply wellFormed_session; done.
  - destruct (conns a !! key) as [dc|] eqn:Hk; [|by injection Hs as <- <-].
    destruct (OnMessage a dc message) as [[dc' ws]|] eqn:Hm; [|done].
    injection Hs as <- <-.
    destruct Hwf as [H1 H2]. destruct (H2 key dc Hk) as [Hr Hpk].
    apply OnMessage_session in Hm as [->| ->]; apply wellFormed_session; done.
  - destruct (conns a !! key) as [dc|]; by injection Hs as <- <-.
  - destruct (conns a !! key) as [dc|] eqn:Hk; [|by injection Hs as <- <-].
    cbn in Hs. injection Hs as <- <-.
    destruct Hwf as [H1 H2]. destruct (H2 key dc Hk) as [Hr Hpk].
    eapply (wellFormed_ext (with_conns a _)); try reflexivity.
    apply wellFormed_session; done.
Qed.

Lemma run_wellFormed evs a a' : wellFormed a -> run a evs = Some a' -> wellFormed a'.
Proof.
  revert a. induction evs as [|e evs IH]; intros a Hwf; cbn [run].
  - by intros [= <-].
  - destruct (step a e) as [[a1 out]|] eqn:Hs; [|done].
    apply IH. eapply step_wellFormed; eauto.
Qed.

End WellFormed.

(** ** Authentication and data delivery *)

Section Requests.

Context {rt : GoRuntime}.

Lemma with_conns_id (a : Agent) (key : string) (dc : deviceClient) :
  conns a !! key = Some dc -> with_conns a (<[key := dc]> (conns a)) = a.
Proof. intros Hk. rewrite (insert_id _ _ _ Hk). by destruct a. Qed.

(** The settings of a running agent are those [NewAgent] derived from the
    configuration. *)
Lemma run_settings (c : Config) (evs : list Event) (a : Agent) :
  run (NewAgent c) evs = Some a ->
  cfg a = c /\ token a = TrimSpace (Token (Hub c))
  /\ pubKey a = (if nonempty (TrimSpace (Key (Hub c)))
                 then ParseAuthorizedKey (list_byte_of_string (Key (Hub c)))
                 else None).
Proof. intros Hr. apply run_grows in Hr as (-> & -> & _ & -> & _). done. Qed.

(** The hub request a message carries, if it is a well-formed binary one. *)
Definition requestOf (message : Message) : option common.HubRequest :=
  match MsgOpcode message with
  | OpcodeBinary => DecodeHubRequest (MsgData message)
  | _ => None
  end.

Lemma OnMessage_request (a : Agent) (dc : deviceClient) (message : Message)
    (req : common.HubRequest) :
  requestOf message = Some req ->
  OnMessage a dc message =
  if common.Action req =? common.CheckFingerprint then
    match UnmarshalFingerprintRequest (common.Data req) with
    | None => Some (dc, [])
    | Some fr =>
        match verifySignature a dc (common.Signature fr) with
        | None => None
        | Some false => Some (dc, [])
        | Some true =>
            match store a !! dsRef dc with
            | None => None
            | Some ds =>
                match sendMessage (with_verified dc true)
                        (FingerprintFrame
                           {| common.Fingerprint := finger ds;
                              common.Hostname :=
                                if common.NeedSysInfo fr then hostname ds else ""%string |}) with
                | None => None
                | Some out => Some (with_verified dc true, out)
                end
            end
        end
    end
  else if common.Action req =? common.GetData then
    match send a dc with
    | None => None
    | Some out => Some (dc, out)
    end
  else Some (dc, []).
Proof.
  unfold requestOf, OnMessage. destruct (MsgOpcode message); try done. by intros ->.
Qed.

(** In a well-formed agent no handler of a session with a connection
    dereferences a nil pointer: every inbound message is handled. *)
Lemma OnMessage_total (a : Agent) (key : string) (dc : deviceClient) (message : Message) :
  wellFormed a ->
  conns a !! key = Some dc ->
  is_Some (Conn dc) ->
  is_Some (step a (EvMessage key message)).
Proof.
  intros [_ Hwf] Hk Hc. destruct (Hwf key dc Hk) as [Hlt Hpk].
  destruct (Hpk Hc) as [pk Hpub]. destruct Hc as [cn Hc].
  destruct (lookup_lt_is_Some_2 _ _ Hlt) as [ds Hds].
  cbn [step]. rewrite Hk.
  assert (Hm : is_Some (OnMessage a dc message)); [|by destruct Hm as [[dc' ws] ->]].
  unfold OnMessage.
  destruct (MsgOpcode message); try by eexists.
  destruct (DecodeHubRequest (MsgData message)) as [req|]; [|by eexists].
  destruct (common.Action req =? common.CheckFingerprint).
  - destruct (UnmarshalFingerprintRequest (common.Data req)) as [fr|]; [|by eexists].
    unfold verifySignature, sendMessage. rewrite Hpub, Hds. cbn [with_verified Conn].
    rewrite Hc. destruct (Verify pk _ _); by eexists.
  - destruct (common.Action req =? common.GetData); [|by eexists].
    unfold send, sendMessage. rewrite Hc, Hds.
    destruct (hubVerified dc); cbn [negb]; [|by eexists].
    destruct (len _ =? 0); by eexists.
Qed.

(** The amended C2.  In any state the agent reaches, take a session with a
    connection and an inbound CheckFingerprint{signature, need_sys_info}.
    The hub key is then configured and the session's device state exists.
    If the signature verifies, under that key, over the bytes of the
    configured token with its surrounding white space trimmed, the session
    becomes verified and one FingerprintResponse is written on its
    connection, carrying the device's fingerprint and, exactly when
    need_sys_info is set, its hostname.  If it does not verify, nothing is
    written and the agent, the session's verified flag included, is
    unchanged. *)
Theorem CheckFingerprint_reply (c : Config) (evs : list Event) (a : Agent) (key : string)
    (dc : deviceClient) (cn : nat) (message : Message) (req : common.HubRequest)
    (fr : common.FingerprintRequest) :
  run (NewAgent c) evs = Some a ->
  conns a !! key = Some dc ->
  Conn dc = Some cn ->
  requestOf message = Some req ->
  common.Action req = common.CheckFingerprint ->
  UnmarshalFingerprintRequest (common.Data req) = Some fr ->
  exists pk ds,
    ParseAuthorizedKey (list_byte_of_string (Key (Hub c))) = Some pk
    /\ store a !! dsRef dc = Some ds
    /\ if Verify pk (list_byte_of_string (TrimSpace (Token (Hub c))))
            {| Format := KeyType pk; Blob := common.Signature fr |}
       then step a (EvMessage key message)
            = Some (with_conns a (<[key := with_verified dc true]> (conns a)),
                    [ {| session := key; conn := cn;
                         frame := FingerprintFrame
                           {| common.Fingerprint := finger ds;
                              common.Hostname :=
                                if common.NeedSysInfo fr then hostname ds else ""%string |} |} ])
       else step a (EvMessage key message) = Some (a, []).
Proof.
  intros Hrun Hk Hc Hreq Hact Hfr.
  pose proof (run_wellFormed _ _ _ (wellFormed_NewAgent c) Hrun) as [_ Hwf].
  destruct (Hwf key dc Hk) as [Hlt Hpk]. rewrite Hc in Hpk.
  destruct (Hpk (mk_is_Some _ _ eq_refl)) as [pk Hpub].
  destruct (lookup_lt_is_Some_2 _ _ Hlt) as [ds Hds].
  destruct (run_settings c evs a Hrun) as (_ & Htok & Hkey).
  exists pk, ds. split; [|split; [exact Hds|]].
  - rewrite Hpub in Hkey. destruct (nonempty (TrimSpace (Key (Hub c)))); congruence.
  - cbn [step]. rewrite Hk, (OnMessage_request _ _ _ _ Hreq), Hact, Hfr.
    cbn [Z.eqb common.CheckFingerprint].
    unfold verifySignature. rewrite Hpub, Htok.
    destruct (Verify pk _ _).
    + rewrite Hds. unfold sendMessage. cbn [with_verified Conn]. rewrite Hc. reflexivity.
    + by rewrite with_conns_id.
Qed.

(** What a GetData request yields on a verified session with a connection:
    the snapshot when the temperature map has an entry, and nothing
    otherwise, whatever the other six maps hold. *)
Lemma GetData_reply (a : Agent) (key : string) (dc : deviceClient) (cn : nat)
    (ds : deviceState) (message : Message) (req : common.HubRequest) :
  conns a !! key = Some dc ->
  Conn dc = Some cn ->
  hubVerified dc = true ->
  store a !! dsRef dc = Some ds ->
  requestOf message = Some req ->
  common.Action req = common.GetData ->
  step a (EvMessage key message)
  = Some (a, if decide (lastTemps ds = ∅) then []
             else [ {| session := key; conn := cn;
                       frame := CombinedDataFrame (buildCombinedData ds Version) |} ]).
Proof.
  intros Hk Hc Hv Hds Hreq Hact.
  cbn [step]. rewrite Hk, (OnMessage_request _ _ _ _ Hreq), Hact.
  change (common.GetData =? common.CheckFingerprint) with false.
  change (common.GetData =? common.GetData) with true. cbv iota.
  unfold send. rewrite Hc, Hv, Hds. cbn [negb].
  cbn [buildCombinedData system.stats system.Temperatures]. rewrite copyMap_id.
  unfold sendMessage. rewrite Hc.
  destruct (Z.eqb_spec (len (lastTemps ds)) 0) as [Hz|Hnz]; case_decide as He;
    rewrite ?(with_conns_id _ _ _ Hk); try reflexivity.
  - exfalso. apply He. apply map_size_empty_iff. unfold len in Hz. lia.
  - exfalso. apply Hnz. unfold len. rewrite He, map_size_empty. done.
Qed.

End Requests.

(** ** The registry, fingerprints and poll loops *)

Section Registry.

Context {rt : GoRuntime}.

(** The fingerprint the registry associates with an address (by its text). *)
Definition fingerprintOf (a : Agent) (key : string) : option string :=
  match devices a !! key with
  | Some p => finger <$> store a !! p
  | None => None
  end.

(** Is the task a poll loop for the address with this text. *)
Definition isPollLoopFor (key : string) (t : Task) : bool :=
  match t with
  | PollLoop addr _ _ => String.eqb (IP_String addr) key
  | ConnectTask _ _ => false
  end.

(** The number of poll loops started for an address. *)
Definition countLoops (ts : list Task) (key : string) : nat :=
  length (List.filter (isPollLoopFor key) ts).

Definition pollLoops (a : Agent) (key : string) : nat := countLoops (tasks a) key.

(** The events that reach the agent from the network: everything but the
    package's own entry points [EnsureDevice] and [ensurePolling]. *)
Definition fromNetwork (e : Event) : bool :=
  match e with
  | EvEnsureDevice _ _ | EvEnsurePolling _ => false
  | _ => true
  end.

Lemma countLoops_app ts ts' key :
  countLoops (ts ++ ts') key = (countLoops ts key + countLoops ts' key)%nat.
Proof. unfold countLoops. by rewrite List.filter_app, length_app. Qed.

Lemma Notify_tasks a addr key : pollLoops (Notify a addr) key = pollLoops a key.
Proof.
  rewrite Notify_unfold.
  destruct (conns a !! IP_String addr), (devices a !! IP_String addr); try done.
  unfold pollLoops. cbn [spawn tasks with_conns]. rewrite countLoops_app. cbn. lia.
Qed.

Lemma pollLoopFor_count a addr key :
  (countLoops (pollLoopFor a addr) key <= 1)%nat
  /\ (key <> IP_String addr -> countLoops (pollLoopFor a addr) key = 0%nat).
Proof.
  unfold pollLoopFor.
  destruct (findPollRule (Devices (cfg a)) 0 (IP_String addr)) as [[i dc]|];
    [|cbn; split; [lia|done]].
  unfold countLoops. cbn [List.filter isPollLoopFor].
  destruct (String.eqb_spec (IP_String addr) key) as [He|Hne]; cbn; split; try lia; congruence.
Qed.

(** Registering a state for an address and starting its polling. *)
Lemma register_and_poll a addr ds :
  let a1 := ensurePolling (registry_set a addr ds) addr in
  devices a1 = <[IP_String addr := length (store a)]> (devices a)
  /\ (forall k, k <> IP_String addr -> pollLoops a1 k = pollLoops a k)
  /\ (forall k, (pollLoops a1 k <= pollLoops a k + 1)%nat).
Proof.
  cbv zeta.
  destruct (ensurePolling_fields (registry_set a addr ds) addr) as (_&_&_&_&_&Hdev&_&Htasks).
  cbn [registry_set devices tasks] in Hdev, Htasks.
  assert (Hloops : forall k,
            pollLoops (ensurePolling (registry_set a addr ds) addr) k
            = (pollLoops a k + countLoops (pollLoopFor (registry_set a addr ds) addr) k)%nat).
  { intros k. unfold pollLoops. rewrite Htasks. apply countLoops_app. }
  split; [exact Hdev|]. split; intros k.
  - intros Hne. rewrite Hloops.
    destruct (pollLoopFor_count (registry_set a addr ds) addr k) as [_ H0].
    rewrite (H0 Hne). lia.
  - rewrite Hloops.
    destruct (pollLoopFor_count (registry_set a addr ds) addr k) as [H1 _]. lia.
Qed.

(** The registry and the poll loops after [materialize]: entries stay, the
    only new one is the sender's, and only a sender that was unknown may get
    a poll loop, a single one. *)
Lemma materialize_registry a addr sysName :
  (forall k p, devices a !! k = Some p ->
               devices (materialize a addr sysName).1 !! k = Some p)
  /\ (forall k, is_Some (devices a !! k) \/ k <> IP_String addr ->
                pollLoops (materialize a addr sysName).1 k = pollLoops a k)
  /\ (forall k, (pollLoops (materialize a addr sysName).1 k <= pollLoops a k + 1)%nat)
  /\ is_Some (devices (materialize a addr sysName).1 !! IP_String addr).
Proof.
  unfold materialize, registry_get.
  destruct (devices a !! IP_String addr) as [p0|] eqn:Hd; cbn [fst].
  { repeat split; eauto. intros; lia. }
  match goal with
  | |- context [ensurePolling (registry_set a addr ?ds) addr] =>
      destruct (register_and_poll a addr ds) as (Hdev & Hother & Hle)
  end.
  repeat split.
  - intros k p Hk. rewrite Hdev, lookup_insert_ne; [done|congruence].
  - intros k Hk. apply Hother. destruct Hk as [[p Hp]|]; [congruence|done].
  - exact Hle.
  - rewrite Hdev, lookup_insert_eq. eauto.
Qed.

Lemma fold_handleVar_registry addr p vars a :
  devices (fold_left (handleVar addr p) vars a) = devices a
  /\ tasks (fold_left (handleVar addr p) vars a) = tasks a.
Proof.
  destruct (fold_same (handleVar addr p) vars a (fun b x => handleVar_same addr p b x))
    as (_&_&_&_&Hd&_&Ht&_). done.
Qed.

(** The registry and the poll loops after a trap. *)
Lemma handle_registry a packet addr :
  (forall k p, devices a !! k = Some p -> devices (handle a packet addr) !! k = Some p)
  /\ (forall k, is_Some (devices a !! k) \/ k <> IP_String addr ->
                pollLoops (handle a packet addr) k = pollLoops a k)
  /\ (forall k, (pollLoops (handle a packet addr) k <= pollLoops a k + 1)%nat)
  /\ is_Some (devices (handle a packet addr) !! IP_String addr).
Proof.
  unfold handle.
  pose proof (materialize_registry a addr (sysNameOf (Variables packet))) as Hm.
  destruct (materialize a addr (sysNameOf (Variables packet))) as [a1 p]. cbn [fst] in Hm.
  destruct Hm as (H1 & H2 & H3 & H4).
  destruct (fold_handleVar_registry addr p (Variables packet) a1) as [Hd Ht].
  destruct (Notify_fields (fold_left (handleVar addr p) (Variables packet) a1) addr)
    as (_&_&_&_&_&Hdn).
  assert (Hl : forall k, pollLoops (Notify (fold_left (handleVar addr p) (Variables packet) a1) addr) k
                         = pollLoops a1 k).
  { intros k. rewrite Notify_tasks. unfold pollLoops. by rewrite Ht. }
  rewrite Hdn, Hd. repeat split; try done.
  - intros k Hk. rewrite Hl. by apply H2.
  - intros k. rewrite Hl. apply H3.
Qed.

(** [a'] has the registry and the poll loops of [a]. *)
Definition quiet (a a' : Agent) : Prop :=
  devices a' = devices a /\ forall k, pollLoops a' k = pollLoops a k.

Lemma quiet_refl a : quiet a a.
Proof. by split. Qed.

Lemma Notify_quiet a addr : quiet a (Notify a addr).
Proof.
  split; [by destruct (Notify_fields a addr) as (_&_&_&_&_&?)|].
  intros k. apply Notify_tasks.
Qed.

Lemma pollOnce_quiet a addr dc peer : quiet a (pollOnce a addr dc peer).
Proof.
  unfold pollOnce. destruct (connectOK peer); cbn [negb]; [|apply quiet_refl].
  destruct (fold_same (pollOID peer addr) (range (Oids dc)) a
              (fun b x => pollOID_same peer addr b x)) as (_&_&_&_&Hd&_&Ht&_).
  destruct (Notify_quiet (fold_left (pollOID peer addr) (range (Oids dc)) a) addr) as [Hd' Hl'].
  split; [congruence|]. intros k. rewrite Hl'. unfold pollLoops. by rewrite Ht.
Qed.

Lemma connect_tasks a dc dial dc' ws ts key :
  connect a dc dial = (dc', ws, ts) -> countLoops ts key = 0%nat.
Proof.
  unfold connect.
  destruct (negb (urlOK a) || negb (nonempty (token a))
            || match pubKey a with None => true | Some _ => false end);
    [by intros [= <- <- <-]|].
  destruct dial; by intros [= <- <- <-].
Qed.

(** Apart from traps, what reaches the agent from the network touches
    neither the registry nor the poll loops. *)
Lemma step_quiet a e a' out :
  step a e = Some (a', out) ->
  fromNetwork e = true ->
  (forall packet addr, e <> EvTrap packet addr) ->
  quiet a a'.
Proof.
  intros Hs Hnet Hnt. destruct e; cbn [step fromNetwork] in *; try done.
  - by destruct (Hnt packet addr).
  - destruct (tasks a !! task) as [[addr iv rule|]|];
      [destruct (Devices (cfg a) !! rule)| |]; injection Hs as <- <-;
      first [apply pollOnce_quiet|apply quiet_refl].
  - injection Hs as <- <-. apply Notify_quiet.
  - destruct (conns a !! key) as [dc|]; [|injection Hs as <- <-; apply quiet_refl].
    destruct (connect a dc dial) as [[dc' ws] ts] eqn:Hc. injection Hs as <- <-.
    destruct (fold_spawn_fields ts (with_conns a (<[key:=dc']> (conns a))))
      as (_&_&_&_&_&Hd&_&Ht).
    split; [exact Hd|]. intros k. unfold pollLoops. rewrite Ht, countLoops_app.
    rewrite (connect_tasks _ _ _ _ _ _ k Hc). cbn [with_conns tasks]. lia.
  - destruct (conns a !! key) as [dc|]; [|injection Hs as <- <-; apply quiet_refl].
    destruct (OnMessage a dc message) as [[dc' ws]|]; [|done].
    injection Hs as <- <-. by split.
  - destruct (conns a !! key) as [dc|]; injection Hs as <- <-; apply quiet_refl.
  - destruct (conns a !! key) as [dc|]; [|injection Hs as <- <-; apply quiet_refl].
    cbn in Hs. injection Hs as <- <-. split; [done|].
    intros k. unfold pollLoops. cbn [spawn tasks with_conns]. rewrite countLoops_app.
    change (countLoops [ConnectTask (IP_String (dcIP dc)) 5] k) with 0%nat. lia.
Qed.

(** No address has more than one poll loop, and none has one before it is
    registered. *)
Definition singleLoops (a : Agent) : Prop :=
  forall k, (pollLoops a k <= 1)%nat /\ (devices a !! k = None -> pollLoops a k = 0%nat).

Lemma singleLoops_NewAgent c : singleLoops (NewAgent c).
Proof. intros k. cbn. split; [lia|done]. Qed.

Lemma step_singleLoops a e a' out :
  singleLoops a -> fromNetwork e = true -> step a e = Some (a', out) -> singleLoops a'.
Proof.
  intros Hj Hnet Hs.
  destruct (match e with EvTrap _ _ => true | _ => false end) eqn:Htrap.
  - destruct e; try done. cbn [step] in Hs. injection Hs as <- <-.
    destruct (handle_registry a packet addr) as (H1 & H2 & H3 & H4).
    intros k. destruct (Hj k) as [Hle Hz].
    destruct (devices a !! k) as [p|] eqn:Hk.
    + rewrite (H2 k) by eauto. split; [done|]. by rewrite (H1 k p Hk).
    + destruct (decide (k = IP_String addr)) as [->|Hne].
      * specialize (H3 (IP_String addr)). rewrite (Hz eq_refl) in H3.
        split; [lia|]. intros Hnone. rewrite Hnone in H4. by destruct H4.
      * rewrite (H2 k) by auto. split; [done|]. intros _. by apply Hz.
  - assert (Hnt : forall packet addr, e <> EvTrap packet addr).
    { intros packet addr ->. done. }
    destruct (step_quiet _ _ _ _ Hs Hnet Hnt) as [Hd Hl].
    intros k. rewrite Hl, Hd. apply Hj.
Qed.

Lemma run_singleLoops evs a a' :
  singleLoops a -> forallb fromNetwork evs = true -> run a evs = Some a' -> singleLoops a'.
Proof.
  revert a. induction evs as [|e evs IH]; intros a Hj Hnet; cbn [run].
  - by intros [= <-].
  - cbn [forallb] in Hnet. apply andb_prop in Hnet as [He Hnet].
    destruct (step a e) as [[a1 out]|] eqn:Hs; [|done].
    apply IH; [|done]. eapply step_singleLoops; eauto.
Qed.

(** Every step but [EnsureDevice] keeps the registry's entries, and with
    them the fingerprint of every registered address. *)
Lemma step_registry a e a' out :
  step a e = Some (a', out) ->
  (forall ipText host, e <> EvEnsureDevice ipText host) ->
  forall k p, devices a !! k = Some p -> devices a' !! k = Some p.
Proof.
  intros Hs Hne k p Hk. destruct e; cbn [step] in Hs.
  - injection Hs as <- <-. by apply handle_registry.
  - destruct (tasks a !! task) as [[addr iv rule|]|];
      [destruct (Devices (cfg a) !! rule)| |]; injection Hs as <- <-; try done.
    by destruct (pollOnce_quiet a addr d peer) as [-> _].
  - by destruct (Hne ipText host).
  - injection Hs as <- <-. by destruct (Notify_quiet a addr) as [-> _].
  - injection Hs as <- <-.
    by destruct (ensurePolling_fields a addr) as (_&_&_&_&_&->&_).
  - destruct (conns a !! key) as [dc|]; [|by injection Hs as <- <-].
    destruct (connect a dc dial) as [[dc' ws] ts] eqn:Hc. injection Hs as <- <-.
    by destruct (fold_spawn_fields ts (with_conns a (<[key:=dc']> (conns a))))
      as (_&_&_&_&_&->&_).
  - destruct (conns a !! key) as [dc|]; [|by injection Hs as <- <-].
    destruct (OnMessage a dc message) as [[dc' ws]|]; [|done].
    by injection Hs as <- <-.
  - destruct (conns a !! key) as [dc|]; by injection Hs as <- <-.
  - destruct (conns a !! key) as [dc|]; [|by injection Hs as <- <-].
    cbn in Hs. by injection Hs as <- <-.
Qed.

Lemma step_fingerprint a e a' out key fp :
  step a e = Some (a', out) ->
  (forall ipText host, e <> EvEnsureDevice ipText host) ->
  fingerprintOf a key = Some fp -> fingerprintOf a' key = Some fp.
Proof.
  intros Hs Hne. unfold fingerprintOf.
  destruct (devices a !! key) as [p|] eqn:Hk; [|done].
  rewrite (step_registry _ _ _ _ Hs Hne key p Hk).
  destruct (store a !! p) as [ds|] eqn:Hp; [|done]. cbn. intros [= <-].
  destruct (step_grows _ _ _ _ Hs) as (_&_&_&_&_&Hst).
  destruct (Hst p ds Hp) as (ds' & Hp' & Hf & _). rewrite Hp'. cbn. by rewrite Hf.
Qed.

End Registry.

(** ** The claims on sessions and poll loops *)

Section Lifecycle.

Context {rt : GoRuntime}.

(** The amended C10.  For an address that has a device state in the
    registry, the session map holds a session for it once [Notify] returns:
    a fresh, unverified, unconnected one bound to that state is inserted if
    there was none, an existing one is kept, and a further [Notify] changes
    nothing. *)
Theorem Notify_ensures_session (a : Agent) (addr : list byte) (p : nat) :
  registry_get a addr = Some p ->
  is_Some (conns (Notify a addr) !! IP_String addr)
  /\ (conns a !! IP_String addr = None ->
      conns (Notify a addr) = <[IP_String addr := freshSession addr p]> (conns a))
  /\ (is_Some (conns a !! IP_String addr) -> conns (Notify a addr) = conns a)
  /\ Notify (Notify a addr) addr = Notify a addr.
Proof.
  unfold registry_get. intros Hp.
  assert (Hstep : is_Some (conns (Notify a addr) !! IP_String addr)).
  { rewrite Notify_unfold, Hp.
    destruct (conns a !! IP_String addr) eqn:Hc; [by rewrite Hc|].
    cbn. rewrite lookup_insert_eq. eauto. }
  split; [exact Hstep|]. split; [|split].
  - intros Hc. by rewrite Notify_unfold, Hc, Hp.
  - intros [dc Hc]. by rewrite Notify_unfold, Hc.
  - destruct Hstep as [dc Hdc]. by rewrite (Notify_unfold (Notify a addr)), Hdc.
Qed.

(** Without a registered state [Notify] does nothing. *)
Lemma Notify_unregistered (a : Agent) (addr : list byte) :
  registry_get a addr = None -> Notify a addr = a.
Proof.
  unfold registry_get. intros Hp. rewrite Notify_unfold, Hp.
  by destruct (conns a !! IP_String addr).
Qed.

(** The amended C9.  [ensurePolling] keeps no record of the loops it has
    started: every call appends the poll loop of the first poll-enabled rule
    matching the address, if there is one.  The trap handler calls it only
    for a sender without a registered state; so in every run made of events
    from the network (traps, poll ticks, session traffic) at most one poll
    loop is started per device address. *)
Theorem one_poll_loop_per_trap_sender (c : Config) (evs : list Event) (a : Agent)
    (key : string) :
  forallb fromNetwork evs = true ->
  run (NewAgent c) evs = Some a ->
  (pollLoops a key <= 1)%nat
  /\ (forall (b : Agent) (addr : list byte),
        tasks (ensurePolling b addr) = tasks b ++ pollLoopFor b addr).
Proof.
  intros Hnet Hrun. split.
  - by destruct (run_singleLoops _ _ _ (singleLoops_NewAgent c) Hnet Hrun key).
  - intros b addr. by destruct (ensurePolling_fields b addr) as (_&_&_&_&_&_&_&?).
Qed.

(** In every run without [EnsureDevice], an address keeps the fingerprint
    it was registered with. *)
Lemma run_fingerprint (evs : list Event) (a a' : Agent) (key fp : string) :
  (forall ipText host, ~ In (EvEnsureDevice ipText host) evs) ->
  run a evs = Some a' ->
  fingerprintOf a key = Some fp -> fingerprintOf a' key = Some fp.
Proof.
  revert a. induction evs as [|e evs IH]; intros a Hno; cbn [run].
  - by intros [= <-].
  - destruct (step a e) as [[a1 out]|] eqn:Hs; [|done].
    intros Hrun Hfp. apply (IH a1); [|done|].
    + intros ipText host Hin. apply (Hno ipText host). by right.
    + eapply step_fingerprint; [exact Hs| |exact Hfp].
      intros ipText host ->. apply (Hno ipText host). by left.
Qed.

End Lifecycle.

(** * Further properties of the code *)

(** ** state.go: storing metrics *)

Section Metrics.

Context {rt : GoRuntime}.

(** Upserting a value into the map of a category, nothing for [None]. *)
Definition storeMetric (ds : deviceState) (cat : option category) (name : string)
    (val : float) : deviceState :=
  match cat with
  | None => ds
  | Some Temperature =>
      {| ip := ip ds; finger := finger ds; hostname := hostname ds;
         lastTemps := <[name := val]> (lastTemps ds); lastHumidity := lastHumidity ds;
         lastCO2 := lastCO2 ds; lastPressure := lastPressure ds; lastPM25 := lastPM25 ds;
         lastPM10 := lastPM10 ds; lastVOC := lastVOC ds |}
  | Some Humidity =>
      {| ip := ip ds; finger := finger ds; hostname := hostname ds;
         lastTemps := lastTemps ds; lastHumidity := <[name := val]> (lastHumidity ds);
         lastCO2 := lastCO2 ds; lastPressure := lastPressure ds; lastPM25 := lastPM25 ds;
         lastPM10 := lastPM10 ds; lastVOC := lastVOC ds |}
  | Some CarbonDioxide =>
      {| ip := ip ds; finger := finger ds; hostname := hostname ds;
         lastTemps := lastTemps ds; lastHumidity := lastHumidity ds;
         lastCO2 := <[name := val]> (lastCO2 ds); lastPressure := lastPressure ds;
         lastPM25 := lastPM25 ds; lastPM10 := lastPM10 ds; lastVOC := lastVOC ds |}
  | Some Pressure =>
      {| ip := ip ds; finger := finger ds; hostname := hostname ds;
         lastTemps := lastTemps ds; lastHumidity := lastHumidity ds;
         lastCO2 := lastCO2 ds; lastPressure := <[name := val]> (lastPressure ds);
         lastPM25 := lastPM25 ds; lastPM10 := lastPM10 ds; lastVOC := lastVOC ds |}
  | Some PM2_5 =>
      {| ip := ip ds; finger := finger ds; hostname := hostname ds;
         lastTemps := lastTemps ds; lastHumidity := lastHumidity ds;
         lastCO2 := lastCO2 ds; lastPressure := lastPressure ds;
         lastPM25 := <[name := val]> (lastPM25 ds); lastPM10 := lastPM10 ds;
         lastVOC := lastVOC ds |}
  | Some PM10 =>
      {| ip := ip ds; finger := finger ds; hostname := hostname ds;
         lastTemps := lastTemps ds; lastHumidity := lastHumidity ds;
         lastCO2 := lastCO2 ds; lastPressure := lastPressure ds;
         lastPM25 := lastPM25 ds; lastPM10 := <[name := val]> (lastPM10 ds);
         lastVOC := lastVOC ds |}
  | Some VOC =>
      {| ip := ip ds; finger := finger ds; hostname := hostname ds;
         lastTemps := lastTemps ds; lastHumidity := lastHumidity ds;
         lastCO2 := lastCO2 ds; lastPressure := lastPressure ds;
         lastPM25 := lastPM25 ds; lastPM10 := lastPM10 ds;
         lastVOC := <[name := val]> (lastVOC ds) |}
  end.

(** The [switch] of [setMetric] selects by the normalized category. *)
Lemma setMetric_storeMetric (ds : deviceState) (category name : string) (val : float) :
  setMetric ds category name val
  = storeMetric ds (normalizeCategory (ToLower category)) name val.
Proof.
  unfold setMetric, normalizeCategory, is_case, categoryNames.
  generalize (ToLower category). intros c.
  cbn [List.find existsb fst snd orb].
  repeat match goal with
  | |- context [String.eqb c ?lit] =>
      destruct (String.eqb c lit) eqn:?; [reflexivity | cbn [orb]]
  end.
  reflexivity.
Qed.

(** X1. Last writer wins: storing twice under the same category and sensor
    name leaves the state that the second call alone produces. *)
Theorem setMetric_last_writer_wins (ds : deviceState) (category name : string)
    (v1 v2 : float) :
  setMetric (setMetric ds category name v1) category name v2
  = setMetric ds category name v2.
Proof.
  rewrite !setMetric_storeMetric.
  destruct (normalizeCategory (ToLower category)) as [[]|]; cbn; try reflexivity;
    by rewrite insert_insert_eq.
Qed.

(** X2. [setMetric] depends on the category only through its normalized
    form: spellings of one category (upper or lower case, name or alias)
    are interchangeable. *)
Theorem setMetric_spelling (ds : deviceState) (c1 c2 name : string) (val : float) :
  normalizeCategory (ToLower c1) = normalizeCategory (ToLower c2) ->
  setMetric ds c1 name val = setMetric ds c2 name val.
Proof. intros H. by rewrite !setMetric_storeMetric, H. Qed.

(** X3. Updates of different sensors commute: two [setMetric] calls that
    differ in the sensor name or in the normalized category give the same
    state in either order. *)
Theorem setMetric_commute (ds : deviceState) (c1 c2 n1 n2 : string) (v1 v2 : float) :
  n1 <> n2 \/ normalizeCategory (ToLower c1) <> normalizeCategory (ToLower c2) ->
  setMetric (setMetric ds c1 n1 v1) c2 n2 v2
  = setMetric (setMetric ds c2 n2 v2) c1 n1 v1.
Proof.
  intros H. rewrite !setMetric_storeMetric.
  destruct (normalizeCategory (ToLower c1)) as [[]|],
           (normalizeCategory (ToLower c2)) as [[]|];
    cbn; try reflexivity;
    (destruct H as [H|H]; [|congruence]);
    f_equal; by apply insert_insert_ne.
Qed.

(** X4. The forwarding filter and the state agree: a mapping passes
    [shouldSend] exactly when [setMetric] has a map for its category.  What
    passes is stored and can be read back; what does not pass would leave
    the state untouched. *)
Theorem shouldSend_agrees_with_setMetric (om : OIDMap) (ds : deviceState) (val : float) :
  (shouldSend om = true <-> is_Some (normalizeCategory (ToLower (Category om))))
  /\ (shouldSend om = true ->
      exists cat, normalizeCategory (ToLower (Category om)) = Some cat
        /\ metricsOf (setMetric ds (Category om) (Name om) val) cat !! Name om = Some val)
  /\ (shouldSend om = false -> setMetric ds (Category om) (Name om) val = ds).
Proof.
  assert (Hiff : shouldSend om = true <-> is_Some (normalizeCategory (ToLower (Category om)))).
  { unfold shouldSend, normalizeCategory, is_case, categoryNames.
    generalize (ToLower (Category om)). intros c.
    cbn [List.find existsb fst snd].
    repeat match goal with
    | |- context [String.eqb c ?lit] =>
        destruct (String.eqb c lit) eqn:?;
        [cbn; split; [eauto|reflexivity] | cbn [orb]]
    end.
    cbn. split; [discriminate|]. by intros [? [=]]. }
  split; [exact Hiff|]. rewrite setMetric_storeMetric. split.
  - intros Hs. apply Hiff in Hs as [cat Hcat]. exists cat. split; [exact Hcat|].
    rewrite Hcat. destruct cat; cbn; apply lookup_insert_eq.
  - intros Hs. destruct (normalizeCategory (ToLower (Category om))) as [cat|] eqn:Hcat;
      [|reflexivity].
    assert (shouldSend om = true) by (apply Hiff; eauto). congruence.
Qed.

(** X5. A snapshot holds the state as it is: the temperature map and every
    non-empty category map are copied entry for entry whatever the order of
    the copy loops, an empty category is left nil, and the identity fields
    are the state's hostname, the given version and the agent type snmp. *)
Theorem snapshot_copies_state (ds : deviceState) (agentVersion : string) :
  let present (m : gmap string float) := if decide (m = ∅) then None else Some m in
  system.stats (buildCombinedData ds agentVersion)
  = {| system.Temperatures := lastTemps ds;
       system.Humidity := present (lastHumidity ds);
       system.CO2 := present (lastCO2 ds);
       system.Pressure := present (lastPressure ds);
       system.PM25 := present (lastPM25 ds);
       system.PM10 := present (lastPM10 ds);
       system.VOC := present (lastVOC ds) |}
  /\ system.Hostname (system.info (buildCombinedData ds agentVersion)) = hostname ds
  /\ system.AgentVersion (system.info (buildCombinedData ds agentVersion)) = agentVersion
  /\ system.AgentType (system.info (buildCombinedData ds agentVersion)) = "snmp"%string.
Proof.
  cbv zeta. split; [|by cbn].
  assert (Hc : forall m, copyIfPresent m = if decide (m = ∅) then None else Some m).
  { intros m. unfold copyIfPresent. rewrite copyMap_id.
    destruct (0 <? len m) eqn:Hl; case_decide as He; try reflexivity.
    - apply len_positive in Hl. done.
    - apply len_zero in Hl. done. }
  cbn [buildCombinedData system.stats]. rewrite copyMap_id, !Hc. reflexivity.
Qed.

(** The loops of [maxMap] and [avgMap] on a map with one entry. *)
Lemma range_singleton {V} (k : string) (v : V) : range ({[ k := v ]} : gmap string V) = [(k, v)].
Proof.
  apply Permutation_singleton_r. rewrite (range_perm V).
  by rewrite map_to_list_singleton.
Qed.

Lemma range_empty {V} : range (∅ : gmap string V) = [].
Proof. apply Permutation_nil_r. rewrite (range_perm V). by rewrite map_to_list_empty. Qed.

(** X6. The summaries at the edges: both are zero on an empty map; on a
    map with a single sensor [maxMap] is that sensor's value, also when it
    is negative or NaN, and [avgMap] is the value added to zero. *)
Theorem summaries_small_maps (k : string) (v : float) :
  maxMap ∅ = 0%float /\ avgMap ∅ = 0%float
  /\ maxMap {[ k := v ]} = v
  /\ avgMap {[ k := v ]} = ((0 + v) / 1)%float.
Proof.
  unfold maxMap, avgMap. rewrite range_empty, range_singleton. cbn.
  repeat split; reflexivity.
Qed.

End Metrics.

(** ** state.go: templates *)

(** No byte of [s] is [c]. *)
Definition lacks (c : ascii) (s : string) : bool :=
  forallb (fun x => negb (Ascii.eqb x c)) (list_ascii_of_string s).

Lemma prefix_first (c : ascii) (rest s : string) :
  String.prefix (String c rest) s = true -> exists s', s = String c s'.
Proof.
  destruct s as [|x s']; cbn; [discriminate|].
  destruct (ascii_dec c x) as [->|]; [eauto|discriminate].
Qed.

Lemma replace_from_absent (c : ascii) (rest new s : string) :
  lacks c s = true -> strings.replace_from 0 s (String c rest) new = s.
Proof.
  induction s as [|x s IH]; [reflexivity|].
  unfold lacks. cbn [list_ascii_of_string forallb]. intros H.
  apply andb_prop in H as [Hx Hs].
  cbn [strings.replace_from].
  destruct (String.prefix (String c rest) (String x s)) eqn:Hp.
  - apply prefix_first in Hp as [s' [= -> _]].
    rewrite Ascii.eqb_refl in Hx. discriminate.
  - f_equal. by apply IH.
Qed.

Section Templates.

Context {rt : GoRuntime}.

(** X7. A template without a percent sign is taken literally: the
    substitution returns it unchanged, so as a fingerprint template it
    gives every device, whatever its address and system name, one and the
    same fingerprint. *)
Theorem template_without_placeholder (tmpl : string) (addr1 addr2 : list byte)
    (sysName1 sysName2 : string) :
  lacks "%" tmpl = true ->
  replacePlaceholders tmpl addr1 sysName1 = tmpl
  /\ (tmpl <> ""%string ->
      deriveFingerprint addr1 sysName1 tmpl = deriveFingerprint addr2 sysName2 tmpl).
Proof.
  intros Hl.
  assert (Hr : forall addr sysName, replacePlaceholders tmpl addr sysName = tmpl).
  { intros addr sysName. unfold replacePlaceholders, strings.ReplaceAll.
    cbv beta iota zeta.
    rewrite (replace_from_absent "%" "IP%" _ tmpl Hl).
    apply (replace_from_absent "%" "sysName%" _ tmpl Hl). }
  split; [apply Hr|].
  intros Hne. unfold deriveFingerprint, nonempty.
  destruct (String.eqb_spec tmpl "") as [|_]; [done|]. cbn [negb].
  by rewrite !Hr.
Qed.

End Templates.

(** ** config.go and receiver.go: matching rules and OIDs *)

Section Matching.

Context {rt : GoRuntime}.

(** X8. [MatchDevice] returns the first rule matching the address: the
    rules before it do not match, and there is no result exactly when no
    rule matches.  A rule without an expression matches every address. *)
Theorem MatchDevice_first_match (c : Config) (addr : list byte) :
  match MatchDevice c addr with
  | Some d =>
      exists before after,
        Devices c = before ++ d :: after
        /\ regexMatches d (IP_String addr) = true
        /\ Forall (fun d' => regexMatches d' (IP_String addr) = false) before
  | None => Forall (fun d' => regexMatches d' (IP_String addr) = false) (Devices c)
  end
  /\ (forall d, ipRegex d = None -> regexMatches d (IP_String addr) = true).
Proof.
  split; [|by intros d; unfold regexMatches; intros ->].
  unfold MatchDevice. induction (Devices c) as [|d ds IH]; cbn [List.find]; [constructor|].
  destruct (regexMatches d (IP_String addr)) eqn:Hd.
  - exists [], ds. repeat split; [done|constructor].
  - destruct (List.find _ ds) as [d0|].
    + destruct IH as (before & after & -> & Hm & Hb).
      exists (d :: before), after. repeat split; [done|by constructor].
    + by constructor.
Qed.

(** The two keys [findOIDMap] tries in a rule: without and with the dot. *)
Definition oidEntry (d : DeviceConfig) (noDot : string) : option OIDMap :=
  match Oids d !! noDot with
  | Some om => Some om
  | None => Oids d !! ("." ++ noDot)%string
  end.

Lemma findOIDMap_in_first (ds : list DeviceConfig) (ipStr noDot : string) :
  match findOIDMap_in ds ipStr noDot with
  | Some om =>
      exists before d after,
        ds = before ++ d :: after
        /\ regexMatches d ipStr = true /\ oidEntry d noDot = Some om
        /\ Forall (fun d' => regexMatches d' ipStr = false \/ oidEntry d' noDot = None) before
  | None => Forall (fun d' => regexMatches d' ipStr = false \/ oidEntry d' noDot = None) ds
  end.
Proof.
  induction ds as [|d ds IH]; cbn [findOIDMap_in]; [constructor|].
  assert (Hstep : forall P : option OIDMap -> Prop,
            (regexMatches d ipStr = false \/ oidEntry d noDot = None ->
             P (findOIDMap_in ds ipStr noDot)) ->
            (forall om, regexMatches d ipStr = true -> oidEntry d noDot = Some om -> P (Some om)) ->
            P (if negb (regexMatches d ipStr) then findOIDMap_in ds ipStr noDot
               else match Oids d !! noDot with
                    | Some om => Some om
                    | None => match Oids d !! ("." ++ noDot)%string with
                              | Some om => Some om
                              | None => findOIDMap_in ds ipStr noDot
                              end
                    end)).
  { intros P Hskip Hhit. unfold oidEntry in *.
    destruct (regexMatches d ipStr); cbn [negb]; [|by apply Hskip; left].
    destruct (Oids d !! noDot) as [om|]; [by apply Hhit|].
    destruct (Oids d !! ("." ++ noDot)%string) as [om|]; [by apply Hhit|].
    apply Hskip. by right. }
  apply Hstep.
  - intros Hd. destruct (findOIDMap_in ds ipStr noDot) as [om|].
    + destruct IH as (before & d0 & after & -> & Hm & He & Hb).
      exists (d :: before), d0, after. repeat split; try done; try by constructor.
    + by constructor.
  - intros om Hm He. exists [], d, ds. repeat split; try done; try by constructor.
Qed.

(** X9. [findOIDMap] answers from the first rule that matches the address
    and has the OID, looked up without its leading dot first and with it
    second; there is no answer exactly when no matching rule has it.  The
    leading dot of the OID asked for makes no difference. *)
Theorem findOIDMap_first_hit (c : Config) (addr : list byte) (oid : string) :
  match findOIDMap c addr oid with
  | Some om =>
      exists before d after,
        Devices c = before ++ d :: after
        /\ regexMatches d (IP_String addr) = true
        /\ oidEntry d (trimDot oid) = Some om
        /\ Forall (fun d' => regexMatches d' (IP_String addr) = false
                             \/ oidEntry d' (trimDot oid) = None) before
  | None =>
      Forall (fun d' => regexMatches d' (IP_String addr) = false
                        \/ oidEntry d' (trimDot oid) = None) (Devices c)
  end
  /\ (trimDot oid = oid -> findOIDMap c addr ("." ++ oid) = findOIDMap c addr oid).
Proof.
  split; [apply findOIDMap_in_first|].
  intros Hd. unfold findOIDMap. cbn [trimDot append]. by rewrite Hd.
Qed.

(** X10. [Int64] is the identity on the 64-bit signed range and always
    lands in it. *)
Theorem Int64_range (z : Z) :
  - 2 ^ 63 <= Int64 z < 2 ^ 63
  /\ (- 2 ^ 63 <= z < 2 ^ 63 -> Int64 z = z).
Proof.
  assert (Hw : forall x, - 2 ^ 63 <= wrap64 x < 2 ^ 63).
  { intros x. unfold wrap64. pose proof (Z.mod_pos_bound (x + 2 ^ 63) (2 ^ 64)). lia. }
  assert (Hid : forall x, - 2 ^ 63 <= x < 2 ^ 63 -> wrap64 x = x).
  { intros x Hx. unfold wrap64. rewrite Z.mod_small; lia. }
  split.
  - unfold Int64. destruct (z <? 0); apply Hw.
  - intros Hz. unfold Int64.
    destruct (Z.ltb_spec z 0) as [Hneg|Hpos].
    + rewrite Z.mod_small by lia.
      destruct (Z.eq_dec z (- 2 ^ 63)) as [->|Hne].
      * vm_compute. reflexivity.
      * rewrite (Hid (Z.abs z)) by lia. rewrite Hid by lia. lia.
    + rewrite Z.mod_small by lia. rewrite Hid by lia. lia.
Qed.

End Matching.

(** ** agent.go: the registry and explicit registration *)

Section RegistryMore.

Context {rt : GoRuntime}.

(** The device state the registry holds for an address text. *)
Definition stateOf (a : Agent) (key : string) : option deviceState :=
  match devices a !! key with
  | Some p => store a !! p
  | None => None
  end.

(** X11. [set] then [get]: the state just set is what [get] returns, for
    the address itself and for every address with the same text (the 4-byte
    and the 16-byte form of one IPv4 address, say); the entries of all
    other addresses are as before. *)
Theorem registry_set_get (a : Agent) (addr addr' : list byte) (ds : deviceState) :
  (IP_String addr' = IP_String addr ->
   registry_get (registry_set a addr ds) addr' = Some (length (store a))
   /\ stateOf (registry_set a addr ds) (IP_String addr') = Some ds)
  /\ (IP_String addr' <> IP_String addr ->
      registry_get (registry_set a addr ds) addr' = registry_get a addr').
Proof.
  unfold registry_get, stateOf, registry_set. cbn [devices store]. split.
  - intros ->. rewrite lookup_insert_eq. split; [done|].
    by rewrite lookup_app_r, Nat.sub_diag.
  - intros Hne. by rewrite lookup_insert_ne.
Qed.

(** Different addresses are registered at different places of the store. *)
Definition registryInjective (a : Agent) : Prop :=
  forall k1 k2 p, devices a !! k1 = Some p -> devices a !! k2 = Some p -> k1 = k2.

Lemma registryInjective_NewAgent c : registryInjective (NewAgent c).
Proof. intros k1 k2 p. cbn. by rewrite lookup_empty. Qed.

Lemma registryInjective_set a addr ds :
  wellFormed a -> registryInjective a -> registryInjective (registry_set a addr ds).
Proof.
  intros [Hwf _] Hinj k1 k2 p. cbn [registry_set devices].
  rewrite !lookup_insert. repeat case_decide; subst.
  - done.
  - intros [= <-] Hp. apply Hwf in Hp. lia.
  - intros Hp [= <-]. apply Hwf in Hp. lia.
  - apply Hinj.
Qed.

Lemma registryInjective_ext a a' :
  devices a' = devices a -> registryInjective a -> registryInjective a'.
Proof. unfold registryInjective. by intros ->. Qed.

Lemma materialize_devices a addr sysName :
  devices (materialize a addr sysName).1 = devices a
  \/ exists ds, devices (materialize a addr sysName).1
                = devices (registry_set a addr ds)
                /\ store (materialize a addr sysName).1 = store a ++ [ds]
                /\ (materialize a addr sysName).2 = length (store a)
                /\ registry_get a addr = None.
Proof.
  unfold materialize. destruct (registry_get a addr) eqn:Hr; cbn [fst snd]; [by left|].
  right. eexists. 
  match goal with
  | |- context [ensurePolling ?b addr] =>
      destruct (ensurePolling_fields b addr) as (_&_&_&_&Hs&Hd&_)
  end.
  rewrite Hd, Hs. cbn [registry_set store]. done.
Qed.

Lemma step_registryInjective a e a' out :
  wellFormed a -> registryInjective a -> step a e = Some (a', out) -> registryInjective a'.
Proof.
  intros Hwf Hinj Hs. destruct e; cbn [step] in Hs.
  - injection Hs as <- <-. unfold handle.
    pose proof (materialize_devices a addr (sysNameOf (Variables packet))) as Hm.
    destruct (materialize a addr (sysNameOf (Variables packet))) as [a1 p].
    cbn [fst snd] in Hm.
    destruct (fold_handleVar_registry addr p (Variables packet) a1) as [Hd _].
    destruct (Notify_fields (fold_left (handleVar addr p) (Variables packet) a1) addr)
      as (_&_&_&_&_&Hdn).
    apply (registryInjective_ext a1); [by rewrite Hdn, Hd|].
    destruct Hm as [Hm|(ds & Hm & _)].
    + exact (registryInjective_ext _ _ Hm Hinj).
    + exact (registryInjective_ext _ _ Hm (registryInjective_set _ _ _ Hwf Hinj)).
  - eapply registryInjective_ext; [|exact Hinj].
    destruct (tasks a !! task) as [[addr iv rule|]|];
      [destruct (Devices (cfg a) !! rule)| |]; injection Hs as <- <-; try done.
    by destruct (pollOnce_quiet a addr d peer) as [-> _].
  - injection Hs as <- <-. unfold EnsureDevice.
    destruct (ParseIP ipText) as [nip|]; [|done].
    match goal with
    | |- registryInjective (Notify (ensurePolling ?b nip) nip) =>
        destruct (Notify_fields (ensurePolling b nip) nip) as (_&_&_&_&_&Hdn);
        destruct (ensurePolling_fields b nip) as (_&_&_&_&_&Hd&_)
    end.
    match goal with
    | |- registryInjective (Notify (ensurePolling ?b nip) nip) =>
        apply (registryInjective_ext b); [by rewrite Hdn, Hd|]
    end.
    by apply registryInjective_set.
  - eapply registryInjective_ext; [|exact Hinj].
    injection Hs as <- <-. by destruct (Notify_quiet a addr) as [-> _].
  - eapply registryInjective_ext; [|exact Hinj].
    injection Hs as <- <-.
    by destruct (ensurePolling_fields a addr) as (_&_&_&_&_&->&_).
  - eapply registryInjective_ext; [|exact Hinj].
    destruct (conns a !! key) as [dc|]; [|by injection Hs as <- <-].
    destruct (connect a dc dial) as [[dc' ws] ts] eqn:Hc. injection Hs as <- <-.
    by destruct (fold_spawn_fields ts (with_conns a (<[key:=dc']> (conns a))))
      as (_&_&_&_&_&->&_).
  - eapply registryInjective_ext; [|exact Hinj].
    destruct (conns a !! key) as [dc|]; [|by injection Hs as <- <-].
    destruct (OnMessage a dc message) as [[dc' ws]|]; [|done].
    by injection Hs as <- <-.
  - eapply registryInjective_ext; [|exact Hinj].
    destruct (conns a !! key) as [dc|]; by injection Hs as <- <-.
  - eapply registryInjective_ext; [|exact Hinj].
    destruct (conns a !! key) as [dc|]; [|by injection Hs as <- <-].
    cbn in Hs. by injection Hs as <- <-.
Qed.

Lemma run_registryInjective evs a a' :
  wellFormed a -> registryInjective a -> run a evs = Some a' -> registryInjective a'.
Proof.
  revert a. induction evs as [|e evs IH]; intros a Hwf Hinj; cbn [run].
  - by intros [= <-].
  - destruct (step a e) as [[a1 out]|] eqn:Hs; [|done].
    apply IH; [eapply step_wellFormed|eapply step_registryInjective]; eauto.
Qed.

End RegistryMore.

(** ** receiver.go and poller.go: what a trap and a poll change *)

Section TrapsAndPolls.

Context {rt : GoRuntime}.

(** The identity [handle] gives an unknown sender: fingerprint and
    hostname from the templates of the first matching rule. *)
Definition senderFingerprint (c : Config) (addr : list byte) (sysName : string) : string :=
  deriveFingerprint addr sysName
    match MatchDevice c addr with Some d => FingerprintTmpl d | None => ""%string end.

Definition senderHostname (c : Config) (addr : list byte) (sysName : string) : string :=
  match MatchDevice c addr with
  | Some d =>
      if nonempty (HostnameTemplate d) then replacePlaceholders (HostnameTemplate d) addr sysName
      else if nonempty sysName then sysName else IP_String addr
  | None => if nonempty sysName then sysName else IP_String addr
  end.

Lemma materialize_cases (a : Agent) (addr : list byte) (sysName : string) :
  (exists p, registry_get a addr = Some p /\ materialize a addr sysName = (a, p))
  \/ (registry_get a addr = None
      /\ exists a1,
           materialize a addr sysName = (a1, length (store a))
           /\ devices a1 = <[IP_String addr := length (store a)]> (devices a)
           /\ store a1 = store a ++ [newDeviceState addr (senderFingerprint (cfg a) addr sysName)
                                       (senderHostname (cfg a) addr sysName)]
           /\ conns a1 = conns a /\ cfg a1 = cfg a).
Proof.
  unfold materialize. destruct (registry_get a addr) as [p|] eqn:Hr; [left; eauto|].
  right. split; [done|]. eexists. split; [reflexivity|].
  match goal with
  | |- context [ensurePolling ?b addr] =>
      destruct (ensurePolling_fields b addr) as (Hc&_&_&_&Hs&Hd&Hcs&_)
  end.
  rewrite Hd, Hs, Hcs, Hc. cbn [registry_set devices store conns cfg].
  repeat split. unfold senderFingerprint, senderHostname.
  destruct (MatchDevice (cfg a) addr) as [d|]; reflexivity.
Qed.

Lemma setMetricAt_other a p category name val q :
  q <> p -> store (setMetricAt a p category name val) !! q = store a !! q.
Proof.
  intros Hne. unfold setMetricAt. destruct (store a !! p); [|done].
  cbn [with_store store]. by apply list_lookup_insert_ne.
Qed.

Lemma handleVar_other addr p a v q :
  q <> p -> store (handleVar addr p a v) !! q = store a !! q.
Proof.
  intros Hne. unfold handleVar.
  repeat match goal with
  | |- store a !! q = store a !! q => reflexivity
  | |- store (setMetricAt _ _ _ _ _) !! q = _ => by apply setMetricAt_other
  | |- context [if ?b then _ else _] => destruct b
  | |- context [match ?x with _ => _ end] => destruct x
  end.
Qed.

Lemma fold_handleVar_other addr p vars a q :
  q <> p -> store (fold_left (handleVar addr p) vars a) !! q = store a !! q.
Proof.
  intros Hne. revert a. induction vars as [|v vars IH]; intros a; cbn [fold_left]; [done|].
  rewrite IH. by apply handleVar_other.
Qed.

Lemma pollOID_other peer addr a kv q :
  devices a !! IP_String addr <> Some q ->
  store (pollOID peer addr a kv) !! q = store a !! q.
Proof.
  intros Hne. unfold pollOID, registry_get. destruct kv as [oid om].
  destruct (negb (shouldSend om)); [done|].
  destruct (Get peer oid) as [[|v vs]|]; try done.
  destruct (ToBigInt (PduValue v)); [|done].
  destruct (devices a !! IP_String addr) as [p|] eqn:Hp; [|done].
  apply setMetricAt_other. congruence.
Qed.

Lemma fold_pollOID_other peer addr kvs a q :
  devices a !! IP_String addr <> Some q ->
  store (fold_left (pollOID peer addr) kvs a) !! q = store a !! q.
Proof.
  revert a. induction kvs as [|kv kvs IH]; intros a Hne; cbn [fold_left]; [done|].
  rewrite IH.
  - by apply pollOID_other.
  - destruct (pollOID_same peer addr a kv) as (_&_&_&_&Hd&_). by rewrite Hd.
Qed.

(** X12. Devices are independent.  In every state the agent reaches, a
    trap from one address and a poll of one address leave the registered
    state of every other address exactly as it was, metrics included. *)
Theorem device_isolation (c : Config) (evs : list Event) (a : Agent) (key : string) :
  run (NewAgent c) evs = Some a ->
  (forall packet addr, key <> IP_String addr ->
     stateOf (handle a packet addr) key = stateOf a key)
  /\ (forall addr dc peer, key <> IP_String addr ->
        stateOf (pollOnce a addr dc peer) key = stateOf a key).
Proof.
  intros Hrun.
  pose proof (run_wellFormed _ _ _ (wellFormed_NewAgent c) Hrun) as Hwf.
  pose proof (run_registryInjective _ _ _ (wellFormed_NewAgent c)
                (registryInjective_NewAgent c) Hrun) as Hinj.
  split.
  - intros packet addr Hne. unfold stateOf, handle.
    destruct (materialize_cases a addr (sysNameOf (Variables packet)))
      as [(p & Hp & ->)|(Hnone & a1 & -> & Hd1 & Hs1 & _)].
    + destruct (fold_handleVar_registry addr p (Variables packet) a) as [Hd _].
      destruct (Notify_fields (fold_left (handleVar addr p) (Variables packet) a) addr)
        as (_&_&_&_&Hsn&Hdn).
      rewrite Hdn, Hsn, Hd.
      destruct (devices a !! key) as [q|] eqn:Hq; [|done].
      apply fold_handleVar_other. intros ->. apply Hne. by eapply Hinj.
    + destruct (fold_handleVar_registry addr (length (store a)) (Variables packet) a1)
        as [Hd _].
      destruct (Notify_fields
                  (fold_left (handleVar addr (length (store a))) (Variables packet) a1) addr)
        as (_&_&_&_&Hsn&Hdn).
      rewrite Hdn, Hsn, Hd, Hd1, lookup_insert_ne by done.
      destruct (devices a !! key) as [q|] eqn:Hq; [|done].
      destruct Hwf as [Hwf _]. pose proof (Hwf _ _ Hq) as Hlt.
      rewrite fold_handleVar_other by lia.
      rewrite Hs1. by apply lookup_app_l.
  - intros addr dc peer Hne. unfold stateOf, pollOnce.
    destruct (connectOK peer); cbn [negb]; [|done].
    destruct (fold_same (pollOID peer addr) (range (Oids dc)) a
                (fun b x => pollOID_same peer addr b x)) as (_&_&_&_&Hd&_).
    destruct (Notify_fields (fold_left (pollOID peer addr) (range (Oids dc)) a) addr)
      as (_&_&_&_&Hsn&Hdn).
    rewrite Hdn, Hsn, Hd.
    destruct (devices a !! key) as [q|] eqn:Hq; [|done].
    apply fold_pollOID_other. intros Hq'. apply Hne. by eapply Hinj.
Qed.

(** X13. The identity of a device is fixed when it is registered: in every
    run without [EnsureDevice], whatever traps (also with another
    sysName), polls and hub traffic follow, the address keeps its
    fingerprint, its hostname and its IP. *)
Theorem identity_stable (evs : list Event) (a a' : Agent) (key : string) (ds : deviceState) :
  (forall ipText host, ~ In (EvEnsureDevice ipText host) evs) ->
  run a evs = Some a' ->
  stateOf a key = Some ds ->
  exists ds', stateOf a' key = Some ds'
    /\ finger ds' = finger ds /\ hostname ds' = hostname ds /\ ip ds' = ip ds.
Proof.
  revert a ds. induction evs as [|e evs IH]; intros a ds Hno; cbn [run].
  - intros [= <-] Hs. eauto.
  - destruct (step a e) as [[a1 out]|] eqn:Hs; [|done].
    intros Hrun Hst. unfold stateOf in Hst.
    destruct (devices a !! key) as [p|] eqn:Hk; [|done].
    assert (Hne : forall ipText host, e <> EvEnsureDevice ipText host).
    { intros ipText host ->. apply (Hno ipText host). by left. }
    pose proof (step_registry _ _ _ _ Hs Hne key p Hk) as Hk1.
    destruct (step_grows _ _ _ _ Hs) as (_&_&_&_&_&Hg).
    destruct (Hg p ds Hst) as (ds1 & Hp1 & Hf & Hh & Hi).
    destruct (IH a1 ds1) as (ds' & Hs' & Hf' & Hh' & Hi'); try done.
    + intros ipText host Hin. apply (Hno ipText host). by right.
    + unfold stateOf. by rewrite Hk1.
    + exists ds'. repeat split; congruence.
Qed.

Lemma Notify_session (b : Agent) (addr : list byte) :
  is_Some (devices b !! IP_String addr) ->
  is_Some (conns (Notify b addr) !! IP_String addr).
Proof.
  intros [p Hp]. rewrite Notify_unfold, Hp.
  destruct (conns b !! IP_String addr) eqn:Hc; [by rewrite Hc|].
  cbn. rewrite lookup_insert_eq. eauto.
Qed.

(** X14. A trap materializes its sender.  After [handle], the sender is
    registered and has a hub session.  If it was unknown, its state is new:
    the address, the fingerprint derived from the trap's sysName and the
    fingerprint template of the first matching rule, and the hostname from
    the hostname template, else the sysName, else the address text. *)
Theorem trap_materializes_sender (a : Agent) (packet : SnmpPacket) (addr : list byte) :
  is_Some (registry_get (handle a packet addr) addr)
  /\ is_Some (conns (handle a packet addr) !! IP_String addr)
  /\ (registry_get a addr = None ->
      exists ds, stateOf (handle a packet addr) (IP_String addr) = Some ds
        /\ ip ds = addr
        /\ finger ds = senderFingerprint (cfg a) addr (sysNameOf (Variables packet))
        /\ hostname ds = senderHostname (cfg a) addr (sysNameOf (Variables packet))).
Proof.
  assert (Hreg : is_Some (registry_get (handle a packet addr) addr))
    by apply handle_registry.
  split; [exact Hreg|]. split.
  - unfold handle in *.
    destruct (materialize a addr (sysNameOf (Variables packet))) as [a1 p1].
    apply Notify_session. unfold registry_get in Hreg.
    by destruct (Notify_fields (fold_left (handleVar addr p1) (Variables packet) a1) addr)
      as (_&_&_&_&_&<-).
  - intros Hnone. unfold stateOf, handle.
    destruct (materialize_cases a addr (sysNameOf (Variables packet)))
      as [(p & Hp & _)|(_ & a1 & -> & Hd1 & Hs1 & _)]; [congruence|].
    destruct (fold_same (handleVar addr (length (store a))) (Variables packet) a1
                (fun b x => handleVar_same addr (length (store a)) b x))
      as (_&_&_&_&Hd&_&_&_&Hst).
    destruct (Notify_fields
                (fold_left (handleVar addr (length (store a))) (Variables packet) a1) addr)
      as (_&_&_&_&Hsn&Hdn).
    rewrite Hdn, Hsn, Hd, Hd1, lookup_insert_eq.
    destruct (Hst (length (store a))
                (newDeviceState addr
                   (senderFingerprint (cfg a) addr (sysNameOf (Variables packet)))
                   (senderHostname (cfg a) addr (sysNameOf (Variables packet)))))
      as (ds' & Hds' & Hf & Hh & Hi).
    { rewrite Hs1. by rewrite lookup_app_r, Nat.sub_diag. }
    exists ds'. by repeat split.
Qed.

(** X15. Explicit registration.  [EnsureDevice] ignores a text that is not
    an IP address.  Otherwise the address is registered afresh, also when it
    was registered before: the registry points to a new state without
    metrics, with the given hostname and the fingerprint derived from it
    without a template; and the address has a hub session. *)
Theorem EnsureDevice_registers (a : Agent) (ipText host : string) :
  match ParseIP ipText with
  | None => EnsureDevice a ipText host = a
  | Some nip =>
      stateOf (EnsureDevice a ipText host) (IP_String nip)
      = Some (newDeviceState nip (deriveFingerprint nip host "") host)
      /\ registry_get (EnsureDevice a ipText host) nip = Some (length (store a))
      /\ is_Some (conns (EnsureDevice a ipText host) !! IP_String nip)
  end.
Proof.
  unfold EnsureDevice. destruct (ParseIP ipText) as [nip|]; [|done].
  set (ds := newDeviceState nip (deriveFingerprint nip host "") host).
  destruct (ensurePolling_fields (registry_set a nip ds) nip) as (_&_&_&_&Hs&Hd&Hc&_).
  destruct (Notify_fields (ensurePolling (registry_set a nip ds) nip) nip)
    as (_&_&_&_&Hsn&Hdn).
  assert (Hreg : devices (Notify (ensurePolling (registry_set a nip ds) nip) nip)
                 !! IP_String nip = Some (length (store a))).
  { rewrite Hdn, Hd. cbn [registry_set devices]. apply lookup_insert_eq. }
  split; [|split].
  - unfold stateOf. rewrite Hreg, Hsn, Hs. cbn [registry_set store].
    by rewrite lookup_app_r, Nat.sub_diag.
  - exact Hreg.
  - apply Notify_session. rewrite Hd. cbn [registry_set devices].
    rewrite lookup_insert_eq. eauto.
Qed.

End TrapsAndPolls.

Section TrapValues.

Context {rt : GoRuntime}.

(** The three OIDs [handle] skips. *)
Definition isMetaOID (oid : string) : bool :=
  String.eqb oid metaSysUpTime || String.eqb oid metaTrapOID || String.eqb oid metaSysName.

Lemma materialize_pointer (a : Agent) (addr : list byte) (sysName : string) :
  wellFormed a ->
  cfg (materialize a addr sysName).1 = cfg a
  /\ devices (materialize a addr sysName).1 !! IP_String addr
     = Some (materialize a addr sysName).2
  /\ is_Some (store (materialize a addr sysName).1 !! (materialize a addr sysName).2).
Proof.
  intros [Hwf _].
  destruct (materialize_cases a addr sysName)
    as [(p & Hp & ->)|(_ & a1 & -> & Hd1 & Hs1 & _ & Hc1)]; cbn [fst snd].
  - repeat split; [exact Hp|]. apply lookup_lt_is_Some_2. by eapply Hwf.
  - split; [exact Hc1|]. rewrite Hd1, Hs1, lookup_insert_eq. split; [done|].
    rewrite lookup_app_r, Nat.sub_diag by done. eauto.
Qed.

(** X16. A trap's value reaches the state.  When the last variable binding
    of a trap is not a meta OID, has a mapping that passes [shouldSend] and
    carries a number, then after [handle] the sender's state holds, under
    the mapping's normalized category and sensor name, the number scaled and
    rounded by [transformValue], whatever the earlier bindings were. *)
Theorem trap_stores_last_value (a : Agent) (vars : list SnmpPDU) (v : SnmpPDU)
    (addr : list byte) (om : OIDMap) (z : Z) :
  wellFormed a ->
  isMetaOID (PduName v) = false ->
  findOIDMap (cfg a) addr (PduName v) = Some om ->
  shouldSend om = true ->
  ToBigInt (PduValue v) = Some z ->
  exists ds cat,
    stateOf (handle a {| Variables := vars ++ [v] |} addr) (IP_String addr) = Some ds
    /\ normalizeCategory (ToLower (Category om)) = Some cat
    /\ metricsOf ds cat !! Name om
       = Some (transformValue (Scale om) (math.float64_of_Z (Int64 z))
                 (Round1 (Defs (cfg a)))).
Proof.
  intros Hwf Hmeta Hfind Hsend Hz.
  unfold stateOf, handle. cbn [Variables].
  destruct (materialize_pointer a addr (sysNameOf (vars ++ [v])) Hwf) as (Hc1 & Hd1 & Hs1).
  destruct (materialize a addr (sysNameOf (vars ++ [v]))) as [a1 p]. cbn [fst snd] in *.
  rewrite fold_left_app. cbn [fold_left].
  set (a2 := fold_left (handleVar addr p) vars a1).
  destruct (fold_same (handleVar addr p) vars a1 (fun b x => handleVar_same addr p b x))
    as (Hc2&_&_&_&Hd2&_&_&Hl2&_).
  fold a2 in Hc2, Hd2, Hl2.
  assert (Hs2 : is_Some (store a2 !! p)).
  { apply lookup_lt_is_Some_2. rewrite Hl2. by apply lookup_lt_is_Some_1. }
  destruct Hs2 as [ds2 Hds2].
  assert (Hv : handleVar addr p a2 v
               = setMetricAt a2 p (Category om) (Name om)
                   (transformValue (Scale om) (math.float64_of_Z (Int64 z))
                      (Round1 (Defs (cfg a))))).
  { unfold handleVar. unfold isMetaOID in Hmeta. rewrite Hmeta.
    rewrite Hc2, Hc1, Hfind, Hsend, Hz. reflexivity. }
  destruct (Notify_fields (handleVar addr p a2 v) addr) as (_&_&_&_&Hsn&Hdn).
  rewrite Hdn, Hsn, Hv. unfold setMetricAt. rewrite Hds2.
  cbn [with_store devices store]. rewrite Hd2, Hd1.
  rewrite list_lookup_insert_eq by (by eapply lookup_lt_Some).
  assert (Hcat : is_Some (normalizeCategory (ToLower (Category om)))).
  { revert Hsend. unfold shouldSend, normalizeCategory, is_case, categoryNames.
    generalize (ToLower (Category om)). intros c.
    cbn [List.find existsb fst snd].
    repeat match goal with
    | |- context [String.eqb c ?lit] =>
        destruct (String.eqb c lit) eqn:?; [cbn; eauto | cbn [orb]]
    end.
    discriminate. }
  destruct Hcat as [cat Hcat].
  eexists _, cat. split; [reflexivity|]. split; [exact Hcat|].
  rewrite setMetric_storeMetric, Hcat. destruct cat; cbn; apply lookup_insert_eq.
Qed.

End TrapValues.

(** ** client.go: the life of a hub session *)

Section SessionLife.

Context {rt : GoRuntime}.

(** The guard of [connect]: hub address, token and key are all there. *)
Definition hubConfigured (a : Agent) : bool :=
  urlOK a && nonempty (token a) && match pubKey a with Some _ => true | None => false end.

(** An inbound message is a CheckFingerprint request whose signature
    verifies against the agent's token under the hub key. *)
Definition validCheckFingerprint (a : Agent) (message : Message) : Prop :=
  exists req fr pk,
    requestOf message = Some req
    /\ common.Action req = common.CheckFingerprint
    /\ UnmarshalFingerprintRequest (common.Data req) = Some fr
    /\ pubKey a = Some pk
    /\ Verify pk (list_byte_of_string (token a))
         {| Format := KeyType pk; Blob := common.Signature fr |} = true.

Lemma OnMessage_verifies (a : Agent) (dc dc' : deviceClient) (message : Message) (ws : Writes) :
  OnMessage a dc message = Some (dc', ws) ->
  dc' = dc
  \/ (dc' = with_verified dc true /\ is_Some (Conn dc) /\ validCheckFingerprint a message).
Proof.
  unfold validCheckFingerprint, requestOf, OnMessage.
  destruct (MsgOpcode message); try (intros [= <- <-]; by left).
  destruct (DecodeHubRequest (MsgData message)) as [req|]; [|intros [= <- <-]; by left].
  destruct (Z.eqb_spec (common.Action req) common.CheckFingerprint) as [Hcf|Hncf].
  - destruct (UnmarshalFingerprintRequest (common.Data req)) as [fr|] eqn:Hfr;
      [|intros [= <- <-]; by left].
    unfold verifySignature. destruct (pubKey a) as [pk|] eqn:Hpk; [|done].
    destruct (Verify pk _ _) eqn:Hv; [|intros [= <- <-]; by left].
    destruct (store a !! dsRef dc); [|done].
    unfold sendMessage. cbn [with_verified Conn].
    destruct (Conn dc) as [cn|] eqn:Hcn; [|done].
    intros [= <- <-]. right. split; [done|]. split; [eauto|]. exists req, fr, pk. done.
  - destruct (common.Action req =? common.GetData); [|intros [= <- <-]; by left].
    destruct (send a dc); [|done]. intros [= <- <-]. by left.
Qed.

Lemma connect_cases (a : Agent) (dc dc' : deviceClient) (dial : option nat)
    (ws : Writes) (ts : list Task) :
  connect a dc dial = (dc', ws, ts) ->
  dc' = dc
  \/ exists cn, dial = Some cn /\ dc' = with_Conn dc (Some cn) /\ hubConfigured a = true.
Proof.
  unfold connect, hubConfigured.
  destruct (urlOK a), (nonempty (token a)), (pubKey a); cbn [negb orb andb];
    try (intros [= <- <- <-]; by left).
  destruct dial as [cn|]; intros [= <- <- <-]; [right; eauto|by left].
Qed.

(** How one step can change what the session map holds under a key. *)
Inductive SessionChange (a a' : Agent) (e : Event) (k : string) (dc' : deviceClient) : Prop :=
| Unchanged : conns a !! k = Some dc' -> SessionChange a a' e k dc'
| Created addr p :
    conns a !! k = None -> k = IP_String addr -> devices a' !! k = Some p ->
    dc' = freshSession addr p ->
    SessionChange a a' e k dc'
| Connected dc cn :
    conns a !! k = Some dc -> e = EvConnect k (Some cn) ->
    dc' = with_Conn dc (Some cn) -> hubConfigured a = true ->
    SessionChange a a' e k dc'
| Verified dc message :
    conns a !! k = Some dc -> e = EvMessage k message ->
    dc' = with_verified dc true -> is_Some (Conn dc) -> validCheckFingerprint a message ->
    SessionChange a a' e k dc'
| Closed dc :
    conns a !! k = Some dc -> e = EvClose k -> dc' = with_verified dc false ->
    SessionChange a a' e k dc'.

Lemma Notify_change (b : Agent) (addr : list byte) (k : string) (dc' : deviceClient) :
  conns (Notify b addr) !! k = Some dc' ->
  conns b !! k = Some dc'
  \/ (conns b !! k = None /\ k = IP_String addr
      /\ exists p, devices (Notify b addr) !! k = Some p /\ dc' = freshSession addr p).
Proof.
  destruct (Notify_fields b addr) as (_&_&_&_&_&->).
  rewrite Notify_unfold.
  destruct (conns b !! IP_String addr) eqn:Hc; [by left|].
  destruct (devices b !! IP_String addr) as [p|] eqn:Hp; [|by left].
  cbn. rewrite lookup_insert. case_decide as Hk.
  - intros [= <-]. subst k. right. eauto.
  - by left.
Qed.

Lemma Notify_keeps (b : Agent) (addr : list byte) (k : string) (dc : deviceClient) :
  conns b !! k = Some dc -> conns (Notify b addr) !! k = Some dc.
Proof.
  intros Hk. rewrite Notify_unfold.
  destruct (conns b !! IP_String addr) eqn:Hc; [done|].
  destruct (devices b !! IP_String addr) as [p|]; [|done].
  cbn. rewrite lookup_insert_ne; [done|]. intros <-. congruence.
Qed.

(** The agent a step ends in when it goes through [Notify]: [b] is the
    agent the step has built before its final [Notify]. *)
Lemma step_through_Notify (a a' : Agent) (e : Event) (out : list Output) :
  step a e = Some (a', out) ->
  (conns a' = conns a /\ devices a' = devices a)
  \/ (exists b addr, a' = Notify b addr /\ conns b = conns a)
  \/ (exists key, devices a' = devices a
        /\ match e with
           | EvConnect k _ | EvMessage k _ | EvClose k => k = key
           | _ => False
           end).
Proof.
  intros Hs. destruct e; cbn [step] in Hs.
  - right; left. injection Hs as <- _. unfold handle.
    destruct (materialize_cases a addr (sysNameOf (Variables packet)))
      as [(p & _ & ->)|(_ & a1 & -> & _ & _ & Hc1 & _)].
    + eexists _, _. split; [reflexivity|].
      by destruct (fold_same (handleVar addr p) (Variables packet) a
                     (fun b x => handleVar_same addr p b x)) as (_&_&_&_&_&->&_).
    + eexists _, _. split; [reflexivity|].
      destruct (fold_same (handleVar addr (length (store a))) (Variables packet) a1
                  (fun b x => handleVar_same addr (length (store a)) b x))
        as (_&_&_&_&_&->&_). exact Hc1.
  - destruct (tasks a !! task) as [[addr iv rule|]|];
      [destruct (Devices (cfg a) !! rule)| |]; injection Hs as <- _;
      try by left.
    unfold pollOnce. destruct (connectOK peer); cbn [negb]; [|by left].
    right; left. eexists _, _. split; [reflexivity|].
    by destruct (fold_same (pollOID peer addr) (range (Oids d)) a
                   (fun b x => pollOID_same peer addr b x)) as (_&_&_&_&_&->&_).
  - injection Hs as <- _. unfold EnsureDevice.
    destruct (ParseIP ipText) as [nip|]; [|by left].
    right; left. eexists _, _. split; [reflexivity|].
    match goal with
    | |- conns (ensurePolling ?b nip) = _ =>
        by destruct (ensurePolling_fields b nip) as (_&_&_&_&_&_&->&_)
    end.
  - injection Hs as <- _. right; left. by eexists _, _.
  - injection Hs as <- _. left.
    by destruct (ensurePolling_fields a addr) as (_&_&_&_&_&->&->&_).
  - right; right. exists key.
    destruct (conns a !! key) as [dc|]; [|by injection Hs as <- _].
    destruct (connect a dc dial) as [[dc1 ws] ts]. injection Hs as <- _.
    by destruct (fold_spawn_fields ts (with_conns a (<[key:=dc1]> (conns a))))
      as (_&_&_&_&_&->&_).
  - right; right. exists key.
    destruct (conns a !! key) as [dc|]; [|by injection Hs as <- _].
    destruct (OnMessage a dc message) as [[dc1 ws]|]; [|done]. by injection Hs as <- _.
  - left. destruct (conns a !! key); by injection Hs as <- _.
  - right; right. exists key.
    destruct (conns a !! key) as [dc|]; [|by injection Hs as <- _].
    cbn in Hs. by injection Hs as <- _.
Qed.

Lemma step_session_change (a a' : Agent) (e : Event) (out : list Output)
    (k : string) (dc' : deviceClient) :
  step a e = Some (a', out) -> conns a' !! k = Some dc' -> SessionChange a a' e k dc'.
Proof.
  intros Hs Hk.
  destruct (step_through_Notify _ _ _ _ Hs) as [[Hc _]|[(b & addr & -> & Hb)|(key & _ & He)]].
  - rewrite Hc in Hk. by apply Unchanged.
  - apply Notify_change in Hk as [Hn|(Hn & -> & p & Hp & ->)]; rewrite Hb in Hn.
    + by apply Unchanged.
    + by eapply Created.
  - destruct e; try done; subst key0; cbn [step] in Hs.
    + destruct (conns a !! key) as [dc|] eqn:Hkey;
        [|injection Hs as <- <-; by apply Unchanged].
      destruct (connect a dc dial) as [[dc1 ws] ts] eqn:Hc. injection Hs as <- <-.
      destruct (fold_spawn_fields ts (with_conns a (<[key:=dc1]> (conns a))))
        as (_&_&_&_&_&_&Hcs&_).
      rewrite Hcs in Hk. cbn [with_conns conns] in Hk.
      rewrite lookup_insert in Hk. case_decide as Heq; [|by apply Unchanged].
      subst key. injection Hk as <-.
      apply connect_cases in Hc as [->|(cn & -> & -> & Hg)].
      * by apply Unchanged.
      * by eapply Connected.
    + destruct (conns a !! key) as [dc|] eqn:Hkey;
        [|injection Hs as <- <-; by apply Unchanged].
      destruct (OnMessage a dc message) as [[dc1 ws]|] eqn:Hm; [|done].
      injection Hs as <- <-. cbn [with_conns conns] in Hk.
      rewrite lookup_insert in Hk. case_decide as Heq; [|by apply Unchanged].
      subst key. injection Hk as <-.
      apply OnMessage_verifies in Hm as [->|(-> & Hcn & Hv)].
      * by apply Unchanged.
      * by eapply Verified.
    + destruct (conns a !! key) as [dc|] eqn:Hkey;
        [|injection Hs as <- <-; by apply Unchanged].
      cbn in Hs. injection Hs as <- <-. cbn [spawn with_conns conns] in Hk.
      rewrite lookup_insert in Hk. case_decide as Heq; [|by apply Unchanged].
      subst key. injection Hk as <-. by eapply Closed.
Qed.

(** No step removes a session, rebinds it to another state or address, or
    takes its connection away. *)
Lemma step_session_kept (a a' : Agent) (e : Event) (out : list Output)
    (k : string) (dc : deviceClient) :
  step a e = Some (a', out) -> conns a !! k = Some dc ->
  exists dc', conns a' !! k = Some dc' /\ dsRef dc' = dsRef dc /\ dcIP dc' = dcIP dc
              /\ (is_Some (Conn dc) -> is_Some (Conn dc')).
Proof.
  intros Hs Hk.
  destruct (step_through_Notify _ _ _ _ Hs) as [[Hc _]|[(b & addr & -> & Hb)|(key & _ & He)]].
  - exists dc. by rewrite Hc.
  - exists dc. split; [|done]. apply Notify_keeps. by rewrite Hb.
  - destruct e; try done; subst key0; cbn [step] in Hs.
    + destruct (conns a !! key) as [dc0|] eqn:Hkey;
        [|injection Hs as <- <-; by exists dc].
      destruct (connect a dc0 dial) as [[dc1 ws] ts] eqn:Hc. injection Hs as <- <-.
      destruct (fold_spawn_fields ts (with_conns a (<[key:=dc1]> (conns a))))
        as (_&_&_&_&_&_&->&_).
      cbn [with_conns conns]. rewrite lookup_insert. case_decide as Heq; [|by exists dc].
      subst key. rewrite Hk in Hkey. injection Hkey as <-.
      apply connect_cases in Hc as [->|(cn & -> & -> & Hg)]; eexists; split; try done.
    + destruct (conns a !! key) as [dc0|] eqn:Hkey;
        [|injection Hs as <- <-; by exists dc].
      destruct (OnMessage a dc0 message) as [[dc1 ws]|] eqn:Hm; [|done].
      injection Hs as <- <-. cbn [with_conns conns].
      rewrite lookup_insert. case_decide as Heq; [|by exists dc].
      subst key. rewrite Hk in Hkey. injection Hkey as <-.
      apply OnMessage_verifies in Hm as [->|(-> & _)]; eexists; split; done.
    + destruct (conns a !! key) as [dc0|] eqn:Hkey;
        [|injection Hs as <- <-; by exists dc].
      cbn in Hs. injection Hs as <- <-. cbn [spawn with_conns conns].
      rewrite lookup_insert. case_decide as Heq; [|by exists dc].
      subst key. rewrite Hk in Hkey. injection Hkey as <-. eexists; split; done.
Qed.

End SessionLife.

(** ** Sessions over whole runs *)

Section SessionInvariants.

Context {rt : GoRuntime}.

Lemma validCheckFingerprint_ext (a b : Agent) (message : Message) :
  pubKey b = pubKey a -> token b = token a ->
  validCheckFingerprint a message -> validCheckFingerprint b message.
Proof. unfold validCheckFingerprint. by intros -> ->. Qed.

Lemma hubConfigured_grows (a a' : Agent) : grows a a' -> hubConfigured a' = hubConfigured a.
Proof. intros (_ & Hk & Hu & Ht & _). unfold hubConfigured. by rewrite Hk, Hu, Ht. Qed.

Lemma step_close_unverified (a a' : Agent) (out : list Output) (k : string) (dc' : deviceClient) :
  step a (EvClose k) = Some (a', out) -> conns a' !! k = Some dc' -> hubVerified dc' = false.
Proof.
  cbn [step]. destruct (conns a !! k) as [dc|] eqn:Hk.
  - cbn. intros [= <- <-]. cbn. rewrite lookup_insert_eq. by intros [= <-].
  - intros [= <- <-]. congruence.
Qed.

Lemma run_app (evs1 evs2 : list Event) (a : Agent) :
  run a (evs1 ++ evs2) = match run a evs1 with Some b => run b evs2 | None => None end.
Proof.
  revert a. induction evs1 as [|e evs1 IH]; intros a; cbn [run app]; [done|].
  destruct (step a e) as [[a1 out]|]; [apply IH|done].
Qed.

(** The agent before the [j]-th event of an execution is the one the first
    [j] events lead to. *)
Lemma exec_run (evs : list Event) (a : Agent) (j : nat) (mo : Moment) :
  exec a evs !! j = Some mo -> run a (take j evs) = Some (before mo).
Proof.
  revert a j. induction evs as [|e evs IH]; intros a j Hj; [done|].
  cbn [exec] in Hj. destruct (step a e) as [[a1 out]|] eqn:Hs; [|done].
  destruct j as [|j]; cbn in Hj.
  - by injection Hj as <-.
  - cbn [take run]. rewrite Hs. by apply IH.
Qed.

Lemma exec_between (evs : list Event) (a : Agent) (i j : nat) (mi mj : Moment) :
  (i <= j)%nat -> exec a evs !! i = Some mi -> exec a evs !! j = Some mj ->
  exists evs', run (before mi) evs' = Some (before mj).
Proof.
  intros Hij Hi Hj. apply exec_run in Hi, Hj.
  exists (drop i (take j evs)).
  rewrite <- (take_drop i (take j evs)), run_app in Hj.
  rewrite take_take, Nat.min_l in Hj by done. by rewrite Hi in Hj.
Qed.

Lemma verified_history_from (evs : list Event) (a0 a : Agent) (k : string) (dc : deviceClient) :
  run a0 evs = Some a -> conns a !! k = Some dc -> hubVerified dc = true ->
  ((exists dc0, conns a0 !! k = Some dc0 /\ hubVerified dc0 = true) /\ ~ In (EvClose k) evs)
  \/ exists evs1 message evs2,
       evs = evs1 ++ EvMessage k message :: evs2
       /\ validCheckFingerprint a0 message /\ ~ In (EvClose k) evs2.
Proof.
  revert a0. induction evs as [|e evs IH]; intros a0; cbn [run].
  - intros [= <-] Hk Hv. left. split; [eauto|]. by intros [].
  - destruct (step a0 e) as [[a1 out]|] eqn:Hs; [|done].
    intros Hr Hk Hv.
    destruct (step_grows _ _ _ _ Hs) as (_ & Hpk & _ & Htk & _).
    destruct (IH a1 Hr Hk Hv)
      as [[(dc1 & Hk1 & Hv1) Hno]|(evs1 & m & evs2 & -> & Hval & Hno)].
    + destruct (step_session_change _ _ _ _ _ _ Hs Hk1)
        as [Hu|addr p _ _ _ ->|d cn Hd -> -> _|d m Hd -> -> _ Hval|d Hd -> ->].
      * left. split; [eauto|]. intros [->|Hin]; [|done].
        pose proof (step_close_unverified _ _ _ _ _ Hs Hk1). congruence.
      * done.
      * left. split; [by exists d|]. by intros [?|?].
      * right. by exists [], m, evs.
      * done.
    + right. exists (e :: evs1), m, evs2. split; [done|]. split; [|done].
      eapply validCheckFingerprint_ext; [..|exact Hval]; congruence.
Qed.

(** X17. A session is verified only by a valid signature.  Whenever a
    session of an agent started from a configuration is marked verified,
    the events so far contain a CheckFingerprint message on that session
    whose signature verifies, under the hub key, over the agent's trimmed
    token, and the session has not been closed since. *)
Theorem verified_session_history (c : Config) (evs : list Event) (a : Agent)
    (k : string) (dc : deviceClient) :
  run (NewAgent c) evs = Some a ->
  conns a !! k = Some dc ->
  hubVerified dc = true ->
  exists evs1 message evs2,
    evs = evs1 ++ EvMessage k message :: evs2
    /\ validCheckFingerprint (NewAgent c) message
    /\ ~ In (EvClose k) evs2.
Proof.
  intros Hr Hk Hv.
  destruct (verified_history_from _ _ _ _ _ Hr Hk Hv) as [[(dc0 & H0 & _) _]|H]; [|exact H].
  cbn in H0. by rewrite lookup_empty in H0.
Qed.

(** Every step keeps the keys of the registry. *)
Lemma step_registry_keys (a a' : Agent) (e : Event) (out : list Output) (k : string) :
  step a e = Some (a', out) -> is_Some (devices a !! k) -> is_Some (devices a' !! k).
Proof.
  intros Hs [p Hp].
  destruct (match e with EvEnsureDevice _ _ => true | _ => false end) eqn:He.
  - destruct e; try done. cbn [step] in Hs. injection Hs as <- _. unfold EnsureDevice.
    destruct (ParseIP ipText) as [nip|]; [|eauto].
    match goal with
    | |- is_Some (devices (Notify (ensurePolling ?b nip) nip) !! k) =>
        destruct (Notify_fields (ensurePolling b nip) nip) as (_&_&_&_&_&->);
        destruct (ensurePolling_fields b nip) as (_&_&_&_&_&->&_)
    end.
    cbn [registry_set devices]. rewrite lookup_insert. case_decide; eauto.
  - exists p. eapply step_registry; [exact Hs| |exact Hp]. by intros ipText host ->.
Qed.

(** What holds of every session of a running agent. *)
Definition sessionsSound (a : Agent) : Prop :=
  forall k dc, conns a !! k = Some dc ->
    IP_String (dcIP dc) = k
    /\ is_Some (devices a !! k)
    /\ (hubVerified dc = true -> is_Some (Conn dc))
    /\ (is_Some (Conn dc) -> hubConfigured a = true).

Lemma step_sessionsSound (a a' : Agent) (e : Event) (out : list Output) :
  sessionsSound a -> step a e = Some (a', out) -> sessionsSound a'.
Proof.
  intros Hinv Hs k dc' Hk.
  rewrite (hubConfigured_grows _ _ (step_grows _ _ _ _ Hs)).
  assert (Hold : forall dc, conns a !! k = Some dc ->
            IP_String (dcIP dc) = k /\ is_Some (devices a' !! k)
            /\ (hubVerified dc = true -> is_Some (Conn dc))
            /\ (is_Some (Conn dc) -> hubConfigured a = true)).
  { intros dc Hdc. destruct (Hinv k dc Hdc) as (H1 & H2 & H3 & H4).
    repeat split; try done. by eapply step_registry_keys. }
  destruct (step_session_change _ _ _ _ _ _ Hs Hk)
    as [Hu|addr p _ -> Hp ->|d cn Hd -> -> Hg|d m Hd -> -> Hcn _|d Hd -> ->].
  - by apply Hold.
  - cbn. repeat split; [eauto|done|]. by intros [? [=]].
  - destruct (Hold d Hd) as (H1 & H2 & _ & _). cbn. repeat split; eauto.
  - destruct (Hold d Hd) as (H1 & H2 & _ & H4). cbn. repeat split; eauto.
  - destruct (Hold d Hd) as (H1 & H2 & _ & H4). cbn. repeat split; eauto. done.
Qed.

Lemma run_sessionsSound (evs : list Event) (a a' : Agent) :
  sessionsSound a -> run a evs = Some a' -> sessionsSound a'.
Proof.
  revert a. induction evs as [|e evs IH]; intros a Hinv; cbn [run].
  - by intros [= <-].
  - destruct (step a e) as [[a1 out]|] eqn:Hs; [|done].
    apply IH. by eapply step_sessionsSound.
Qed.

(** X18. What every session of a running agent satisfies: it is filed
    under the text of its own address, that address is registered, it is
    verified only while it has a connection, and it has a connection only
    if the hub URL parsed and the trimmed token and the hub key are there
    (the guard of [connect]). *)
Theorem session_invariants (c : Config) (evs : list Event) (a : Agent)
    (k : string) (dc : deviceClient) :
  run (NewAgent c) evs = Some a ->
  conns a !! k = Some dc ->
  IP_String (dcIP dc) = k
  /\ is_Some (devices a !! k)
  /\ (hubVerified dc = true -> is_Some (Conn dc))
  /\ (is_Some (Conn dc) ->
      url_Parse (URL (Hub c)) = true
      /\ TrimSpace (Token (Hub c)) <> ""%string
      /\ TrimSpace (Key (Hub c)) <> ""%string
      /\ is_Some (ParseAuthorizedKey (list_byte_of_string (Key (Hub c))))).
Proof.
  intros Hr Hk.
  assert (H0 : sessionsSound (NewAgent c)).
  { intros k0 dc0. cbn. by rewrite lookup_empty. }
  destruct (run_sessionsSound _ _ _ H0 Hr k dc Hk) as (H1 & H2 & H3 & H4).
  split; [done|]. split; [done|]. split; [done|].
  intros Hc. specialize (H4 Hc).
  rewrite (hubConfigured_grows _ _ (run_grows _ _ _ Hr)) in H4.
  unfold hubConfigured in H4. cbn [NewAgent urlOK token pubKey] in H4.
  unfold nonempty in H4.
  apply andb_prop in H4 as [H4 Hkey]. apply andb_prop in H4 as [Hurl Htok].
  split; [|split; [|split]].
  - exact Hurl.
  - intros E. rewrite E in Htok. done.
  - intros E. rewrite E in Hkey. done.
  - destruct (negb (String.eqb (TrimSpace (Key (Hub c))) "")); [|done].
    destruct (ParseAuthorizedKey _); [eauto|done].
Qed.

Lemma run_session_registered (evs : list Event) (a0 a : Agent) :
  (forall ipText host, ~ In (EvEnsureDevice ipText host) evs) ->
  (forall k dc, conns a0 !! k = Some dc -> devices a0 !! k = Some (dsRef dc)) ->
  run a0 evs = Some a ->
  forall k dc, conns a !! k = Some dc -> devices a !! k = Some (dsRef dc).
Proof.
  revert a0. induction evs as [|e evs IH]; intros a0 Hno Hinv; cbn [run].
  - by intros [= <-].
  - destruct (step a0 e) as [[a1 out]|] eqn:Hs; [|done].
    apply IH.
    + intros ipText host Hin. apply (Hno ipText host). by right.
    + intros k dc' Hk.
      assert (Hne : forall ipText host, e <> EvEnsureDevice ipText host).
      { intros ipText host ->. apply (Hno ipText host). by left. }
      assert (Hold : forall dc, conns a0 !! k = Some dc -> devices a1 !! k = Some (dsRef dc)).
      { intros dc Hdc. eapply step_registry; eauto. }
      destruct (step_session_change _ _ _ _ _ _ Hs Hk)
        as [Hu|addr p _ -> Hp ->|d cn Hd -> -> Hg|d m Hd -> -> Hcn _|d Hd -> ->];
        [by apply Hold|exact Hp|exact (Hold d Hd)..].
Qed.

(** X19. Without [EnsureDevice], a session reads the registered state: the
    state a session reports from is the one the registry holds for the
    session's address, the one traps and polls of that address update. *)
Theorem session_reads_registered_state (c : Config) (evs : list Event) (a : Agent)
    (k : string) (dc : deviceClient) :
  (forall ipText host, ~ In (EvEnsureDevice ipText host) evs) ->
  run (NewAgent c) evs = Some a ->
  conns a !! k = Some dc ->
  devices a !! k = Some (dsRef dc) /\ stateOf a k = store a !! dsRef dc.
Proof.
  intros Hno Hr Hk.
  assert (Hd : devices a !! k = Some (dsRef dc)).
  { eapply run_session_registered; [exact Hno| |exact Hr|exact Hk].
    intros k0 dc0. cbn. by rewrite lookup_empty. }
  split; [done|]. unfold stateOf. by rewrite Hd.
Qed.

Lemma run_session_kept (evs : list Event) (a a' : Agent) (k : string) (dc : deviceClient) :
  run a evs = Some a' -> conns a !! k = Some dc ->
  exists dc', conns a' !! k = Some dc' /\ dsRef dc' = dsRef dc /\ dcIP dc' = dcIP dc
              /\ (is_Some (Conn dc) -> is_Some (Conn dc')).
Proof.
  revert a dc. induction evs as [|e evs IH]; intros a dc; cbn [run].
  - intros [= <-] Hk. by exists dc.
  - destruct (step a e) as [[a1 out]|] eqn:Hs; [|done].
    intros Hr Hk.
    destruct (step_session_kept _ _ _ _ _ _ Hs Hk) as (dc1 & Hk1 & E1 & E2 & E3).
    destruct (IH a1 dc1 Hr Hk1) as (dc2 & Hk2 & F1 & F2 & F3).
    exists dc2. repeat split; [done|congruence..|auto].
Qed.

(** X20. Nothing is ever removed.  Over every run, a registered address
    stays registered, and a session stays in the session map with the
    address and the device state it was created with and, once it has a
    connection, with a connection. *)
Theorem sessions_and_registrations_persist (evs : list Event) (a a' : Agent) (k : string) :
  run a evs = Some a' ->
  (is_Some (devices a !! k) -> is_Some (devices a' !! k))
  /\ (forall dc, conns a !! k = Some dc ->
        exists dc', conns a' !! k = Some dc' /\ dsRef dc' = dsRef dc /\ dcIP dc' = dcIP dc
                    /\ (is_Some (Conn dc) -> is_Some (Conn dc'))).
Proof.
  intros Hr. split.
  - revert a Hr. induction evs as [|e evs IH]; intros a; cbn [run].
    + by intros [= <-].
    + destruct (step a e) as [[a1 out]|] eqn:Hs; [|done].
      intros Hr Hk. apply (IH a1 Hr). by eapply step_registry_keys.
  - intros dc. by apply (run_session_kept evs).
Qed.

(** X21. A closed session must be verified again.  [OnClose] clears the
    verified flag and schedules a reconnect in five seconds; until the hub
    has passed CheckFingerprint again, a GetData on the session writes
    nothing and changes nothing. *)
Theorem close_requires_reverification (a : Agent) (k : string) (dc : deviceClient) :
  conns a !! k = Some dc ->
  exists a1,
    step a (EvClose k) = Some (a1, [])
    /\ conns a1 !! k = Some (with_verified dc false)
    /\ tasks a1 = tasks a ++ [ConnectTask (IP_String (dcIP dc)) 5]
    /\ forall message req,
         requestOf message = Some req ->
         common.Action req = common.GetData ->
         step a1 (EvMessage k message) = Some (a1, []).
Proof.
  intros Hk.
  set (a1 := spawn (with_conns a (<[k := with_verified dc false]> (conns a)))
               (ConnectTask (IP_String (dcIP dc)) 5)).
  assert (Hk1 : conns a1 !! k = Some (with_verified dc false)).
  { subst a1. cbn. by rewrite lookup_insert_eq. }
  exists a1. split; [|split; [exact Hk1|split]].
  - cbn [step]. by rewrite Hk.
  - reflexivity.
  - intros message req Hreq Hact.
    cbn [step]. rewrite Hk1, (OnMessage_request _ _ _ _ Hreq), Hact.
    change (common.GetData =? common.CheckFingerprint) with false.
    change (common.GetData =? common.GetData) with true. cbv iota.
    unfold send. cbn [with_verified Conn hubVerified negb].
    destruct (Conn dc); cbn [outputs map]; by rewrite (with_conns_id _ _ _ Hk1).
Qed.

(** X22. Messages outside the protocol are ignored.  A message that is not
    binary or does not decode as a hub request, a request whose action is
    neither CheckFingerprint nor GetData, and a CheckFingerprint whose
    payload does not decode leave the agent as it is and write nothing. *)
Theorem malformed_message_ignored (a : Agent) (k : string) (message : Message) :
  requestOf message = None
  \/ (exists req, requestOf message = Some req
        /\ ((common.Action req <> common.CheckFingerprint
             /\ common.Action req <> common.GetData)
            \/ (common.Action req = common.CheckFingerprint
                /\ UnmarshalFingerprintRequest (common.Data req) = None))) ->
  step a (EvMessage k message) = Some (a, []).
Proof.
  intros Hm. cbn [step]. destruct (conns a !! k) as [dc|] eqn:Hk; [|done].
  assert (Hom : OnMessage a dc message = Some (dc, [])).
  { unfold requestOf in Hm. unfold OnMessage.
    destruct (MsgOpcode message); try done.
    destruct (DecodeHubRequest (MsgData message)) as [req|].
    - destruct Hm as [[=]|(r & [= <-] & [[H1 H2]|[H1 H2]])].
      + apply Z.eqb_neq in H1, H2. by rewrite H1, H2.
      + by rewrite H1, H2.
    - done. }
  rewrite Hom. cbn [outputs map]. by rewrite (with_conns_id _ _ _ Hk).
Qed.

Lemma OnMessage_fingerprint (a : Agent) (dc dc' : deviceClient) (message : Message)
    (ws : Writes) (cn : nat) (r : common.FingerprintResponse) :
  OnMessage a dc message = Some (dc', ws) ->
  In (cn, FingerprintFrame r) ws ->
  validCheckFingerprint a message
  /\ Conn dc = Some cn
  /\ ws = [(cn, FingerprintFrame r)]
  /\ exists ds, store a !! dsRef dc = Some ds
                /\ common.Fingerprint r = finger ds
                /\ (common.Hostname r = hostname ds \/ common.Hostname r = ""%string).
Proof.
  unfold validCheckFingerprint, requestOf, OnMessage.
  destruct (MsgOpcode message); try (intros [= <- <-]; intros []).
  destruct (DecodeHubRequest (MsgData message)) as [req|]; [|intros [= <- <-]; intros []].
  destruct (Z.eqb_spec (common.Action req) common.CheckFingerprint) as [Hcf|Hncf].
  - destruct (UnmarshalFingerprintRequest (common.Data req)) as [fr|] eqn:Hfr;
      [|intros [= <- <-]; intros []].
    unfold verifySignature. destruct (pubKey a) as [pk|] eqn:Hpk; [|done].
    destruct (Verify pk _ _) eqn:Hv; [|intros [= <- <-]; intros []].
    destruct (store a !! dsRef dc) as [ds|]; [|done].
    unfold sendMessage. cbn [with_verified Conn].
    destruct (Conn dc) as [c0|]; [|done]. intros [= <- <-]. intros [[= <- <-]|[]].
    split; [by exists req, fr, pk|]. repeat split. exists ds. cbn.
    split; [done|]. split; [done|]. destruct (common.NeedSysInfo fr); auto.
  - destruct (common.Action req =? common.GetData); [|intros [= <- <-]; intros []].
    destruct (send a dc) as [ws'|] eqn:Hsend; [|done].
    intros [= <- <-] Hin.
    apply send_writes in Hsend as [->|(c' & ds & _ & _ & _ & _ & ->)]; [destruct Hin|].
    by destruct Hin as [[=]|[]].
Qed.

Lemma OnMessage_writes (a : Agent) (dc dc' : deviceClient) (message : Message) (ws : Writes) :
  OnMessage a dc message = Some (dc', ws) ->
  ws = []
  \/ (exists cn r, ws = [(cn, FingerprintFrame r)])
  \/ (exists cn cd, ws = [(cn, CombinedDataFrame cd)]).
Proof.
  unfold OnMessage.
  destruct (MsgOpcode message); try (intros [= <- <-]; by left).
  destruct (DecodeHubRequest (MsgData message)) as [req|]; [|intros [= <- <-]; by left].
  destruct (common.Action req =? common.CheckFingerprint).
  - destruct (UnmarshalFingerprintRequest (common.Data req)) as [fr|];
      [|intros [= <- <-]; by left].
    destruct (verifySignature a dc (common.Signature fr)) as [[]|];
      [|intros [= <- <-]; by left|done].
    destruct (store a !! dsRef dc) as [ds|]; [|done].
    unfold sendMessage. cbn [with_verified Conn].
    destruct (Conn dc); [|done]. intros [= <- <-]. right; left. eauto.
  - destruct (common.Action req =? common.GetData); [|intros [= <- <-]; by left].
    destruct (send a dc) as [ws'|] eqn:Hsend; [|done].
    intros [= <- <-].
    apply send_writes in Hsend as [->|(c' & ds & _ & _ & _ & _ & ->)]; [by left|].
    right; right. eauto.
Qed.

(** The frames one step writes, other than snapshots. *)
Lemma step_frames (a a' : Agent) (e : Event) (out : list Output) (o : Output) :
  step a e = Some (a', out) ->
  In o out ->
  out = [o]
  /\ exists dc, conns a !! session o = Some dc
     /\ match frame o with
        | FingerprintFrame r =>
            (exists message, e = EvMessage (session o) message
                             /\ validCheckFingerprint a message)
            /\ Conn dc = Some (conn o)
            /\ exists ds, store a !! dsRef dc = Some ds
                          /\ common.Fingerprint r = finger ds
                          /\ (common.Hostname r = hostname ds
                              \/ common.Hostname r = ""%string)
        | CombinedDataFrame cd =>
            (exists message, e = EvMessage (session o) message)
            /\ Conn dc = Some (conn o)
        | PongFrame payload => e = EvPing (session o) (conn o) payload
        | CloseFrame code =>
            code = 1000 /\ Conn dc = Some (conn o)
            /\ hubConfigured a = true
            /\ exists dial, e = EvConnect (session o) dial
        end.
Proof.
  intros Hs Hin. destruct e; cbn [step] in Hs.
  - injection Hs as <- <-. destruct Hin.
  - destruct (tasks a !! task) as [[addr iv rule|]|];
      [destruct (Devices (cfg a) !! rule)| |]; injection Hs as <- <-; destruct Hin.
  - injection Hs as <- <-. destruct Hin.
  - injection Hs as <- <-. destruct Hin.
  - injection Hs as <- <-. destruct Hin.
  - destruct (conns a !! key) as [dc|] eqn:Hk; [|injection Hs as <- <-; destruct Hin].
    destruct (connect a dc dial) as [[dc' ws] ts] eqn:Hc. injection Hs as <- <-.
    unfold connect, hubConfigured in *.
    destruct (urlOK a), (nonempty (token a)), (pubKey a); cbn [negb orb andb] in Hc;
      try (injection Hc as <- <- <-; destruct Hin).
    destruct (Conn dc) as [c0|] eqn:Hcn.
    + assert (ws = [(c0, CloseFrame 1000)]) as -> by (destruct dial; by injection Hc as _ <- _).
      destruct Hin as [<-|[]]. split; [done|]. exists dc. cbn. eauto 10.
    + assert (ws = []) as -> by (destruct dial; by injection Hc as _ <- _). destruct Hin.
  - destruct (conns a !! key) as [dc|] eqn:Hk; [|injection Hs as <- <-; destruct Hin].
    destruct (OnMessage a dc message) as [[dc' ws]|] eqn:Hm; [|done].
    injection Hs as <- <-.
    pose proof Hin as Hin'. apply outputs_elem in Hin' as [Hkey Hin']. subst key.
    destruct o as [so co fo]. cbn [session conn frame] in *.
    destruct (OnMessage_writes _ _ _ _ _ Hm) as [->|[(cn & r & ->)|(cn & cd & ->)]];
      [destruct Hin'| |]; destruct Hin' as [[= <- <-]|[]]; (split; [done|]); exists dc;
      (split; [done|]).
    + destruct (OnMessage_fingerprint _ _ _ _ _ _ _ Hm (or_introl eq_refl))
        as (Hv & Hc & _ & ds & Hds).
      eauto 10.
    + destruct (OnMessage_data _ _ _ _ _ _ _ Hm (or_introl eq_refl)) as (_ & _ & Hv & Hc).
      eauto.
  - destruct (conns a !! key) as [dc|] eqn:Hk; injection Hs as <- <-; [|destruct Hin].
    cbn in Hin. destruct Hin as [<-|[]]. cbn. split; [done|]. by exists dc.
  - destruct (conns a !! key) as [dc|]; [|injection Hs as <- <-; destruct Hin].
    cbn in Hs. injection Hs as <- <-. destruct Hin.
Qed.

End SessionInvariants.

(** ** What the agent writes, and the tasks it starts *)

Section Replies.

Context {rt : GoRuntime}.

(** What a frame written while handling event [e] from agent [a] answers. *)
Definition replyTo (a : Agent) (e : Event) (o : Output) : Prop :=
  exists dc, conns a !! session o = Some dc
    /\ match frame o with
       | FingerprintFrame r =>
           (exists message, e = EvMessage (session o) message
                            /\ validCheckFingerprint a message)
           /\ Conn dc = Some (conn o)
           /\ exists ds, store a !! dsRef dc = Some ds
                         /\ common.Fingerprint r = finger ds
                         /\ (common.Hostname r = hostname ds
                             \/ common.Hostname r = ""%string)
       | CombinedDataFrame cd =>
           (exists message, e = EvMessage (session o) message)
           /\ Conn dc = Some (conn o)
       | PongFrame payload => e = EvPing (session o) (conn o) payload
       | CloseFrame code =>
           code = 1000 /\ Conn dc = Some (conn o)
           /\ hubConfigured a = true
           /\ exists dial, e = EvConnect (session o) dial
       end.

Lemma step_replies (a a' : Agent) (e : Event) (out : list Output) (o : Output) :
  step a e = Some (a', out) -> In o out -> out = [o] /\ replyTo a e o.
Proof. apply step_frames. Qed.

(** X23. Every frame is a reply.  Handling one event makes the agent write
    at most one frame, on a session that exists.  A fingerprint response
    answers a CheckFingerprint with a valid signature on that session, on
    the session's connection, with the fingerprint of the session's state
    and its hostname or none; a snapshot answers a message on that session;
    a pong answers a ping with the same payload on the same connection; a
    close frame has code 1000 and is written by [connect] on the connection
    the session had, when the hub is configured. *)
Theorem every_frame_is_a_reply (a : Agent) (evs : list Event) (i : nat) (mo : Moment)
    (o : Output) :
  exec a evs !! i = Some mo ->
  In o (written mo) ->
  written mo = [o] /\ replyTo (before mo) (event mo) o.
Proof.
  intros Hi Hin. apply exec_moment in Hi as [a' Hs]. by eapply step_replies.
Qed.

Lemma fingerprint_replies_ordered (a : Agent) (evs : list Event) (i j : nat)
    (mi mj : Moment) (oi oj : Output) (ri rj : common.FingerprintResponse) :
  (i <= j)%nat ->
  exec a evs !! i = Some mi -> exec a evs !! j = Some mj ->
  In oi (written mi) -> In oj (written mj) ->
  frame oi = FingerprintFrame ri -> frame oj = FingerprintFrame rj ->
  session oi = session oj ->
  common.Fingerprint ri = common.Fingerprint rj.
Proof.
  intros Hij Hi Hj Hini Hinj Hfi Hfj Hses.
  destruct (exec_between _ _ _ _ _ _ Hij Hi Hj) as [evs' Hr].
  apply exec_moment in Hi as [ai Hsi]. apply exec_moment in Hj as [aj Hsj].
  destruct (step_replies _ _ _ _ _ Hsi Hini) as (_ & dci & Hki & Hri).
  rewrite Hfi in Hri. destruct Hri as (_ & _ & dsi & Hdsi & Efi & _).
  destruct (step_replies _ _ _ _ _ Hsj Hinj) as (_ & dcj & Hkj & Hrj).
  rewrite Hfj in Hrj. destruct Hrj as (_ & _ & dsj & Hdsj & Efj & _).
  destruct (run_session_kept _ _ _ _ _ Hr Hki) as (dc' & Hk' & Eref & _).
  rewrite Hses, Hkj in Hk'. injection Hk' as <-.
  destruct (run_grows _ _ _ Hr) as (_&_&_&_&_&Hst).
  destruct (Hst _ _ Hdsi) as (ds' & Hds' & Ef & _).
  rewrite <- Eref, Hdsj in Hds'. injection Hds' as <-. congruence.
Qed.

(** X24. One session, one fingerprint.  All fingerprint responses written
    on one session during an execution carry the same fingerprint, also
    when [EnsureDevice] has registered another state for the address in
    between: the session keeps the state it was created with. *)
Theorem fingerprint_replies_agree (a : Agent) (evs : list Event) (i j : nat)
    (mi mj : Moment) (oi oj : Output) (ri rj : common.FingerprintResponse) :
  exec a evs !! i = Some mi -> exec a evs !! j = Some mj ->
  In oi (written mi) -> In oj (written mj) ->
  frame oi = FingerprintFrame ri -> frame oj = FingerprintFrame rj ->
  session oi = session oj ->
  common.Fingerprint ri = common.Fingerprint rj.
Proof.
  intros Hi Hj Hini Hinj Hfi Hfj Hses.
  destruct (Nat.le_ge_cases i j) as [Hij|Hji].
  - by eapply (fingerprint_replies_ordered a evs i j).
  - symmetry. by eapply (fingerprint_replies_ordered a evs j i).
Qed.

End Replies.

Section Tasks.

Context {rt : GoRuntime}.

(** Rule number [rule] is the first poll-enabled rule of the configuration
    that matches the address, and [iv] is its poll interval. *)
Definition firstPollRule (c : Config) (addr : list byte) (iv : Z) (rule : nat) : Prop :=
  exists d, Devices c !! rule = Some d
    /\ Poll d = true /\ regexMatches d (IP_String addr) = true
    /\ iv = DevPollIntervalSec d
    /\ forall m d', (m < rule)%nat -> Devices c !! m = Some d' ->
         Poll d' && regexMatches d' (IP_String addr) = false.

(** Why a task is among the started ones. *)
Definition justified (c : Config) (cs : gmap string deviceClient) (t : Task) : Prop :=
  match t with
  | PollLoop addr iv rule => firstPollRule c addr iv rule
  | ConnectTask key delay => is_Some (cs !! key) /\ (delay = 0 \/ delay = 5)
  end.

Definition tasksJustified (a : Agent) : Prop :=
  Forall (justified (cfg a) (conns a)) (tasks a).

Lemma findPollRule_first (ds : list DeviceConfig) (i : nat) (ipStr : string)
    (j : nat) (d : DeviceConfig) :
  findPollRule ds i ipStr = Some (j, d) ->
  exists n, j = (i + n)%nat /\ ds !! n = Some d
    /\ Poll d = true /\ regexMatches d ipStr = true
    /\ forall m d', (m < n)%nat -> ds !! m = Some d' ->
         Poll d' && regexMatches d' ipStr = false.
Proof.
  revert i. induction ds as [|d0 ds IH]; intros i; cbn [findPollRule]; [done|].
  destruct (Poll d0 && regexMatches d0 ipStr) eqn:Hm.
  - intros [= <- <-]. exists 0%nat. apply andb_prop in Hm as [Hp Hr].
    split; [lia|]. do 3 (split; [done|]). intros m d' Hlt. lia.
  - intros Hf. destruct (IH _ Hf) as (n & -> & Hn & Hp & Hr & Hbefore).
    exists (S n). split; [lia|]. do 3 (split; [done|]).
    intros [|m] d' Hlt; cbn.
    + by intros [= <-].
    + apply Hbefore. lia.
Qed.

Lemma pollLoopFor_justified (b : Agent) (addr : list byte) (cs : gmap string deviceClient) :
  Forall (justified (cfg b) cs) (pollLoopFor b addr).
Proof.
  unfold pollLoopFor.
  destruct (findPollRule (Devices (cfg b)) 0 (IP_String addr)) as [[j d]|] eqn:Hf;
    [|constructor].
  constructor; [|constructor]. cbn.
  destruct (findPollRule_first _ _ _ _ _ Hf) as (n & -> & Hn & Hp & Hr & Hb).
  exists d. cbn. done.
Qed.

Lemma justified_mono (c : Config) (cs cs' : gmap string deviceClient) (t : Task) :
  (forall k, is_Some (cs !! k) -> is_Some (cs' !! k)) ->
  justified c cs t -> justified c cs' t.
Proof. intros Hm. destruct t; cbn; [done|]. intros [H1 H2]. auto. Qed.

Lemma tasksJustified_ext (a a' : Agent) :
  cfg a' = cfg a -> conns a' = conns a -> tasks a' = tasks a ->
  tasksJustified a -> tasksJustified a'.
Proof. unfold tasksJustified. by intros -> -> ->. Qed.

Lemma tasksJustified_same (a a' : Agent) :
  sameButMetrics a a' -> tasksJustified a -> tasksJustified a'.
Proof. intros (H1&_&_&_&_&H6&H7&_). by apply tasksJustified_ext. Qed.

Lemma tasksJustified_Notify (b : Agent) (addr : list byte) :
  tasksJustified b -> tasksJustified (Notify b addr).
Proof.
  intros Hb. rewrite Notify_unfold.
  destruct (conns b !! IP_String addr) eqn:Hc; [done|].
  destruct (devices b !! IP_String addr) as [p|]; [|done].
  unfold tasksJustified. cbn [spawn with_conns cfg conns tasks].
  apply Forall_app. split.
  - eapply Forall_impl; [exact Hb|]. intros t. apply justified_mono.
    intros k Hk. rewrite lookup_insert. case_decide; eauto.
  - constructor; [|constructor]. cbn. rewrite lookup_insert_eq. eauto.
Qed.

Lemma tasksJustified_ensurePolling (b : Agent) (addr : list byte) :
  tasksJustified b -> tasksJustified (ensurePolling b addr).
Proof.
  intros Hb. unfold tasksJustified.
  destruct (ensurePolling_fields b addr) as (->&_&_&_&_&_&->&->).
  apply Forall_app. split; [exact Hb|apply pollLoopFor_justified].
Qed.

Lemma tasksJustified_registry_set (b : Agent) (addr : list byte) (ds : deviceState) :
  tasksJustified b -> tasksJustified (registry_set b addr ds).
Proof. by apply tasksJustified_ext. Qed.

Lemma tasksJustified_session (a : Agent) (key : string) (dc dc' : deviceClient) (ts : list Task) :
  conns a !! key = Some dc ->
  (forall t, In t ts -> t = ConnectTask key 5) ->
  tasksJustified a ->
  tasksJustified (fold_left spawn ts (with_conns a (<[key := dc']> (conns a)))).
Proof.
  intros Hk Hts Ha. unfold tasksJustified.
  destruct (fold_spawn_fields ts (with_conns a (<[key:=dc']> (conns a))))
    as (->&_&_&_&_&_&->&->).
  cbn [with_conns cfg conns tasks]. apply Forall_app. split.
  - eapply Forall_impl; [exact Ha|]. intros t. apply justified_mono.
    intros k Hk'. rewrite lookup_insert. case_decide; eauto.
  - apply Forall_forall. intros t Hin. apply list_elem_of_In in Hin.
    rewrite (Hts t Hin). cbn. rewrite lookup_insert_eq. eauto.
Qed.

Lemma step_tasksJustified (a a' : Agent) (e : Event) (out : list Output) :
  sessionsSound a -> tasksJustified a -> step a e = Some (a', out) -> tasksJustified a'.
Proof.
  intros Hsound Ha Hs. destruct e; cbn [step] in Hs.
  - injection Hs as <- _. unfold handle, materialize.
    destruct (registry_get a addr); apply tasksJustified_Notify;
      (eapply tasksJustified_same; [apply fold_same; intros b x; apply handleVar_same|]);
      [done|].
    by apply tasksJustified_ensurePolling, tasksJustified_registry_set.
  - destruct (tasks a !! task) as [[addr iv rule|]|];
      [destruct (Devices (cfg a) !! rule)| |]; injection Hs as <- _; try done.
    unfold pollOnce. destruct (connectOK peer); cbn [negb]; [|done].
    apply tasksJustified_Notify.
    eapply tasksJustified_same; [apply fold_same; intros b x; apply pollOID_same|done].
  - injection Hs as <- _. unfold EnsureDevice. destruct (ParseIP ipText); [|done].
    by apply tasksJustified_Notify, tasksJustified_ensurePolling,
      tasksJustified_registry_set.
  - injection Hs as <- _. by apply tasksJustified_Notify.
  - injection Hs as <- _. by apply tasksJustified_ensurePolling.
  - destruct (conns a !! key) as [dc|] eqn:Hk; [|by injection Hs as <- _].
    destruct (connect a dc dial) as [[dc' ws] ts] eqn:Hc. injection Hs as <- _.
    apply (tasksJustified_session a key dc dc' ts Hk); [|done].
    destruct (Hsound key dc Hk) as (Hkey & _).
    revert Hc. unfold connect. rewrite Hkey.
    destruct (negb (urlOK a) || negb (nonempty (token a))
              || match pubKey a with None => true | Some _ => false end);
      [intros [= _ _ <-]; intros t []|].
    destruct dial; intros [= _ _ <-]; intros t Hin; [destruct Hin|].
    by destruct Hin as [<-|[]].
  - destruct (conns a !! key) as [dc|] eqn:Hk; [|by injection Hs as <- _].
    destruct (OnMessage a dc message) as [[dc' ws]|]; [|done]. injection Hs as <- _.
    apply (tasksJustified_session a key dc dc' [] Hk); [|done]. intros t [].
  - destruct (conns a !! key); by injection Hs as <- _.
  - destruct (conns a !! key) as [dc|] eqn:Hk; [|by injection Hs as <- _].
    cbn in Hs. injection Hs as <- _.
    destruct (Hsound key dc Hk) as (Hkey & _). rewrite Hkey.
    apply (tasksJustified_session a key dc (with_verified dc false) [ConnectTask key 5] Hk);
      [|done].
    intros t [<-|[]]. done.
Qed.

(** X25. Every task the agent has started is accounted for.  A poll loop
    of a running agent runs for an address under the first poll-enabled
    rule of the configuration matching that address, at that rule's
    interval (so a poll tick always finds its rule); a scheduled connect
    names a session that exists, and is due at once or in five seconds. *)
Theorem tasks_are_justified (c : Config) (evs : list Event) (a : Agent) (i : nat) (t : Task) :
  run (NewAgent c) evs = Some a ->
  tasks a !! i = Some t ->
  match t with
  | PollLoop addr iv rule => firstPollRule c addr iv rule
  | ConnectTask key delay => is_Some (conns a !! key) /\ (delay = 0 \/ delay = 5)
  end.
Proof.
  intros Hr Hi.
  cut (sessionsSound a /\ tasksJustified a).
  { intros [_ Ht]. unfold tasksJustified in Ht.
    rewrite Forall_lookup in Ht. specialize (Ht i t Hi).
    destruct (run_grows _ _ _ Hr) as (Hc & _). by rewrite Hc in Ht. }
  clear Hi. revert Hr.
  assert (H0 : sessionsSound (NewAgent c) /\ tasksJustified (NewAgent c)).
  { split; [intros k dc; cbn; by rewrite lookup_empty|constructor]. }
  revert H0. generalize (NewAgent c) as a0.
  induction evs as [|e evs IH]; intros a0 [Hs0 Ht0]; cbn [run].
  - by intros [= <-].
  - destruct (step a0 e) as [[a1 out]|] eqn:Hs; [|done].
    apply IH. split; [by eapply step_sessionsSound|by eapply step_tasksJustified].
Qed.

End Tasks.

(** ** config.go and the command's main.go: building the configuration *)

(** What the loaders take from the operating system and from the packages
    [encoding/json], [regexp], [strconv] and [strings].  A decoded
    [DeviceConfig] has no compiled expression: the field [ipRegex] is
    tagged [json:"-"]. *)
Class ConfigSource := {
  (** [os.ReadFile] ([None] is an error) and [os.Getenv]. *)
  os_ReadFile : string -> option (list byte);
  os_Getenv : string -> string;
  (** [json.Unmarshal] into a [Config]: the decoded value, and whether
      [Defaults.Communities] is nil (the key is absent or null). *)
  json_Unmarshal : list byte -> option (Config * bool);
  json_Unmarshal_ipRegex : forall b c n,
    json_Unmarshal b = Some (c, n) -> Forall (fun d => ipRegex d = None) (Devices c);
  json_Unmarshal_nil : forall b c,
    json_Unmarshal b = Some (c, true) -> Communities (Defs c) = [];
  (** [json.Unmarshal] into a struct with the single field [Devices]. *)
  json_UnmarshalDevices : list byte -> option (list DeviceConfig);
  json_UnmarshalDevices_ipRegex : forall b ds,
    json_UnmarshalDevices b = Some ds -> Forall (fun d => ipRegex d = None) ds;
  (** [regexp.Compile]: does the expression compile. *)
  regexp_Compile : string -> bool;
  (** [strconv.Atoi], [strconv.ParseBool] ([None] is an error) and
      [strings.Split]. *)
  strconv_Atoi : string -> option Z;
  strconv_ParseBool : string -> option bool;
  strings_Split : string -> string -> list string
}.

Section Loading.

Context {rt : GoRuntime} {src : ConfigSource}.

(** The errors of the loaders, by the place that returns them. *)
Inductive LoadError :=
| ReadFailed
| InvalidConfig
| BadIPRegex (device : nat)
| MissingHubURL
| MissingHubToken
| MissingHubKey.

(** The defaults block of [LoadConfig]. *)
Definition fillDefaults (d : Defaults) (communitiesNil : bool) : Defaults :=
  {| SendIntervalSec := if SendIntervalSec d =? 0 then 10 else SendIntervalSec d;
     PollIntervalSec := if PollIntervalSec d =? 0 then 30 else PollIntervalSec d;
     ResolveMIBs := ResolveMIBs d;
     MIBPaths := MIBPaths d;
     Round1 := Round1 d;
     LogUnknown := LogUnknown d;
     Communities := if communitiesNil then ["public"%string] else Communities d;
     ListenAddr := if nonempty (ListenAddr d) then ListenAddr d else ":9162"%string |}.

(** The body of the loop over the devices; [None] when the expression does
    not compile. *)
Definition loadDevice (defs : Defaults) (d : DeviceConfig) : option DeviceConfig :=
  let interval :=
    if DevPollIntervalSec d =? 0 then PollIntervalSec defs else DevPollIntervalSec d in
  let communities :=
    match DevCommunities d with [] => Communities defs | _ => DevCommunities d end in
  let compiled :=
    if nonempty (IPRegex d) then
      if regexp_Compile (IPRegex d) then Some (Some (IPRegex d)) else None
    else Some (ipRegex d) in
  match compiled with
  | None => None
  | Some re =>
      Some {| IPRegex := IPRegex d; FingerprintTmpl := FingerprintTmpl d;
              HostnameTemplate := HostnameTemplate d; Poll := Poll d;
              DevPollIntervalSec := interval; DevCommunities := communities;
              Oids := Oids d; ipRegex := re |}
  end.

Fixpoint loadDevices (defs : Defaults) (i : nat) (ds : list DeviceConfig)
  : LoadError + list DeviceConfig :=
  match ds with
  | [] => inr []
  | d :: rest =>
      match loadDevice defs d with
      | None => inl (BadIPRegex i)
      | Some d' =>
          match loadDevices defs (S i) rest with
          | inl err => inl err
          | inr rest' => inr (d' :: rest')
          end
      end
  end.

(** [LoadConfig]. *)
Definition LoadConfig (path : string) : LoadError + Config :=
  match os_ReadFile path with
  | None => inl ReadFailed
  | Some b =>
      match json_Unmarshal b with
      | None => inl InvalidConfig
      | Some (c, communitiesNil) =>
          let defs := fillDefaults (Defs c) communitiesNil in
          match loadDevices defs 0 (Devices c) with
          | inl err => inl err
          | inr ds => inr {| Hub := Hub c; Defs := defs; Devices := ds |}
          end
      end
  end.

(** *** main.go of [snmp-hub-agent] *)

Definition loadDevicesConfig (path : string) : LoadError + list DeviceConfig :=
  match os_ReadFile path with
  | None => inl ReadFailed
  | Some b =>
      match json_UnmarshalDevices b with
      | None => inl InvalidConfig
      | Some ds => inr ds
      end
  end.

Definition getEnv (key defaultValue : string) : string :=
  let value := os_Getenv key in
  if nonempty value then value else defaultValue.

Definition getEnvInt (key : string) (defaultValue : Z) : Z :=
  let value := os_Getenv key in
  if nonempty value then
    match strconv_Atoi value with
    | Some intValue => intValue
    | None => defaultValue
    end
  else defaultValue.

Definition getEnvBool (key : string) (defaultValue : bool) : bool :=
  let value := os_Getenv key in
  if nonempty value then
    match strconv_ParseBool value with
    | Some boolValue => boolValue
    | None => defaultValue
    end
  else defaultValue.

Definition getEnvStringSlice (key : string) (defaultValue : list string) : list string :=
  let value := os_Getenv key in
  if nonempty value then strings_Split value "," else defaultValue.

Definition createConfigFromEnv (devices : list DeviceConfig) : LoadError + Config :=
  let hub := {| URL := getEnv "BESZEL_HUB_URL" "";
                Token := getEnv "BESZEL_HUB_TOKEN" "";
                Key := getEnv "BESZEL_HUB_KEY" "" |} in
  let defs :=
    {| SendIntervalSec := getEnvInt "BESZEL_SEND_INTERVAL_SEC" 10;
       PollIntervalSec := getEnvInt "BESZEL_POLL_INTERVAL_SEC" 30;
       ResolveMIBs := getEnvBool "BESZEL_RESOLVE_MIBS" false;
       MIBPaths := getEnvStringSlice "BESZEL_MIB_PATHS" ["/usr/share/snmp/mibs"%string];
       Round1 := getEnvBool "BESZEL_ROUND1" true;
       LogUnknown := getEnvBool "BESZEL_LOG_UNKNOWN" true;
       Communities := getEnvStringSlice "BESZEL_COMMUNITIES" ["public"%string];
       ListenAddr := getEnv "BESZEL_LISTEN_ADDR" ":9162" |} in
  if negb (nonempty (URL hub)) then inl MissingHubURL
  else if negb (nonempty (Token hub)) then inl MissingHubToken
  else if negb (nonempty (Key hub)) then inl MissingHubKey
  else inr {| Hub := hub; Defs := defs; Devices := devices |}.

(** *** Properties of [LoadConfig] *)

Lemma nonempty_true (s : string) : nonempty s = true <-> s <> ""%string.
Proof.
  unfold nonempty. destruct (String.eqb_spec s ""); cbn; split; congruence.
Qed.

Lemma nonempty_false (s : string) : nonempty s = false <-> s = ""%string.
Proof.
  unfold nonempty. destruct (String.eqb_spec s ""); cbn; split; congruence.
Qed.

(** What [loadDevice] makes of a decoded device. *)
Definition loadedFrom (defs : Defaults) (d0 d : DeviceConfig) : Prop :=
  IPRegex d = IPRegex d0 /\ FingerprintTmpl d = FingerprintTmpl d0
  /\ HostnameTemplate d = HostnameTemplate d0 /\ Poll d = Poll d0 /\ Oids d = Oids d0
  /\ DevPollIntervalSec d
     = (if DevPollIntervalSec d0 =? 0 then PollIntervalSec defs else DevPollIntervalSec d0)
  /\ DevCommunities d
     = (match DevCommunities d0 with [] => Communities defs | _ => DevCommunities d0 end)
  /\ (IPRegex d0 = ""%string -> ipRegex d = ipRegex d0)
  /\ (IPRegex d0 <> ""%string ->
      regexp_Compile (IPRegex d0) = true /\ ipRegex d = Some (IPRegex d0)).

Lemma loadDevice_Some (defs : Defaults) (d0 d : DeviceConfig) :
  loadDevice defs d0 = Some d -> loadedFrom defs d0 d.
Proof.
  unfold loadDevice, loadedFrom.
  destruct (nonempty (IPRegex d0)) eqn:Hn.
  - apply nonempty_true in Hn.
    destruct (regexp_Compile (IPRegex d0)) eqn:Hc; [|done].
    intros [= <-]. cbn. repeat split; try done.
  - apply nonempty_false in Hn. intros [= <-]. cbn. repeat split; try done.
Qed.

Lemma loadDevice_None (defs : Defaults) (d0 : DeviceConfig) :
  loadDevice defs d0 = None <->
  IPRegex d0 <> ""%string /\ regexp_Compile (IPRegex d0) = false.
Proof.
  unfold loadDevice. destruct (nonempty (IPRegex d0)) eqn:Hn.
  - apply nonempty_true in Hn. destruct (regexp_Compile (IPRegex d0)); split; try done.
    by intros [_ ?].
  - apply nonempty_false in Hn. split; [done|]. by intros [? _].
Qed.

Lemma loadDevices_inr (defs : Defaults) (i : nat) (ds0 ds : list DeviceConfig) :
  loadDevices defs i ds0 = inr ds -> Forall2 (loadedFrom defs) ds0 ds.
Proof.
  revert i ds. induction ds0 as [|d0 ds0 IH]; intros i ds; cbn [loadDevices].
  - intros [= <-]. constructor.
  - destruct (loadDevice defs d0) as [d|] eqn:Hd; [|done].
    destruct (loadDevices defs (S i) ds0) as [err|rest] eqn:Hr; [done|].
    intros [= <-]. constructor; [by apply loadDevice_Some|by eapply IH].
Qed.

Lemma loadDevices_inl (defs : Defaults) (i : nat) (ds0 : list DeviceConfig) (err : LoadError) :
  loadDevices defs i ds0 = inl err ->
  exists n d0, err = BadIPRegex (i + n) /\ ds0 !! n = Some d0
    /\ IPRegex d0 <> ""%string /\ regexp_Compile (IPRegex d0) = false
    /\ forall m d', (m < n)%nat -> ds0 !! m = Some d' ->
         IPRegex d' = ""%string \/ regexp_Compile (IPRegex d') = true.
Proof.
  revert i. induction ds0 as [|d0 ds0 IH]; intros i; cbn [loadDevices]; [done|].
  destruct (loadDevice defs d0) as [d|] eqn:Hd.
  - destruct (loadDevices defs (S i) ds0) as [err'|rest] eqn:Hr; [|done].
    intros [= <-]. destruct (IH _ Hr) as (n & dn & -> & Hn & Hne & Hc & Hbefore).
    exists (S n), dn. split; [f_equal; lia|]. do 3 (split; [done|]).
    intros [|m] d' Hlt; cbn.
    + intros [= <-]. apply loadDevice_Some in Hd as (_&_&_&_&_&_&_&_&Hre).
      destruct (String.eqb_spec (IPRegex d0) ""); [by left|right]. by apply Hre.
    + apply Hbefore. lia.
  - intros [= <-]. apply loadDevice_None in Hd as [Hne Hc].
    exists 0%nat, d0. split; [f_equal; lia|]. do 3 (split; [done|]).
    intros m d' Hlt. lia.
Qed.

Lemma loadDevices_total (defs : Defaults) (i : nat) (ds0 : list DeviceConfig) :
  Forall (fun d => IPRegex d = ""%string \/ regexp_Compile (IPRegex d) = true) ds0 ->
  exists ds, loadDevices defs i ds0 = inr ds.
Proof.
  intros Hall. destruct (loadDevices defs i ds0) as [err|ds] eqn:Hl; [|eauto].
  destruct (loadDevices_inl _ _ _ _ Hl) as (n & d0 & _ & Hn & Hne & Hc & _).
  rewrite Forall_lookup in Hall. destruct (Hall n d0 Hn) as [?|?]; congruence.
Qed.

Lemma LoadConfig_inr (path : string) (c : Config) :
  LoadConfig path = inr c ->
  exists b raw communitiesNil,
    os_ReadFile path = Some b
    /\ json_Unmarshal b = Some (raw, communitiesNil)
    /\ Hub c = Hub raw
    /\ Defs c = fillDefaults (Defs raw) communitiesNil
    /\ Forall2 (loadedFrom (Defs c)) (Devices raw) (Devices c).
Proof.
  unfold LoadConfig.
  destruct (os_ReadFile path) as [b|] eqn:Hb; [|done].
  destruct (json_Unmarshal b) as [[raw n]|] eqn:Hu; [|done].
  destruct (loadDevices (fillDefaults (Defs raw) n) 0 (Devices raw)) as [err|ds] eqn:Hl;
    [done|].
  intros [= <-]. exists b, raw, n. cbn [Hub Defs Devices].
  do 4 (split; [done|]). by eapply loadDevices_inr.
Qed.

(** After loading, the compiled expression is there exactly when the text
    is not empty. *)
Lemma loaded_compiled (defs : Defaults) (ds0 ds : list DeviceConfig) :
  Forall2 (loadedFrom defs) ds0 ds ->
  Forall (fun d => ipRegex d = None) ds0 ->
  Forall (fun d => ipRegex d = if nonempty (IPRegex d) then Some (IPRegex d) else None) ds.
Proof.
  induction 1 as [|d0 d ds0 ds Hd Hl IH]; intros Hnil; constructor.
  - apply Forall_cons in Hnil as [H0 _].
    destruct Hd as (Hre&_&_&_&_&_&_&Hempty&Hcomp).
    rewrite Hre. destruct (nonempty (IPRegex d0)) eqn:E.
    + apply nonempty_true in E. by apply Hcomp.
    + apply nonempty_false in E. by rewrite (Hempty E).
  - apply IH. by apply Forall_cons in Hnil as [_ ?].
Qed.

(** X26. What a loaded configuration guarantees.  When [LoadConfig]
    succeeds, the file was read and decoded; the hub block and every
    device's expression text, templates, poll flag and OID map are as
    decoded; send interval, poll interval and listen address are set
    (10, 30 and ":9162" where the file has none, the file's value
    otherwise), and the communities are "public" where the file has none;
    every device has a poll interval (its own or the default one) and the
    default communities where it names none; and a device's expression is
    compiled exactly when its text is not empty. *)
Theorem LoadConfig_result (path : string) (c : Config) :
  LoadConfig path = inr c ->
  exists b raw communitiesNil,
    os_ReadFile path = Some b
    /\ json_Unmarshal b = Some (raw, communitiesNil)
    /\ Hub c = Hub raw
    /\ Defs c = fillDefaults (Defs raw) communitiesNil
    /\ SendIntervalSec (Defs c) <> 0
    /\ PollIntervalSec (Defs c) <> 0
    /\ ListenAddr (Defs c) <> ""%string
    /\ (communitiesNil = true -> Communities (Defs c) = ["public"%string])
    /\ Forall2 (loadedFrom (Defs c)) (Devices raw) (Devices c)
    /\ Forall (fun d =>
                 DevPollIntervalSec d <> 0
                 /\ (DevCommunities d = [] -> Communities (Defs c) = [])
                 /\ ipRegex d = if nonempty (IPRegex d) then Some (IPRegex d) else None)
              (Devices c).
Proof.
  intros Hload.
  destruct (LoadConfig_inr _ _ Hload) as (b & raw & n & Hb & Hu & Hhub & Hdefs & Hl).
  exists b, raw, n.
  assert (Hsend : SendIntervalSec (Defs c) <> 0).
  { rewrite Hdefs. cbn. destruct (Z.eqb_spec (SendIntervalSec (Defs raw)) 0); [done|lia]. }
  assert (Hpoll : PollIntervalSec (Defs c) <> 0).
  { rewrite Hdefs. cbn. destruct (Z.eqb_spec (PollIntervalSec (Defs raw)) 0); [done|lia]. }
  assert (Hlisten : ListenAddr (Defs c) <> ""%string).
  { rewrite Hdefs. cbn.
    destruct (nonempty (ListenAddr (Defs raw))) eqn:E; [by apply nonempty_true|done]. }
  do 7 (split; [done|]).
  split; [intros ->; by rewrite Hdefs|].
  split; [exact Hl|].
  pose proof (loaded_compiled _ _ _ Hl (json_Unmarshal_ipRegex _ _ _ Hu)) as Hcomp.
  apply Forall_lookup. intros i d Hi.
  rewrite Forall_lookup in Hcomp. split; [|split; [|by eapply Hcomp]].
  - destruct (Forall2_lookup_r _ _ _ _ _ Hl Hi) as (d0 & _ & Hd).
    destruct Hd as (_&_&_&_&_&Hiv&_). rewrite Hiv.
    destruct (Z.eqb_spec (DevPollIntervalSec d0) 0); [exact Hpoll|done].
  - destruct (Forall2_lookup_r _ _ _ _ _ Hl Hi) as (d0 & _ & Hd).
    destruct Hd as (_&_&_&_&_&_&Hco&_). rewrite Hco. by destruct (DevCommunities d0).
Qed.

(** X27. When [LoadConfig] fails.  It fails with a read error exactly when
    the file cannot be read, with "invalid config" exactly when the bytes
    do not decode, and with "bad ip_regex for device i" exactly when device
    [i] is the first whose non-empty expression does not compile; in every
    other case it succeeds. *)
Theorem LoadConfig_errors (path : string) :
  (LoadConfig path = inl ReadFailed <-> os_ReadFile path = None)
  /\ (LoadConfig path = inl InvalidConfig <->
      exists b, os_ReadFile path = Some b /\ json_Unmarshal b = None)
  /\ (forall i, LoadConfig path = inl (BadIPRegex i) <->
        exists b raw n d,
          os_ReadFile path = Some b /\ json_Unmarshal b = Some (raw, n)
          /\ Devices raw !! i = Some d
          /\ IPRegex d <> ""%string /\ regexp_Compile (IPRegex d) = false
          /\ forall m d', (m < i)%nat -> Devices raw !! m = Some d' ->
               IPRegex d' = ""%string \/ regexp_Compile (IPRegex d') = true)
  /\ ((exists c, LoadConfig path = inr c) <->
      exists b raw n,
        os_ReadFile path = Some b /\ json_Unmarshal b = Some (raw, n)
        /\ Forall (fun d => IPRegex d = ""%string \/ regexp_Compile (IPRegex d) = true)
             (Devices raw)).
Proof.
  unfold LoadConfig.
  destruct (os_ReadFile path) as [b|] eqn:Hb.
  2:{ split; [done|]. split; [split; [done|by intros (?&?&?)]|].
      split; [intros i; split; [done|by intros (?&?&?&?&?&?)]|].
      split; [by intros [? ?]|by intros (?&?&?&?&?)]. }
  destruct (json_Unmarshal b) as [[raw n]|] eqn:Hu.
  2:{ split; [done|]. split; [split; [eauto|done]|].
      split; [intros i; split; [done|]|].
      - intros (?&?&?&?&[= <-]&?&?). congruence.
      - split; [by intros [? ?]|]. intros (?&?&?&[= <-]&?&?). congruence. }
  destruct (loadDevices (fillDefaults (Defs raw) n) 0 (Devices raw)) as [err|ds] eqn:Hl.
  - destruct (loadDevices_inl _ _ _ _ Hl) as (k & d0 & -> & Hk & Hne & Hc & Hbefore).
    cbn [Nat.add]. split; [done|]. split; [split; [done|]|].
    { intros (? & [= <-] & ?). congruence. }
    split.
    + intros i. split.
      * intros [= <-]. exists b, raw, n, d0. done.
      * intros (b' & raw' & n' & d & [= <-] & Hu' & Hi & Hne' & Hc' & Hbefore').
        rewrite Hu in Hu'. injection Hu' as <- <-.
        f_equal. f_equal. destruct (Nat.lt_trichotomy i k) as [Hlt|[->|Hgt]]; [|done|].
        -- destruct (Hbefore i d Hlt Hi); congruence.
        -- destruct (Hbefore' k d0 Hgt Hk); congruence.
    + split; [by intros [? ?]|].
      intros (b' & raw' & n' & [= <-] & Hu' & Hall).
      rewrite Hu in Hu'. injection Hu' as <- <-.
      rewrite Forall_lookup in Hall. destruct (Hall k d0 Hk); congruence.
  - split; [done|]. split; [split; [done|]|].
    { intros (? & [= <-] & ?). congruence. }
    split.
    + intros i. split; [done|].
      intros (b' & raw' & n' & d & [= <-] & Hu' & Hi & Hne' & Hc' & _).
      rewrite Hu in Hu'. injection Hu' as <- <-.
      apply loadDevices_inr in Hl.
      destruct (Forall2_lookup_l _ _ _ _ _ Hl Hi) as (d' & _ & Hd').
      destruct Hd' as (_&_&_&_&_&_&_&_&Hcomp). destruct (Hcomp Hne'). congruence.
    + split; [|eauto]. intros _. exists b, raw, n. do 2 (split; [done|]).
      apply loadDevices_inr in Hl. apply Forall_lookup. intros i d Hi.
      destruct (Forall2_lookup_l _ _ _ _ _ Hl Hi) as (d' & _ & Hd').
      destruct Hd' as (_&_&_&_&_&_&_&_&Hcomp).
      destruct (String.eqb_spec (IPRegex d) ""); [by left|right]. by apply Hcomp.
Qed.

(** X28. Matching under a loaded configuration.  With a configuration
    from [LoadConfig], [MatchDevice] returns the first rule whose
    expression text is empty or matches the address text: a rule without
    ip_regex matches every address. *)
Theorem LoadConfig_then_MatchDevice (path : string) (c : Config) (addr : list byte) :
  LoadConfig path = inr c ->
  MatchDevice c addr
  = List.find (fun d => negb (nonempty (IPRegex d))
                        || MatchString (IPRegex d) (IP_String addr))
      (Devices c).
Proof.
  intros Hload.
  destruct (LoadConfig_inr _ _ Hload) as (b & raw & n & _ & Hu & _ & _ & Hl).
  pose proof (loaded_compiled _ _ _ Hl (json_Unmarshal_ipRegex _ _ _ Hu)) as Hall.
  clear Hl Hload Hu. unfold MatchDevice. induction Hall as [|d ds Hd Hds IH]; [done|].
  cbn [List.find]. rewrite IH. unfold regexMatches. rewrite Hd.
  by destruct (nonempty (IPRegex d)).
Qed.

End Loading.

(** ** The configuration built by the command *)

Section EnvConfig.

Context {rt : GoRuntime} {src : ConfigSource}.

(** X29. The command's configuration never compiles ip_regex.
    [createConfigFromEnv] succeeds only if the three hub variables are set,
    and takes the devices as [loadDevicesConfig] decoded them: no
    expression is compiled and no device default is filled in.  So every
    rule matches every address, [MatchDevice] returns the first rule
    whatever the address, and polling picks the first poll-enabled rule. *)
Theorem env_config_matches_first_rule (path : string) (devices : list DeviceConfig)
    (c : Config) (addr : list byte) :
  loadDevicesConfig path = inr devices ->
  createConfigFromEnv devices = inr c ->
  (URL (Hub c) = os_Getenv "BESZEL_HUB_URL" /\ URL (Hub c) <> ""%string)
  /\ (Token (Hub c) = os_Getenv "BESZEL_HUB_TOKEN" /\ Token (Hub c) <> ""%string)
  /\ (Key (Hub c) = os_Getenv "BESZEL_HUB_KEY" /\ Key (Hub c) <> ""%string)
  /\ Devices c = devices
  /\ MatchDevice c addr = head devices
  /\ snd <$> findPollRule (Devices c) 0 (IP_String addr) = List.find Poll devices.
Proof.
  unfold loadDevicesConfig, createConfigFromEnv, getEnv.
  destruct (os_ReadFile path) as [b|]; [|done].
  destruct (json_UnmarshalDevices b) as [ds|] eqn:Hu; [|done].
  intros [= <-]. apply json_UnmarshalDevices_ipRegex in Hu.
  cbn [URL Token Key].
  destruct (nonempty (os_Getenv "BESZEL_HUB_URL")) eqn:Hurl; [rewrite Hurl|done].
  destruct (nonempty (os_Getenv "BESZEL_HUB_TOKEN")) eqn:Htok; [rewrite Htok|done].
  destruct (nonempty (os_Getenv "BESZEL_HUB_KEY")) eqn:Hkey; [rewrite Hkey|done].
  cbn [negb]. intros [= <-]. cbn [Hub URL Token Key Devices].
  apply nonempty_true in Hurl, Htok, Hkey.
  do 4 (split; [done|]).
  assert (Hall : forall d s, In d ds -> regexMatches d s = true).
  { intros d s Hin. rewrite Forall_forall in Hu. unfold regexMatches.
    rewrite (Hu d); [done|]. by apply list_elem_of_In. }
  split.
  - unfold MatchDevice. cbn [Devices]. destruct ds as [|d ds]; [done|].
    cbn [List.find head]. rewrite Hall; [done|by left].
  - generalize 0%nat as i. clear Hu.
    induction ds as [|d ds IH]; intros i; cbn [findPollRule List.find]; [done|].
    rewrite (Hall d); [|by left]. rewrite andb_true_r.
    destruct (Poll d); [done|].
    apply IH. intros d' s Hin. apply Hall. by right.
Qed.

End EnvConfig.

(** ** poller.go: what a poll stores *)

Section Polls.

Context {rt : GoRuntime}.

(** The state at [p] holds [val] for sensor [name] of category [cat]. *)
Definition holds (b : Agent) (p : nat) (cat : category) (name : string) (val : float) : Prop :=
  exists ds, store b !! p = Some ds /\ metricsOf ds cat !! name = Some val.

Lemma storeMetric_other (ds : deviceState) (c : option category) (n : string) (v : float)
    (cat : category) (name : string) :
  c <> Some cat \/ n <> name ->
  metricsOf (storeMetric ds c n v) cat !! name = metricsOf ds cat !! name.
Proof.
  intros H. destruct c as [[]|], cat; cbn; try done;
    (destruct H as [H|H]; [congruence|]); by rewrite lookup_insert_ne.
Qed.

Lemma pollOID_keeps (peer : SnmpPeer) (addr : list byte) (b : Agent) (kv : string * OIDMap)
    (p : nat) (cat : category) (name : string) (val : float) :
  normalizeCategory (ToLower (Category kv.2)) <> Some cat \/ Name kv.2 <> name ->
  holds b p cat name val -> holds (pollOID peer addr b kv) p cat name val.
Proof.
  destruct kv as [oid' om']. cbn [snd]. intros Hne (ds & Hds & Hv). unfold pollOID.
  destruct (negb (shouldSend om')); [by exists ds|].
  destruct (Get peer oid') as [[|v vs]|]; try by exists ds.
  destruct (ToBigInt (PduValue v)); [|by exists ds].
  destruct (registry_get b addr) as [q|]; [|by exists ds].
  destruct (decide (q = p)) as [->|Hq].
  - unfold setMetricAt. rewrite Hds. cbn [with_store store].
    eexists. split; [apply list_lookup_insert_eq; by eapply lookup_lt_Some|].
    by rewrite setMetric_storeMetric, storeMetric_other.
  - exists ds. split; [|done]. rewrite setMetricAt_other; done.
Qed.

Lemma fold_pollOID_keeps (peer : SnmpPeer) (addr : list byte) (kvs : list (string * OIDMap))
    (b : Agent) (p : nat) (cat : category) (name : string) (val : float) :
  Forall (fun kv => normalizeCategory (ToLower (Category kv.2)) <> Some cat
                    \/ Name kv.2 <> name) kvs ->
  holds b p cat name val -> holds (fold_left (pollOID peer addr) kvs b) p cat name val.
Proof.
  intros Hall. revert b. induction Hall as [|kv kvs Hkv Hall IH]; intros b Hb; [done|].
  cbn [fold_left]. apply IH. by apply pollOID_keeps.
Qed.

Lemma shouldSend_category (om : OIDMap) :
  shouldSend om = true -> is_Some (normalizeCategory (ToLower (Category om))).
Proof.
  unfold shouldSend, normalizeCategory, is_case, categoryNames.
  generalize (ToLower (Category om)). intros c.
  cbn [List.find existsb fst snd].
  repeat match goal with
  | |- context [String.eqb c ?lit] =>
      destruct (String.eqb c lit) eqn:?; [cbn; eauto | cbn [orb]]
  end.
  discriminate.
Qed.

(** X30. A poll stores what the device answers.  When the connection comes
    up, the address is registered, and the rule maps an OID through a
    mapping that passes [shouldSend], the device answers the GET of that
    OID with a number, and no other OID of the rule has the same sensor
    name in the same category, then after [pollOnce] the state of the
    address holds that number, scaled and rounded by [transformValue],
    under the mapping's category and name, in whatever order the OIDs of
    the rule were visited. *)
Theorem poll_stores_answers (a : Agent) (addr : list byte) (dc : DeviceConfig)
    (peer : SnmpPeer) (oid : string) (om : OIDMap) (v : SnmpPDU) (vs : list SnmpPDU) (z : Z) :
  wellFormed a ->
  is_Some (registry_get a addr) ->
  connectOK peer = true ->
  Oids dc !! oid = Some om ->
  shouldSend om = true ->
  Get peer oid = Some (v :: vs) ->
  ToBigInt (PduValue v) = Some z ->
  (forall oid' om', Oids dc !! oid' = Some om' -> oid' <> oid ->
     normalizeCategory (ToLower (Category om'))
     <> normalizeCategory (ToLower (Category om))
     \/ Name om' <> Name om) ->
  exists ds cat,
    stateOf (pollOnce a addr dc peer) (IP_String addr) = Some ds
    /\ normalizeCategory (ToLower (Category om)) = Some cat
    /\ metricsOf ds cat !! Name om
       = Some (transformValue (Scale om) (math.float64_of_Z (Int64 z))
                 (Round1 (Defs (cfg a)))).
Proof.
  intros [Hwf _] [p Hp] Hconn Hoid Hsend Hget Hz Huniq.
  destruct (shouldSend_category om Hsend) as [cat Hcat].
  unfold pollOnce. rewrite Hconn. cbn [negb].
  assert (Hin : In (oid, om) (range (Oids dc))) by (by apply range_elem).
  assert (Hnd : NoDup (range (Oids dc)).*1).
  { rewrite (range_perm _ (Oids dc)). apply NoDup_fst_map_to_list. }
  assert (Helem : forall k w, In (k, w) (range (Oids dc)) -> Oids dc !! k = Some w).
  { intros k w. apply range_elem. }
  revert Hnd Helem. destruct (in_split _ _ Hin) as (l1 & l2 & ->). intros Hnd Helem.
  rewrite fold_left_app. cbn [fold_left].
  set (a1 := fold_left (pollOID peer addr) l1 a).
  destruct (fold_same (pollOID peer addr) l1 a (fun b x => pollOID_same peer addr b x))
    as (Hc1&_&_&_&Hd1&_&_&Hl1&_).
  fold a1 in Hc1, Hd1, Hl1.
  unfold registry_get in Hp.
  assert (Hs1 : is_Some (store a1 !! p)).
  { apply lookup_lt_is_Some_2. rewrite Hl1. by eapply Hwf. }
  destruct Hs1 as [ds1 Hds1].
  set (f := transformValue (Scale om) (math.float64_of_Z (Int64 z)) (Round1 (Defs (cfg a)))).
  assert (H2 : holds (pollOID peer addr a1 (oid, om)) p cat (Name om) f).
  { unfold pollOID, registry_get. rewrite Hsend, Hget, Hz, Hd1, Hp, Hc1. cbn [negb].
    fold f. unfold setMetricAt. rewrite Hds1. cbn [with_store store].
    eexists. split; [apply list_lookup_insert_eq; by eapply lookup_lt_Some|].
    rewrite setMetric_storeMetric, Hcat. destruct cat; cbn; apply lookup_insert_eq. }
  assert (Hrest : Forall (fun kv => normalizeCategory (ToLower (Category kv.2)) <> Some cat
                                    \/ Name kv.2 <> Name om) l2).
  { apply Forall_forall. intros [k w] Hkw. cbn [snd]. rewrite <- Hcat.
    apply list_elem_of_In in Hkw.
    apply (Huniq k w).
    - apply Helem. apply in_or_app. right. by right.
    - intros ->. rewrite fmap_app, fmap_cons in Hnd.
      apply NoDup_app in Hnd as (_ & _ & Hnd). apply NoDup_cons in Hnd as [Hnot _].
      apply Hnot. apply list_elem_of_In in Hkw. by apply (list_elem_of_fmap_2 fst _ (oid, w)). }
  destruct (fold_pollOID_keeps peer addr l2 _ p cat (Name om) f Hrest H2) as (ds & Hds & Hv).
  exists ds, cat. split; [|by split].
  unfold stateOf.
  match goal with
  | |- context [Notify ?a3 addr] =>
      destruct (Notify_fields a3 addr) as (_&_&_&_&->&->)
  end.
  destruct (fold_same (pollOID peer addr) l2 (pollOID peer addr a1 (oid, om))
              (fun b x => pollOID_same peer addr b x)) as (_&_&_&_&Hd3&_).
  destruct (pollOID_same peer addr a1 (oid, om)) as (_&_&_&_&Hd2&_).
  by rewrite Hd3, Hd2, Hd1, Hp.
Qed.

End Polls.

(** * Concrete runs

    The scenarios of the specification, run on the reference runtime. *)

Module scenario.

Import refrt.

Definition sysNameOID : string := ".1.3.6.1.2.1.1.5.0".
Definition tempOID : string := ".1.3.6.1.4.1.9.9.13.1.3.1.3.0".
Definition humOID : string := ".1.3.6.1.4.1.9.9.13.1.5.1.3.0".

Definition oids : gmap string OIDMap :=
  {[ tempOID := {| Name := "temp1"; Kind := "gauge"; Unit := "C";
                   Category := "temperature"; Scale := 1 |};
     humOID := {| Name := "hum1"; Kind := "gauge"; Unit := "%";
                  Category := "Humidity"; Scale := 10 |} ]}.

(** One rule for every address, polled every 30 s. *)
Definition rule : DeviceConfig :=
  {| IPRegex := ""; FingerprintTmpl := "snmp-%IP%"; HostnameTemplate := "%sysName%";
     Poll := true; DevPollIntervalSec := 30; DevCommunities := ["public"%string];
     Oids := oids; ipRegex := None |}.

Definition defaults : Defaults :=
  {| SendIntervalSec := 10; PollIntervalSec := 30; ResolveMIBs := false; MIBPaths := [];
     Round1 := true; LogUnknown := true; Communities := ["public"%string];
     ListenAddr := ":9162" |}.

Definition hubKey : string := "ssh-ed25519 AAAAC3NzaC1lZDI1NTE5 hub".

Definition config : Config :=
  {| Hub := {| URL := "http://hub:8090"; Token := "secret-token"; Key := hubKey |};
     Defs := defaults; Devices := [rule] |}.

(** The same, the token written with a blank in front. *)
Definition configPadded : Config :=
  {| Hub := {| URL := "http://hub:8090"; Token := " secret-token"; Key := hubKey |};
     Defs := defaults; Devices := [rule] |}.

(** 192.168.1.10 and 192.168.1.20. *)
Definition switchA : list byte := [xc0; xa8; x01; x0a].
Definition probeB : list byte := [xc0; xa8; x01; x14].

(** S1: a trap from 192.168.1.10 with sysName.0 = "sw-a" and a temperature
    of 237. *)
Definition trapA : SnmpPacket :=
  {| Variables := [ {| PduName := sysNameOID; PduValue := SnmpString "sw-a" |};
                    {| PduName := tempOID; PduValue := SnmpInteger 237 |} ] |}.

(** A trap from 192.168.1.20, a probe that reports humidity only. *)
Definition trapB : SnmpPacket :=
  {| Variables := [ {| PduName := sysNameOID; PduValue := SnmpString "probe-b" |};
                    {| PduName := humOID; PduValue := SnmpInteger 455 |} ] |}.

(** What the hub sends: its signature over a token, CheckFingerprint with
    need_sys_info set, and GetData. *)
Definition sign (tok : string) : list byte :=
  sha256.Sum256 (list_byte_of_string hubKey ++ list_byte_of_string tok).

Definition checkFingerprint (signature : list byte) : Message :=
  {| MsgOpcode := OpcodeBinary; MsgData := x00 :: x01 :: signature |}.

Definition getData : Message := {| MsgOpcode := OpcodeBinary; MsgData := [x01] |}.

(** S1 then S2 for the switch: trap, connection 7 comes up, the hub
    authenticates and asks for data. *)
Definition runA : list Event :=
  [ EvTrap trapA switchA;
    EvConnect "192.168.1.10" (Some 7%nat);
    EvMessage "192.168.1.10" (checkFingerprint (sign "secret-token"));
    EvMessage "192.168.1.10" getData ].

(** The same for the humidity probe, on connection 8. *)
Definition runB : list Event :=
  [ EvTrap trapB probeB;
    EvConnect "192.168.1.20" (Some 8%nat);
    EvMessage "192.168.1.20" (checkFingerprint (sign "secret-token"));
    EvMessage "192.168.1.20" getData ].

Definition agentAfter (c : Config) (evs : list Event) : Agent :=
  match run (NewAgent c) evs with
  | Some a => a
  | None => NewAgent c
  end.

End scenario.

Import scenario refrt.

(** ** S1 and S2 *)

(** The state the trap of S1 leaves for 192.168.1.10. *)
Definition stateA : deviceState :=
  {| ip := switchA; finger := "285056f1fe88ff1d1b5f4169d2419f2d9b6dc09bcf4e7c8a";
     hostname := "sw-a"; lastTemps := {[ "temp1"%string := 237%float ]};
     lastHumidity := ∅; lastCO2 := ∅; lastPressure := ∅;
     lastPM25 := ∅; lastPM10 := ∅; lastVOC := ∅ |}.

(** The state the probe's trap leaves for 192.168.1.20: humidity only. *)
Definition stateB : deviceState :=
  {| ip := probeB; finger := "d36dda59b28c625c15fbd4a5de50c4c5c9e5d50ee8ce856d";
     hostname := "probe-b"; lastTemps := ∅;
     lastHumidity := {[ "hum1"%string := (455 / 10)%float ]};
     lastCO2 := ∅; lastPressure := ∅; lastPM25 := ∅; lastPM10 := ∅; lastVOC := ∅ |}.

Definition sessionA (verified : bool) : deviceClient :=
  {| dcIP := switchA; dsRef := 0; Conn := Some 7%nat; hubVerified := verified |}.

(** The reply to GetData in S2 and the moment it is written. *)
Definition dataA : Output :=
  {| session := "192.168.1.10"; conn := 7;
     frame := CombinedDataFrame (buildCombinedData stateA Version) |}.

Definition momentA : Moment :=
  {| before := agentAfter config (firstn 3 runA);
     event := EvMessage "192.168.1.10" getData;
     written := [dataA] |}.

Example S1_registered :
  store (agentAfter config [EvTrap trapA switchA]) = [stateA]
  /\ devices (agentAfter config [EvTrap trapA switchA]) = {[ "192.168.1.10"%string := 0%nat ]}
  /\ exec (NewAgent config) [EvTrap trapA switchA]
     = [ {| before := NewAgent config; event := EvTrap trapA switchA; written := [] |} ].
Proof. vm_compute. repeat split; reflexivity. Qed.

Example S2_replies :
  map written (exec (NewAgent config) runA)
  = [ []; [];
      [ {| session := "192.168.1.10"; conn := 7;
           frame := FingerprintFrame
             {| common.Fingerprint := "285056f1fe88ff1d1b5f4169d2419f2d9b6dc09bcf4e7c8a";
                common.Hostname := "sw-a" |} |} ];
      [dataA] ]
  /\ system.Temperatures (system.stats (buildCombinedData stateA Version))
     = {[ "temp1"%string := 237%float ]}
  /\ system.DashboardTemp (system.info (buildCombinedData stateA Version)) = 237%float
  /\ system.AgentType (system.info (buildCombinedData stateA Version)) = "snmp"%string.
Proof. vm_compute. repeat split; reflexivity. Qed.

(** S3: with a signature that does not verify nothing is written, and the
    GetData that follows is dropped as well. *)
Example S3_invalid_signature :
  map written
    (exec (NewAgent config)
       [ EvTrap trapA switchA; EvConnect "192.168.1.10" (Some 7%nat);
         EvMessage "192.168.1.10" (checkFingerprint (sign "other-token"));
         EvMessage "192.168.1.10" getData ])
  = [ []; []; []; [] ].
Proof. vm_compute. reflexivity. Qed.

(** ** The theorems at concrete inputs *)

Lemma data_only_on_verified_GetData_witness :
  (exists message req dc,
     event momentA = EvMessage (session dataA) message
     /\ MsgOpcode message = OpcodeBinary
     /\ DecodeHubRequest (MsgData message) = Some req
     /\ common.Action req = common.GetData
     /\ conns (before momentA) !! session dataA = Some dc
     /\ hubVerified dc = true)
  /\ (forall (b : Agent) (addr : list byte), step b (EvNotify addr) = Some (Notify b addr, [])).
Proof.
  apply (data_only_on_verified_GetData (NewAgent config) runA 3 momentA dataA
           (buildCombinedData stateA Version)).
  - vm_compute. reflexivity.
  - left. reflexivity.
  - reflexivity.
Defined.

(** The CheckFingerprint request of S2, decoded. *)
Definition requestA : common.HubRequest :=
  {| common.Action := 0; common.Data := x01 :: sign "secret-token" |}.

Definition fingerprintRequestA : common.FingerprintRequest :=
  {| common.Signature := sign "secret-token"; common.NeedSysInfo := true |}.

Lemma CheckFingerprint_reply_witness :
  exists pk ds,
    ParseAuthorizedKey (list_byte_of_string (Key (Hub config))) = Some pk
    /\ store (agentAfter config (firstn 2 runA)) !! dsRef (sessionA false) = Some ds
    /\ if Verify pk (list_byte_of_string (TrimSpace (Token (Hub config))))
            {| Format := KeyType pk; Blob := common.Signature fingerprintRequestA |}
       then step (agentAfter config (firstn 2 runA))
              (EvMessage "192.168.1.10" (checkFingerprint (sign "secret-token")))
            = Some (with_conns (agentAfter config (firstn 2 runA))
                      (<["192.168.1.10"%string := with_verified (sessionA false) true]>
                         (conns (agentAfter config (firstn 2 runA)))),
                    [ {| session := "192.168.1.10"; conn := 7;
                         frame := FingerprintFrame
                           {| common.Fingerprint := finger ds;
                              common.Hostname :=
                                if common.NeedSysInfo fingerprintRequestA
                                then hostname ds else ""%string |} |} ])
       else step (agentAfter config (firstn 2 runA))
              (EvMessage "192.168.1.10" (checkFingerprint (sign "secret-token")))
            = Some (agentAfter config (firstn 2 runA), []).
Proof.
  apply (CheckFingerprint_reply config (firstn 2 runA) (agentAfter config (firstn 2 runA))
           "192.168.1.10" (sessionA false) 7 (checkFingerprint (sign "secret-token"))
           requestA fingerprintRequestA); vm_compute; reflexivity.
Defined.

(** A state with two temperatures and two pressures. *)
Definition stateC : deviceState :=
  {| ip := switchA; finger := "285056f1fe88ff1d1b5f4169d2419f2d9b6dc09bcf4e7c8a";
     hostname := "sw-a";
     lastTemps := {[ "inlet"%string := (215 / 10)%float; "outlet"%string := (237 / 10)%float ]};
     lastHumidity := ∅; lastCO2 := ∅;
     lastPressure := {[ "p1"%string := 1000%float; "p2"%string := 1011%float ]};
     lastPM25 := ∅; lastPM10 := ∅; lastVOC := ∅ |}.

Example dashboard_stateC :
  system.DashboardTemp (system.info (buildCombinedData stateC Version)) = (237 / 10)%float
  /\ system.DashboardPressure (system.info (buildCombinedData stateC Version)) = 1005.5%float
  /\ system.DashboardHumidity (system.info (buildCombinedData stateC Version)) = 0%float.
Proof. vm_compute. repeat split; reflexivity. Qed.

Lemma dashboard_summaries_witness :
  ((metricsOf stateC Temperature = ∅ ->
    dashboardOf (system.info (buildCombinedData stateC Version)) Temperature = 0%float)
   /\ (metricsOf stateC Temperature <> ∅ ->
       isMaxOf (metricsOf stateC Temperature)
         (dashboardOf (system.info (buildCombinedData stateC Version)) Temperature)))
  /\ ((metricsOf stateC Pressure = ∅ ->
       dashboardOf (system.info (buildCombinedData stateC Version)) Pressure = 0%float)
      /\ (metricsOf stateC Pressure <> ∅ ->
          exists vs, vs ≡ₚ map snd (map_to_list (metricsOf stateC Pressure))
            /\ dashboardOf (system.info (buildCombinedData stateC Version)) Pressure
               = meanOf vs)).
Proof.
  split.
  - apply (dashboard_summaries stateC Version Temperature). vm_compute. reflexivity.
  - apply (dashboard_summaries stateC Version Pressure). vm_compute. reflexivity.
Defined.

(** The switch sends its trap twice, with the hub's traffic in between. *)
Definition runTwoTraps : list Event := runA ++ [EvTrap trapA switchA].

Lemma one_poll_loop_per_trap_sender_witness :
  (pollLoops (agentAfter config runTwoTraps) "192.168.1.10" <= 1)%nat
  /\ (forall (b : Agent) (addr : list byte),
        tasks (ensurePolling b addr) = tasks b ++ pollLoopFor b addr).
Proof.
  apply (one_poll_loop_per_trap_sender config runTwoTraps (agentAfter config runTwoTraps)
           "192.168.1.10"); vm_compute; reflexivity.
Defined.

(** An agent that has registered the switch but has no session yet. *)
Definition registeredA : Agent := registry_set (NewAgent config) switchA stateA.

Lemma Notify_ensures_session_witness :
  is_Some (conns (Notify registeredA switchA) !! IP_String switchA)
  /\ (conns registeredA !! IP_String switchA = None ->
      conns (Notify registeredA switchA)
      = <[IP_String switchA := freshSession switchA 0]> (conns registeredA))
  /\ (is_Some (conns registeredA !! IP_String switchA) ->
      conns (Notify registeredA switchA) = conns registeredA)
  /\ Notify (Notify registeredA switchA) switchA = Notify registeredA switchA.
Proof.
  apply (Notify_ensures_session registeredA switchA 0). vm_compute. reflexivity.
Defined.

(** ** Where the code departs from the claims *)

(** C10 as stated fails for an address the registry does not know: [Notify]
    returns and the session map has no session for it. *)
Lemma Notify_unregistered_counterexample :
  registry_get (NewAgent config) switchA = None
  /\ conns (Notify (NewAgent config) switchA) !! IP_String switchA = None.
Proof. vm_compute. split; reflexivity. Qed.

(** C9 as stated fails: two calls of [ensurePolling] for one address start
    two poll loops, and so do two explicit registrations. *)
Lemma ensurePolling_twice_counterexample :
  pollLoops (agentAfter config [EvEnsurePolling switchA; EvEnsurePolling switchA])
    "192.168.1.10" = 2%nat
  /\ pollLoops (agentAfter config [EvEnsureDevice "192.168.1.10" "sw-a";
                                   EvEnsureDevice "192.168.1.10" "sw-a"])
       "192.168.1.10" = 2%nat.
Proof. vm_compute. split; reflexivity. Qed.

(** C2 as stated fails when the configured token has white space around
    it: the hub's signature over the bytes of the configured token is
    valid, yet the session answers nothing and stays unverified, because
    the signature is checked against the trimmed token. *)
Lemma CheckFingerprint_padded_token_counterexample :
  Verify {| KeyType := "ssh-ed25519"; KeyBlob := list_byte_of_string hubKey |}
    (list_byte_of_string (Token (Hub configPadded)))
    {| Format := "ssh-ed25519"; Blob := sign (Token (Hub configPadded)) |} = true
  /\ map written
       (exec (NewAgent configPadded)
          [ EvTrap trapA switchA; EvConnect "192.168.1.10" (Some 7%nat);
            EvMessage "192.168.1.10" (checkFingerprint (sign (Token (Hub configPadded)))) ])
     = [ []; []; [] ]
  /\ hubVerified <$>
       conns (agentAfter configPadded
                [ EvTrap trapA switchA; EvConnect "192.168.1.10" (Some 7%nat);
                  EvMessage "192.168.1.10"
                    (checkFingerprint (sign (Token (Hub configPadded)))) ])
       !! "192.168.1.10"%string
     = Some false.
Proof. vm_compute. repeat split; reflexivity. Qed.

(** C3 on the code: the probe reports humidity only; its session is
    verified and its state has an entry, yet the GetData request is
    answered with nothing, because [send] looks at the temperature map
    alone. *)
Lemma GetData_humidity_only_dropped :
  store (agentAfter config (firstn 3 runB)) = [stateB]
  /\ lastHumidity stateB !! "hum1"%string = Some (455 / 10)%float
  /\ conns (agentAfter config (firstn 3 runB)) !! "192.168.1.20"%string
     = Some {| dcIP := probeB; dsRef := 0; Conn := Some 8%nat; hubVerified := true |}
  /\ step (agentAfter config (firstn 3 runB)) (EvMessage "192.168.1.20" getData)
     = Some (agentAfter config (firstn 3 runB), []).
Proof. vm_compute. repeat split; reflexivity. Qed.

(** C5 on the code: the trap of S1 registers 192.168.1.10 under the
    fingerprint of its template; a later [EnsureDevice] for the same
    address replaces the registered state, and with it the fingerprint,
    while the hub session keeps pointing to the old state. *)
Lemma EnsureDevice_replaces_fingerprint :
  fingerprintOf (agentAfter config runA) "192.168.1.10"
  = Some "285056f1fe88ff1d1b5f4169d2419f2d9b6dc09bcf4e7c8a"%string
  /\ fingerprintOf (agentAfter config (runA ++ [EvEnsureDevice "192.168.1.10" "sw-a"]))
       "192.168.1.10"
     = Some "2202157e249a7eb2035be7cebbdb4fa9c193b864d3888afd"%string
  /\ devices (agentAfter config (runA ++ [EvEnsureDevice "192.168.1.10" "sw-a"]))
       !! "192.168.1.10"%string = Some 1%nat
  /\ dsRef <$> conns (agentAfter config (runA ++ [EvEnsureDevice "192.168.1.10" "sw-a"]))
       !! "192.168.1.10"%string = Some 0%nat.
Proof. vm_compute. repeat split; reflexivity. Qed.

(** ** A reference source of configurations

    Files, environment and decoders for the runs below.  The JSON decoder
    is a table of the documents the runs use; [regexp.Compile] accepts the
    expressions whose parentheses are balanced. *)

Module refsrc.

Import refrt scenario.

(** A rule for 192.168.1.x without a poll interval and communities of its
    own, and a rule for every address. *)
Definition rawNet : DeviceConfig :=
  {| IPRegex := "192.168.1."; FingerprintTmpl := "snmp-%IP%"; HostnameTemplate := "";
     Poll := true; DevPollIntervalSec := 0; DevCommunities := [];
     Oids := oids; ipRegex := None |}.

Definition rawAny : DeviceConfig :=
  {| IPRegex := ""; FingerprintTmpl := ""; HostnameTemplate := "";
     Poll := false; DevPollIntervalSec := 60; DevCommunities := ["private"%string];
     Oids := ∅; ipRegex := None |}.

Definition rawBroken : DeviceConfig :=
  {| IPRegex := "(10."; FingerprintTmpl := ""; HostnameTemplate := "";
     Poll := false; DevPollIntervalSec := 0; DevCommunities := [];
     Oids := ∅; ipRegex := None |}.

(** A defaults block the file leaves empty. *)
Definition rawDefaults : Defaults :=
  {| SendIntervalSec := 0; PollIntervalSec := 0; ResolveMIBs := false; MIBPaths := [];
     Round1 := true; LogUnknown := false; Communities := []; ListenAddr := "" |}.

Definition rawConfig : Config :=
  {| Hub := Hub config; Defs := rawDefaults; Devices := [rawNet; rawAny] |}.

Definition rawBrokenConfig : Config :=
  {| Hub := Hub config; Defs := rawDefaults; Devices := [rawAny; rawBroken] |}.

(** The documents, by their text, and the files that hold them. *)
Definition documents : list (string * (Config * bool)) :=
  [ ("{two rules}"%string, (rawConfig, true));
    ("{broken rule}"%string, (rawBrokenConfig, true)) ].

Definition files : list (string * string) :=
  [ ("agent.json", "{two rules}"); ("broken.json", "{broken rule}");
    ("notes.txt", "not json") ]%string.

Definition environment : list (string * string) :=
  [ ("BESZEL_HUB_URL", "http://hub:8090"); ("BESZEL_HUB_TOKEN", "secret-token");
    ("BESZEL_HUB_KEY", hubKey); ("BESZEL_POLL_INTERVAL_SEC", "45") ]%string.

Definition assoc {V} (l : list (string * V)) (k : string) : option V :=
  snd <$> List.find (fun kv => String.eqb kv.1 k) l.

Definition readFile (path : string) : option (list byte) :=
  list_byte_of_string <$> assoc files path.

Definition getenv (key : string) : string :=
  match assoc environment key with Some v => v | None => ""%string end.

Definition unmarshal (b : list byte) : option (Config * bool) :=
  assoc documents (string_of_list_byte b).

Definition unmarshalDevices (b : list byte) : option (list DeviceConfig) :=
  (fun cn => Devices cn.1) <$> unmarshal b.

Fixpoint balanced (depth : nat) (s : string) : bool :=
  match s with
  | EmptyString => Nat.eqb depth 0
  | String "(" rest => balanced (S depth) rest
  | String ")" rest =>
      match depth with
      | O => false
      | S d => balanced d rest
      end
  | String _ rest => balanced depth rest
  end.

Fixpoint digits (acc : Z) (s : string) : option Z :=
  match s with
  | EmptyString => Some acc
  | String c rest =>
      let d := Z.of_N (N_of_ascii c) in
      if (48 <=? d) && (d <=? 57) then digits (10 * acc + (d - 48)) rest else None
  end.

Definition atoi (s : string) : option Z :=
  let signed (neg : bool) (body : string) :=
    match body with
    | EmptyString => None
    | _ =>
        match digits 0 body with
        | Some n =>
            let v := if neg then - n else n in
            if (- 2 ^ 63 <=? v) && (v <? 2 ^ 63) then Some v else None
        | None => None
        end
    end in
  match s with
  | String "-" rest => signed true rest
  | String "+" rest => signed false rest
  | _ => signed false s
  end.

Definition parseBool (s : string) : option bool :=
  if existsb (String.eqb s) ["1"; "t"; "T"; "TRUE"; "true"; "True"]%string then Some true
  else if existsb (String.eqb s) ["0"; "f"; "F"; "FALSE"; "false"; "False"]%string
       then Some false
       else None.

Fixpoint splitOn (c : ascii) (cur s : string) : list string :=
  match s with
  | EmptyString => [cur]
  | String x rest =>
      if Ascii.eqb x c then cur :: splitOn c "" rest
      else splitOn c (cur ++ String x "") rest
  end.

Definition split (s sep : string) : list string :=
  match sep with
  | String c EmptyString => splitOn c "" s
  | _ => [s]
  end.

Lemma documents_decoded :
  Forall (fun kv : string * (Config * bool) =>
            Forall (fun d => ipRegex d = None) (Devices kv.2.1)
            /\ (kv.2.2 = true -> Communities (Defs kv.2.1) = []))
    documents.
Proof. repeat constructor. Qed.

Lemma unmarshal_decoded (b : list byte) (c : Config) (n : bool) :
  unmarshal b = Some (c, n) ->
  Forall (fun d => ipRegex d = None) (Devices c)
  /\ (n = true -> Communities (Defs c) = []).
Proof.
  unfold unmarshal, assoc.
  destruct (List.find _ documents) as [[k cn]|] eqn:Hf; [|done].
  cbn. intros [= ->]. apply find_some in Hf as [Hin _].
  pose proof documents_decoded as Hall. rewrite Forall_forall in Hall.
  apply list_elem_of_In in Hin. exact (Hall _ Hin).
Qed.

Lemma unmarshal_ipRegex (b : list byte) (c : Config) (n : bool) :
  unmarshal b = Some (c, n) -> Forall (fun d => ipRegex d = None) (Devices c).
Proof. intros H. by destruct (unmarshal_decoded _ _ _ H). Qed.

Lemma unmarshal_nil (b : list byte) (c : Config) :
  unmarshal b = Some (c, true) -> Communities (Defs c) = [].
Proof. intros H. destruct (unmarshal_decoded _ _ _ H) as [_ Hn]. by apply Hn. Qed.

Lemma unmarshalDevices_ipRegex (b : list byte) (ds : list DeviceConfig) :
  unmarshalDevices b = Some ds -> Forall (fun d => ipRegex d = None) ds.
Proof.
  unfold unmarshalDevices. destruct (unmarshal b) as [[c n]|] eqn:Hu; [|done].
  cbn. intros [= <-]. by eapply unmarshal_ipRegex.
Qed.

#[export] Instance source : ConfigSource := {|
  os_ReadFile := readFile;
  os_Getenv := getenv;
  json_Unmarshal := unmarshal;
  json_Unmarshal_ipRegex := unmarshal_ipRegex;
  json_Unmarshal_nil := unmarshal_nil;
  json_UnmarshalDevices := unmarshalDevices;
  json_UnmarshalDevices_ipRegex := unmarshalDevices_ipRegex;
  regexp_Compile := balanced 0;
  strconv_Atoi := atoi;
  strconv_ParseBool := parseBool;
  strings_Split := split
|}.

End refsrc.

Import refsrc.

Example ref_strconv :
  atoi "45" = Some 45 /\ atoi "-7" = Some (-7) /\ atoi "" = None /\ atoi "4x" = None
  /\ atoi "9223372036854775808" = None
  /\ parseBool "T" = Some true /\ parseBool "no" = None
  /\ split "public,private" "," = ["public"; "private"]%string
  /\ split "public" "," = ["public"%string].
Proof. vm_compute. repeat split; reflexivity. Qed.

(** The configuration [LoadConfig] makes of agent.json. *)
Definition loadedConfig : Config :=
  {| Hub := Hub config;
     Defs := {| SendIntervalSec := 10; PollIntervalSec := 30; ResolveMIBs := false;
                MIBPaths := []; Round1 := true; LogUnknown := false;
                Communities := ["public"%string]; ListenAddr := ":9162" |};
     Devices :=
       [ {| IPRegex := "192.168.1."; FingerprintTmpl := "snmp-%IP%"; HostnameTemplate := "";
            Poll := true; DevPollIntervalSec := 30; DevCommunities := ["public"%string];
            Oids := oids; ipRegex := Some "192.168.1."%string |};
         rawAny ] |}.

(** The configuration the command builds from the environment and the
    devices of agent.json. *)
Definition envConfig : Config :=
  {| Hub := Hub config;
     Defs := {| SendIntervalSec := 10; PollIntervalSec := 45; ResolveMIBs := false;
                MIBPaths := ["/usr/share/snmp/mibs"%string]; Round1 := true;
                LogUnknown := true; Communities := ["public"%string];
                ListenAddr := ":9162" |};
     Devices := [rawNet; rawAny] |}.

Example LoadConfig_runs :
  LoadConfig "agent.json" = inr loadedConfig
  /\ LoadConfig "broken.json" = inl (BadIPRegex 1)
  /\ LoadConfig "notes.txt" = inl InvalidConfig
  /\ LoadConfig "missing.json" = inl ReadFailed
  /\ createConfigFromEnv [rawNet; rawAny] = inr envConfig.
Proof. vm_compute. repeat split; reflexivity. Qed.

(** ** The further properties at concrete inputs *)

Lemma setMetric_spelling_witness :
  setMetric stateA "Temperature" "temp1" 240 = setMetric stateA "t" "temp1" 240.
Proof.
  apply (setMetric_spelling stateA "Temperature" "t" "temp1" 240%float).
  vm_compute. reflexivity.
Defined.

Lemma setMetric_commute_witness :
  setMetric (setMetric stateA "temp" "inlet" 21) "hum" "room" 40
  = setMetric (setMetric stateA "hum" "room" 40) "temp" "inlet" 21.
Proof.
  apply (setMetric_commute stateA "temp" "hum" "inlet" "room" 21%float 40%float).
  right. vm_compute. discriminate.
Defined.

Lemma template_without_placeholder_witness :
  replacePlaceholders "rack-7" switchA "sw-a" = "rack-7"%string
  /\ ("rack-7"%string <> ""%string ->
      deriveFingerprint switchA "sw-a" "rack-7" = deriveFingerprint probeB "probe-b" "rack-7").
Proof.
  apply (template_without_placeholder "rack-7" switchA probeB "sw-a" "probe-b").
  vm_compute. reflexivity.
Defined.

Lemma device_isolation_witness :
  (forall packet addr, "192.168.1.10"%string <> IP_String addr ->
     stateOf (handle (agentAfter config runA) packet addr) "192.168.1.10"
     = stateOf (agentAfter config runA) "192.168.1.10")
  /\ (forall addr dc peer, "192.168.1.10"%string <> IP_String addr ->
        stateOf (pollOnce (agentAfter config runA) addr dc peer) "192.168.1.10"
        = stateOf (agentAfter config runA) "192.168.1.10").
Proof.
  apply (device_isolation config runA (agentAfter config runA) "192.168.1.10").
  vm_compute. reflexivity.
Defined.

Lemma identity_stable_witness :
  exists ds', stateOf (agentAfter config runA) "192.168.1.10" = Some ds'
    /\ finger ds' = finger stateA /\ hostname ds' = hostname stateA /\ ip ds' = ip stateA.
Proof.
  apply (identity_stable (skipn 1 runA) (agentAfter config (firstn 1 runA))
           (agentAfter config runA) "192.168.1.10" stateA).
  - intros ipText host Hin.
    repeat (destruct Hin as [Hin|Hin]; [discriminate Hin|]). destruct Hin.
  - vm_compute. reflexivity.
  - vm_compute. reflexivity.
Defined.

(** The temperature binding of the trap of S1 and its mapping. *)
Definition tempBinding : SnmpPDU := {| PduName := tempOID; PduValue := SnmpInteger 237 |}.

Definition tempMap : OIDMap :=
  {| Name := "temp1"; Kind := "gauge"; Unit := "C"; Category := "temperature"; Scale := 1 |}.

Lemma trap_stores_last_value_witness :
  exists ds cat,
    stateOf (handle (NewAgent config)
               {| Variables := [ {| PduName := sysNameOID; PduValue := SnmpString "sw-a" |} ]
                               ++ [tempBinding] |} switchA)
      (IP_String switchA) = Some ds
    /\ normalizeCategory (ToLower (Category tempMap)) = Some cat
    /\ metricsOf ds cat !! Name tempMap
       = Some (transformValue (Scale tempMap) (math.float64_of_Z (Int64 237))
                 (Round1 (Defs (cfg (NewAgent config))))).
Proof.
  apply (trap_stores_last_value (NewAgent config)
           [ {| PduName := sysNameOID; PduValue := SnmpString "sw-a" |} ]
           tempBinding switchA tempMap 237).
  - apply wellFormed_NewAgent.
  - vm_compute. reflexivity.
  - vm_compute. reflexivity.
  - vm_compute. reflexivity.
  - vm_compute. reflexivity.
Defined.

Lemma verified_session_history_witness :
  exists evs1 message evs2,
    firstn 3 runA = evs1 ++ EvMessage "192.168.1.10" message :: evs2
    /\ validCheckFingerprint (NewAgent config) message
    /\ ~ In (EvClose "192.168.1.10") evs2.
Proof.
  apply (verified_session_history config (firstn 3 runA) (agentAfter config (firstn 3 runA))
           "192.168.1.10" (sessionA true)).
  - vm_compute. reflexivity.
  - vm_compute. reflexivity.
  - reflexivity.
Defined.

Lemma session_invariants_witness :
  IP_String (dcIP (sessionA true)) = "192.168.1.10"%string
  /\ is_Some (devices (agentAfter config (firstn 3 runA)) !! "192.168.1.10"%string)
  /\ (hubVerified (sessionA true) = true -> is_Some (Conn (sessionA true)))
  /\ (is_Some (Conn (sessionA true)) ->
      url_Parse (URL (Hub config)) = true
      /\ TrimSpace (Token (Hub config)) <> ""%string
      /\ TrimSpace (Key (Hub config)) <> ""%string
      /\ is_Some (ParseAuthorizedKey (list_byte_of_string (Key (Hub config))))).
Proof.
  apply (session_invariants config (firstn 3 runA) (agentAfter config (firstn 3 runA))
           "192.168.1.10" (sessionA true)).
  - vm_compute. reflexivity.
  - vm_compute. reflexivity.
Defined.

Lemma session_reads_registered_state_witness :
  devices (agentAfter config runA) !! "192.168.1.10"%string = Some (dsRef (sessionA true))
  /\ stateOf (agentAfter config runA) "192.168.1.10"
     = store (agentAfter config runA) !! dsRef (sessionA true).
Proof.
  apply (session_reads_registered_state config runA (agentAfter config runA)
           "192.168.1.10" (sessionA true)).
  - intros ipText host Hin.
    repeat (destruct Hin as [Hin|Hin]; [discriminate Hin|]). destruct Hin.
  - vm_compute. reflexivity.
  - vm_compute. reflexivity.
Defined.

Lemma sessions_and_registrations_persist_witness :
  (is_Some (devices (agentAfter config (firstn 1 runA)) !! "192.168.1.10"%string) ->
   is_Some (devices (agentAfter config runA) !! "192.168.1.10"%string))
  /\ (forall dc, conns (agentAfter config (firstn 1 runA)) !! "192.168.1.10"%string = Some dc ->
        exists dc', conns (agentAfter config runA) !! "192.168.1.10"%string = Some dc'
                    /\ dsRef dc' = dsRef dc /\ dcIP dc' = dcIP dc
                    /\ (is_Some (Conn dc) -> is_Some (Conn dc'))).
Proof.
  apply (sessions_and_registrations_persist (skipn 1 runA) (agentAfter config (firstn 1 runA))
           (agentAfter config runA) "192.168.1.10").
  vm_compute. reflexivity.
Defined.

Lemma close_requires_reverification_witness :
  exists a1,
    step (agentAfter config runA) (EvClose "192.168.1.10") = Some (a1, [])
    /\ conns a1 !! "192.168.1.10"%string = Some (with_verified (sessionA true) false)
    /\ tasks a1 = tasks (agentAfter config runA)
                  ++ [ConnectTask (IP_String (dcIP (sessionA true))) 5]
    /\ forall message req,
         requestOf message = Some req ->
         common.Action req = common.GetData ->
         step a1 (EvMessage "192.168.1.10" message) = Some (a1, []).
Proof.
  apply (close_requires_reverification (agentAfter config runA) "192.168.1.10"
           (sessionA true)).
  vm_compute. reflexivity.
Defined.

(** A text message, which the protocol does not know. *)
Definition textMessage : Message := {| MsgOpcode := OpcodeText; MsgData := [x01] |}.

Lemma malformed_message_ignored_witness :
  step (agentAfter config runA) (EvMessage "192.168.1.10" textMessage)
  = Some (agentAfter config runA, []).
Proof.
  apply (malformed_message_ignored (agentAfter config runA) "192.168.1.10" textMessage).
  left. vm_compute. reflexivity.
Defined.

(** The reply to CheckFingerprint in S2 and the moment it is written. *)
Definition responseA : common.FingerprintResponse :=
  {| common.Fingerprint := "285056f1fe88ff1d1b5f4169d2419f2d9b6dc09bcf4e7c8a";
     common.Hostname := "sw-a" |}.

Definition fingerprintA : Output :=
  {| session := "192.168.1.10"; conn := 7; frame := FingerprintFrame responseA |}.

Definition momentF : Moment :=
  {| before := agentAfter config (firstn 2 runA);
     event := EvMessage "192.168.1.10" (checkFingerprint (sign "secret-token"));
     written := [fingerprintA] |}.

Lemma every_frame_is_a_reply_witness :
  written momentF = [fingerprintA] /\ replyTo (before momentF) (event momentF) fingerprintA.
Proof.
  apply (every_frame_is_a_reply (NewAgent config) runA 2 momentF fingerprintA).
  - vm_compute. reflexivity.
  - left. reflexivity.
Defined.

(** After S2 the address is registered again under another name, and the
    hub checks the fingerprint once more. *)
Definition runRenamed : list Event :=
  runA ++ [ EvEnsureDevice "192.168.1.10" "renamed";
            EvMessage "192.168.1.10" (checkFingerprint (sign "secret-token")) ].

Definition momentG : Moment :=
  {| before := agentAfter config (firstn 5 runRenamed);
     event := EvMessage "192.168.1.10" (checkFingerprint (sign "secret-token"));
     written := [fingerprintA] |}.

Lemma fingerprint_replies_agree_witness :
  hostname <$> stateOf (before momentG) "192.168.1.10" = Some "renamed"%string
  /\ common.Fingerprint responseA = common.Fingerprint responseA.
Proof.
  split; [vm_compute; reflexivity|].
  apply (fingerprint_replies_agree (NewAgent config) runRenamed 2 5 momentF momentG
           fingerprintA fingerprintA responseA responseA).
  - vm_compute. reflexivity.
  - vm_compute. reflexivity.
  - left. reflexivity.
  - left. reflexivity.
  - reflexivity.
  - reflexivity.
  - reflexivity.
Defined.

Lemma tasks_are_justified_witness :
  firstPollRule config switchA 30 0
  /\ is_Some (conns (agentAfter config runA) !! "192.168.1.10"%string) /\ ((0 = 0) \/ (0 = 5)).
Proof.
  split.
  - apply (tasks_are_justified config runA (agentAfter config runA) 0
             (PollLoop switchA 30 0)); vm_compute; reflexivity.
  - apply (tasks_are_justified config runA (agentAfter config runA) 1
             (ConnectTask "192.168.1.10" 0)); vm_compute; reflexivity.
Defined.

Lemma LoadConfig_result_witness :
  exists b raw communitiesNil,
    os_ReadFile "agent.json" = Some b
    /\ json_Unmarshal b = Some (raw, communitiesNil)
    /\ Hub loadedConfig = Hub raw
    /\ Defs loadedConfig = fillDefaults (Defs raw) communitiesNil
    /\ SendIntervalSec (Defs loadedConfig) <> 0
    /\ PollIntervalSec (Defs loadedConfig) <> 0
    /\ ListenAddr (Defs loadedConfig) <> ""%string
    /\ (communitiesNil = true -> Communities (Defs loadedConfig) = ["public"%string])
    /\ Forall2 (loadedFrom (Defs loadedConfig)) (Devices raw) (Devices loadedConfig)
    /\ Forall (fun d =>
                 DevPollIntervalSec d <> 0
                 /\ (DevCommunities d = [] -> Communities (Defs loadedConfig) = [])
                 /\ ipRegex d = if nonempty (IPRegex d) then Some (IPRegex d) else None)
              (Devices loadedConfig).
Proof.
  apply (LoadConfig_result "agent.json" loadedConfig). vm_compute. reflexivity.
Defined.

Lemma LoadConfig_then_MatchDevice_witness :
  MatchDevice loadedConfig [x0a; x00; x00; x05]
  = List.find (fun d => negb (nonempty (IPRegex d))
                        || MatchString (IPRegex d) (IP_String [x0a; x00; x00; x05]))
      (Devices loadedConfig).
Proof.
  apply (LoadConfig_then_MatchDevice "agent.json" loadedConfig [x0a; x00; x00; x05]).
  vm_compute. reflexivity.
Defined.

Lemma env_config_matches_first_rule_witness :
  (URL (Hub envConfig) = os_Getenv "BESZEL_HUB_URL" /\ URL (Hub envConfig) <> ""%string)
  /\ (Token (Hub envConfig) = os_Getenv "BESZEL_HUB_TOKEN"
      /\ Token (Hub envConfig) <> ""%string)
  /\ (Key (Hub envConfig) = os_Getenv "BESZEL_HUB_KEY" /\ Key (Hub envConfig) <> ""%string)
  /\ Devices envConfig = [rawNet; rawAny]
  /\ MatchDevice envConfig [x0a; x00; x00; x05] = head [rawNet; rawAny]
  /\ snd <$> findPollRule (Devices envConfig) 0 (IP_String [x0a; x00; x00; x05])
     = List.find Poll [rawNet; rawAny].
Proof.
  apply (env_config_matches_first_rule "agent.json" [rawNet; rawAny] envConfig
           [x0a; x00; x00; x05]); vm_compute; reflexivity.
Defined.

(** A device that answers the temperature OID with 250 and nothing else. *)
Definition peerA : SnmpPeer :=
  {| connectOK := true;
     Get := fun oid =>
       if String.eqb oid tempOID
       then Some [ {| PduName := tempOID; PduValue := SnmpInteger 250 |} ]
       else None |}.

Lemma poll_stores_answers_witness :
  exists ds cat,
    stateOf (pollOnce (agentAfter config (firstn 1 runA)) switchA rule peerA)
      (IP_String switchA) = Some ds
    /\ normalizeCategory (ToLower (Category tempMap)) = Some cat
    /\ metricsOf ds cat !! Name tempMap
       = Some (transformValue (Scale tempMap) (math.float64_of_Z (Int64 250))
                 (Round1 (Defs (cfg (agentAfter config (firstn 1 runA)))))).
Proof.
  apply (poll_stores_answers (agentAfter config (firstn 1 runA)) switchA rule peerA
           tempOID tempMap {| PduName := tempOID; PduValue := SnmpInteger 250 |} [] 250).
  - apply (run_wellFormed (firstn 1 runA) (NewAgent config));
      [apply wellFormed_NewAgent|vm_compute; reflexivity].
  - vm_compute. eauto.
  - reflexivity.
  - vm_compute. reflexivity.
  - vm_compute. reflexivity.
  - vm_compute. reflexivity.
  - vm_compute. reflexivity.
  - intros oid' om' Hl Hne. unfold rule, oids in Hl. cbn [Oids] in Hl.
    rewrite lookup_insert in Hl. case_decide as H1; [by subst|].
    rewrite lookup_singleton in Hl. case_decide as H2; [|done].
    injection Hl as <-. left. vm_compute. discriminate.
Defined.
